(** * Workflow engine: graph validation, condition evaluation and traversal

    A shallow embedding of the execution core of the workflow engine
    ([app/engine/executor.py], [app/engine/state_manager.py],
    [app/engine/graph_manager.py], [app/storage/backend.py],
    [app/tools/registry.py], [app/models/*.py]), of the routes built on it
    ([app/api/routes.py]) and of the graph of the sample workflow
    ([app/workflows/code_review.py]), and the properties its specification
    states about it.  The handlers of the sample workflow (regular
    expressions, floating-point scores) are not embedded.

    Conventions of the embedding:
    - a Python [dict] with string keys is an association list in insertion
      order ([Dict]); the process-wide tables of the storage backend and of
      the tool registry, which are only read and written by key, are [gmap]s;
    - Python integers are [Z]; a float is a dyadic rational or one of the
      special values; strings are byte strings in UTF-8, whose byte order is
      the code-point order Python compares by;
    - code that can raise returns a [result]; code that also writes the
      storage backend runs in the monad [M];
    - wall-clock readings ([timestamp], [duration_ms], [started_at],
      [completed_at]) and the random run identifier are not part of the
      embedding: [execute] takes the identifier it would draw as an argument;
    - a handler is a function from the state it is given to the value it
      returns or the exception it raises;
    - the [while] loop of [execute] is unrolled by a [fuel] counter;
    - values are finite trees, and [py_eq], [py_order], [_evaluate_condition]
      and [execute] compare them whatever their depth; [Module
      RecursionLimit] embeds the comparisons, the evaluator and [execute]
      with the nesting the interpreter admits, where a comparison can raise
      [RecursionError], and [execute_within_limit] shows that the two agree
      on every graph whose conditions compare with values nested within the
      limit. *)

From Stdlib Require Import ZArith List String Ascii Bool Lia.
From stdpp Require Import gmap strings pretty.

Set Warnings "-register-all".
Open Scope Z_scope.
Open Scope string_scope.

(* ================================================================== *)
(** * Python values *)

(** A float: not-a-number, an infinity, or the dyadic rational [m * 2^e]
    (every finite IEEE double is one). *)
Inductive pyfloat :=
| FNan
| FInf (negative : bool)
| FFin (m e : Z).

(** The values a state dictionary holds ([Dict[str, Any]] restricted to what
    JSON can carry): finite trees, compared by structure. *)
Inductive Any :=
| PyNone
| PyBool (b : bool)
| PyInt (z : Z)
| PyFloat (f : pyfloat)
| PyStr (s : string)
| PyList (xs : list Any)
| PyDict (d : list (string * Any)).

(** A dictionary with string keys, in insertion order. *)
Definition Dict := list (string * Any).

(** The exceptions of [app/engine/exceptions.py] and the built-in ones the
    engine can meet. *)
Inductive exn :=
| GraphNotFoundError (graph_id : string)
| RunNotFoundError (run_id : string)
| ValidationError (errors : list string)
| ToolNotFoundError (tool_name : string)
| LoopLimitError (node_name : string) (max_iterations : Z)
| NodeExecutionError (node_name : string) (original_error : string)
| StopIteration
| TypeError
| RecursionError.

Inductive result (A : Type) :=
| Ok (a : A)
| Raise (e : exn).
Arguments Ok {A} a.
Arguments Raise {A} e.

(** [str(e)]: the message passed to [Exception.__init__]. *)
Definition str_exn (e : exn) : string :=
  match e with
  | GraphNotFoundError graph_id => "Graph not found: " ++ graph_id
  | RunNotFoundError run_id => "Run not found: " ++ run_id
  | ValidationError _ => "Graph validation failed"
  | ToolNotFoundError tool_name => "Tool not found: " ++ tool_name
  | LoopLimitError node_name max_iterations =>
      "Loop limit exceeded at node '" ++ node_name ++ "': max "
        ++ pretty max_iterations ++ " iterations"
  | NodeExecutionError node_name original_error =>
      "Node execution failed at '" ++ node_name ++ "': " ++ original_error
  | StopIteration => ""
  | TypeError => "unsupported operand types"
  | RecursionError => "maximum recursion depth exceeded in comparison"
  end.

(* ------------------------------------------------------------------ *)
(** ** Dictionaries *)

(** [d.get(k)]: the binding of [k], if any. *)
Fixpoint dict_get {V : Type} (k : string) (d : list (string * V)) : option V :=
  match d with
  | [] => None
  | (k', v) :: rest => if String.eqb k k' then Some v else dict_get k rest
  end.

(** [k in d]. *)
Definition dict_mem {V : Type} (k : string) (d : list (string * V)) : bool :=
  match dict_get k d with Some _ => true | None => false end.

(** [d[k] = v]: overwrite in place, or append a new key. *)
Fixpoint dict_set {V : Type} (k : string) (v : V) (d : list (string * V))
  : list (string * V) :=
  match d with
  | [] => [(k, v)]
  | (k', v') :: rest =>
      if String.eqb k k' then (k, v) :: rest else (k', v') :: dict_set k v rest
  end.

(** [d.update(updates)]: assign every item of [updates], in order. *)
Definition dict_update {V : Type} (d updates : list (string * V))
  : list (string * V) :=
  fold_left (fun acc kv => dict_set (fst kv) (snd kv) acc) updates d.

(** [d.copy()]: a new dictionary with the same items.  Values are trees
    here, so the copy is the list itself; what the copy shares with the
    original is the subject of [Module Aliasing]. *)
Definition dict_copy {V : Type} (d : list (string * V)) : list (string * V) := d.

(* ------------------------------------------------------------------ *)
(** ** Comparison of values *)

(** Exact comparison of two numbers; [None] when one is not-a-number. *)
Definition float_compare (x y : pyfloat) : option comparison :=
  match x, y with
  | FNan, _ | _, FNan => None
  | FInf sx, FInf sy =>
      Some (match sx, sy with
            | true, false => Lt
            | false, true => Gt
            | _, _ => Eq
            end)
  | FInf sx, FFin _ _ => Some (if sx then Lt else Gt)
  | FFin _ _, FInf sy => Some (if sy then Gt else Lt)
  | FFin m1 e1, FFin m2 e2 =>
      let e := Z.min e1 e2 in
      Some (Z.compare (m1 * 2 ^ (e1 - e)) (m2 * 2 ^ (e2 - e)))
  end.

(** The number a value stands for in a comparison: [bool] is a subclass of
    [int], and [int] compares exactly with [float]. *)
Definition to_num (a : Any) : option pyfloat :=
  match a with
  | PyBool b => Some (FFin (if b then 1 else 0) 0)
  | PyInt z => Some (FFin z 0)
  | PyFloat f => Some f
  | _ => None
  end.

Definition num_eq (a b : Any) : bool :=
  match to_num a, to_num b with
  | Some x, Some y =>
      match float_compare x y with Some Eq => true | _ => false end
  | _, _ => false
  end.

(** [a == b], on trees of any depth and item by item: the recursion limit
    of the interpreter is the subject of [Module RecursionLimit] below.
    (The interpreter finds an item equal to itself before it compares the
    values; the two differ for a not-a-number object that is an item of
    both operands, which trees cannot tell from two such objects.) *)
Fixpoint py_eq (a b : Any) {struct a} : bool :=
  match a with
  | PyNone => match b with PyNone => true | _ => false end
  | PyBool _ | PyInt _ | PyFloat _ => num_eq a b
  | PyStr s => match b with PyStr t => String.eqb s t | _ => false end
  | PyList xs =>
      match b with
      | PyList ys =>
          (fix go (xs ys : list Any) {struct xs} : bool :=
             match xs, ys with
             | [], [] => true
             | x :: xs', y :: ys' => py_eq x y && go xs' ys'
             | _, _ => false
             end) xs ys
      | _ => false
      end
  | PyDict d =>
      match b with
      | PyDict d' =>
          Nat.eqb (List.length d) (List.length d')
          && (fix go (d : list (string * Any)) {struct d} : bool :=
                match d with
                | [] => true
                | (k, v) :: rest =>
                    match dict_get k d' with
                    | Some w => py_eq v w
                    | None => false
                    end && go rest
                end) d
      | _ => false
      end
  end.

(** The four ordering operators. *)
Inductive ordering := OpLt | OpGt | OpLe | OpGe.

Definition holds (op : ordering) (c : option comparison) : bool :=
  match c, op with
  | Some Lt, (OpLt | OpLe) => true
  | Some Gt, (OpGt | OpGe) => true
  | Some Eq, (OpLe | OpGe) => true
  | _, _ => false
  end.

(** [a < b], [a > b], [a <= b], [a >= b]: numbers with numbers, strings with
    strings, lists with lists (decided at the first pair of unequal items,
    else by length); anything else raises [TypeError]. *)
Fixpoint py_order (op : ordering) (a b : Any) {struct a} : result bool :=
  match a with
  | PyBool _ | PyInt _ | PyFloat _ =>
      match to_num a, to_num b with
      | Some x, Some y => Ok (holds op (float_compare x y))
      | _, _ => Raise TypeError
      end
  | PyStr s =>
      match b with
      | PyStr t => Ok (holds op (Some (String.compare s t)))
      | _ => Raise TypeError
      end
  | PyList xs =>
      match b with
      | PyList ys =>
          (fix go (xs ys : list Any) {struct xs} : result bool :=
             match xs, ys with
             | x :: xs', y :: ys' =>
                 if py_eq x y then go xs' ys' else py_order op x y
             | _, _ =>
                 Ok (holds op (Some (Nat.compare (List.length xs) (List.length ys))))
             end) xs ys
      | _ => Raise TypeError
      end
  | PyNone | PyDict _ => Raise TypeError
  end.

(** What a field validator of a model returns: the value, or [ValueError].
    (The text of the error prints a Python set, whose order is not fixed; it
    is left out.) *)
Inductive validated (A : Type) :=
| Valid (a : A)
| ValueError.
Arguments Valid {A} a.
Arguments ValueError {A}.

(* ================================================================== *)
(** * Graph configuration ([app/models/graph.py]) *)

Module ConditionConfig.
Record t := mk { field : string; operator : string; value : Any }.

(** [validate_operator]: [v] must be one of the six operator names. *)
Definition valid_ops : list string := ["eq"; "ne"; "gt"; "lt"; "gte"; "lte"].

Definition validate_operator (v : string) : validated string :=
  if negb (existsb (String.eqb v) valid_ops) then ValueError else Valid v.
End ConditionConfig.

Module LoopConfig.
Record t := mk { condition : ConditionConfig.t; max_iterations : Z }.
End LoopConfig.

Module NodeConfig.
Record t := mk { name : string; handler : string; description : option string }.
End NodeConfig.

Module EdgeConfig.
Record t := mk
  { source : string; target : string; condition : option ConditionConfig.t }.
End EdgeConfig.

Module GraphConfig.
Record t := mk
  { name : string;
    nodes : list NodeConfig.t;
    edges : list EdgeConfig.t;
    entry_node : string;
    loops : option (list (string * LoopConfig.t)) }.

(** [validate_unique_node_names]: the list of names and the set of names
    must have the same size. *)
Definition validate_unique_node_names (v : list NodeConfig.t)
  : validated (list NodeConfig.t) :=
  let names := map NodeConfig.name v in
  if negb (Nat.eqb (List.length names)
             (size (list_to_set names : gset string)))
  then ValueError
  else Valid v.
End GraphConfig.

(* ================================================================== *)
(** * The condition evaluator ([WorkflowExecutor._evaluate_condition]) *)

(** The table [operators] of the source, looked up with [.get]. *)
Definition operators (op : string) : option (Any -> Any -> result bool) :=
  if String.eqb op "eq" then Some (fun a b => Ok (py_eq a b))
  else if String.eqb op "ne" then Some (fun a b => Ok (negb (py_eq a b)))
  else if String.eqb op "gt" then Some (py_order OpGt)
  else if String.eqb op "lt" then Some (py_order OpLt)
  else if String.eqb op "gte" then Some (py_order OpGe)
  else if String.eqb op "lte" then Some (py_order OpLe)
  else None.

Definition _evaluate_condition (condition : ConditionConfig.t) (state : Dict)
  : result bool :=
  (* field_value = state.get(condition.field) *)
  let field_value :=
    match dict_get (ConditionConfig.field condition) state with
    | Some v => v
    | None => PyNone
    end in
  match operators (ConditionConfig.operator condition) with
  | None => Ok false
  | Some op_func =>
      match op_func field_value (ConditionConfig.value condition) with
      | Raise TypeError => Ok false          (* except TypeError *)
      | r => r
      end
  end.

(** The boolean the evaluator returns; an exception it lets through would
    count as [false] here, and [evaluate_condition_returns] shows that the
    comparison of trees lets none through. *)
Definition condition_holds (condition : ConditionConfig.t) (state : Dict) : bool :=
  match _evaluate_condition condition state with
  | Ok b => b
  | Raise _ => false
  end.

(* ------------------------------------------------------------------ *)
(** ** Induction on values *)

(** Induction on values that reaches the items of lists and dictionaries. *)
Section AnyInduction.
Variable P : Any -> Prop.
Hypothesis HNone : P PyNone.
Hypothesis HBool : forall b, P (PyBool b).
Hypothesis HInt : forall z, P (PyInt z).
Hypothesis HFloat : forall f, P (PyFloat f).
Hypothesis HStr : forall s, P (PyStr s).
Hypothesis HList : forall xs, Forall P xs -> P (PyList xs).
Hypothesis HDict : forall d, Forall (fun kv => P (snd kv)) d -> P (PyDict d).

Fixpoint Any_nested_ind (a : Any) : P a :=
  match a with
  | PyNone => HNone
  | PyBool b => HBool b
  | PyInt z => HInt z
  | PyFloat f => HFloat f
  | PyStr s => HStr s
  | PyList xs =>
      HList xs
        ((fix items (xs : list Any) : Forall P xs :=
            match xs with
            | [] => List.Forall_nil P
            | x :: rest => List.Forall_cons P x rest (Any_nested_ind x) (items rest)
            end) xs)
  | PyDict d =>
      HDict d
        ((fix items (d : list (string * Any)) : Forall (fun kv => P (snd kv)) d :=
            match d with
            | [] => List.Forall_nil _
            | kv :: rest => List.Forall_cons _ kv rest (Any_nested_ind (snd kv)) (items rest)
            end) d)
  end.
End AnyInduction.

(* ================================================================== *)
(** * Execution models ([app/models/execution.py]) *)

Module ExecutionLog.
Record t := mk
  { node : string; state_before : Dict; state_after : Dict; status : string }.
End ExecutionLog.

Module ExecutionResult.
Record t := mk
  { run_id : string;
    graph_id : string;
    status : string;
    final_state : Dict;
    execution_log : list ExecutionLog.t;
    error : option string }.
End ExecutionResult.

Module RunData.
Record t := mk
  { run_id : string;
    graph_id : string;
    current_state : Dict;
    status : string;
    execution_log : list ExecutionLog.t }.
End RunData.

(* ================================================================== *)
(** * Storage backend ([app/storage/backend.py], [InMemoryStorage]) *)

Module InMemoryStorage.
Record t := mk
  { _graphs : gmap string GraphConfig.t; _runs : gmap string RunData.t }.

Definition empty : t := mk ∅ ∅.

Definition save_graph (graph_id : string) (config : GraphConfig.t) (self : t) : t :=
  mk (<[graph_id := config]> (_graphs self)) (_runs self).

Definition load_graph (graph_id : string) (self : t) : result GraphConfig.t :=
  match _graphs self !! graph_id with
  | None => Raise (GraphNotFoundError graph_id)
  | Some config => Ok config
  end.

Definition save_run (run_id : string) (run_data : RunData.t) (self : t) : t :=
  mk (_graphs self) (<[run_id := run_data]> (_runs self)).

Definition load_run (run_id : string) (self : t) : result RunData.t :=
  match _runs self !! run_id with
  | None => Raise (RunNotFoundError run_id)
  | Some run_data => Ok run_data
  end.

Definition has_graph (graph_id : string) (self : t) : bool :=
  match _graphs self !! graph_id with Some _ => true | None => false end.

Definition has_run (run_id : string) (self : t) : bool :=
  match _runs self !! run_id with Some _ => true | None => false end.

Definition clear (self : t) : t := mk ∅ ∅.
End InMemoryStorage.

(** Code that reads and writes a state of type [S] and may raise.  What
    was written before an exception stays written. *)
Definition Stateful (S A : Type) : Type := S -> S * result A.

Definition ret {S A} (a : A) : Stateful S A := fun s => (s, Ok a).
Definition raise {S A} (e : exn) : Stateful S A := fun s => (s, Raise e).
Definition bind {S A B} (c : Stateful S A) (k : A -> Stateful S B)
  : Stateful S B :=
  fun s =>
    match c s with
    | (s', Ok a) => k a s'
    | (s', Raise e) => (s', Raise e)
    end.
Definition lift {S A} (r : result A) : Stateful S A := fun s => (s, r).

(** The engine runs on the storage backend. *)
Abbreviation M := (Stateful InMemoryStorage.t).

Definition load_run (run_id : string) : M RunData.t :=
  fun s => (s, InMemoryStorage.load_run run_id s).
Definition save_run (run_id : string) (run_data : RunData.t) : M unit :=
  fun s => (InMemoryStorage.save_run run_id run_data s, Ok tt).

Notation "'let*' x ':=' c 'in' k" := (bind c (fun x => k))
  (at level 10, x name, c at level 100, k at level 200).
Notation "c ';;;' k" := (bind c (fun _ => k))
  (at level 100, k at level 200, right associativity).

(* ================================================================== *)
(** * State manager ([app/engine/state_manager.py]) *)

Module StateManager.

Definition initialize (run_id graph_id : string) (initial_state : Dict)
  : M RunData.t :=
  let run_data :=
    RunData.mk run_id graph_id (dict_copy initial_state) "running" [] in
  save_run run_id run_data ;;;
  ret run_data.

Definition get_state (run_id : string) : M Dict :=
  let* run_data := load_run run_id in
  ret (dict_copy (RunData.current_state run_data)).

Definition update_state (run_id : string) (updates : Dict) : M Dict :=
  let* run_data := load_run run_id in
  let run_data :=
    RunData.mk (RunData.run_id run_data) (RunData.graph_id run_data)
      (dict_update (RunData.current_state run_data) updates)
      (RunData.status run_data) (RunData.execution_log run_data) in
  save_run run_id run_data ;;;
  ret (dict_copy (RunData.current_state run_data)).

Definition complete_run (run_id : string) (status : string) : M RunData.t :=
  let* run_data := load_run run_id in
  let run_data :=
    RunData.mk (RunData.run_id run_data) (RunData.graph_id run_data)
      (RunData.current_state run_data) status
      (RunData.execution_log run_data) in
  save_run run_id run_data ;;;
  ret run_data.

Definition get_run (run_id : string) : M RunData.t := load_run run_id.

Definition set_state (run_id : string) (state : Dict) : M unit :=
  let* run_data := load_run run_id in
  let run_data :=
    RunData.mk (RunData.run_id run_data) (RunData.graph_id run_data)
      (dict_copy state) (RunData.status run_data)
      (RunData.execution_log run_data) in
  save_run run_id run_data.

Definition update_run (run_data : RunData.t) : M unit :=
  save_run (RunData.run_id run_data) run_data.

End StateManager.

(* ================================================================== *)
(** * Tool registry ([app/tools/registry.py]) *)

(** What calling a handler comes to: a returned value, or an exception, of
    which the engine keeps [str(e)]. *)
Inductive outcome :=
| Returns (value : Any)
| Raises (message : string).

(** A handler: a function of the state it is handed. *)
Abbreviation Callable := (Dict -> outcome).

Module ToolRegistry.
Record t := mk { _tools : gmap string Callable }.

Definition register (name : string) (func : Callable) (self : t) : t :=
  mk (<[name := func]> (_tools self)).

Definition get (name : string) (self : t) : result Callable :=
  match _tools self !! name with
  | None => Raise (ToolNotFoundError name)
  | Some func => Ok func
  end.

(** [list(self._tools.keys())], as the set of the names: the order of the
    list is the order of registration, which the table does not keep. *)
Definition list_tools (self : t) : gset string := dom (_tools self).

Definition has (name : string) (self : t) : bool :=
  match _tools self !! name with Some _ => true | None => false end.

Definition clear (self : t) : t := mk ∅.
End ToolRegistry.

(* ================================================================== *)
(** * Graph manager ([app/engine/graph_manager.py]) *)

Module GraphManager.

(** [x in node_names], for the set comprehension over [config.nodes]. *)
Definition is_node (config : GraphConfig.t) (x : string) : bool :=
  existsb (fun node => String.eqb (NodeConfig.name node) x)
    (GraphConfig.nodes config).

(** The list [errors] built by [_validate_graph], in the order it appends. *)
Definition validation_errors (config : GraphConfig.t) : list string :=
  let entry_errors :=
    if is_node config (GraphConfig.entry_node config) then []
    else ["Entry node '" ++ GraphConfig.entry_node config ++ "' not found in nodes"] in
  let edge_errors (edge : EdgeConfig.t) :=
    app
      (if is_node config (EdgeConfig.source edge) then []
       else ["Edge source '" ++ EdgeConfig.source edge ++ "' not found in nodes"])
      (if is_node config (EdgeConfig.target edge) then []
       else ["Edge target '" ++ EdgeConfig.target edge ++ "' not found in nodes"]) in
  let loop_errors (kv : string * LoopConfig.t) :=
    if is_node config (fst kv) then []
    else ["Loop node '" ++ fst kv ++ "' not found in nodes"] in
  app entry_errors
    (app (flat_map edge_errors (GraphConfig.edges config))
       match GraphConfig.loops config with
       | None => []
       | Some loops => flat_map loop_errors loops
       end).

Definition _validate_graph (config : GraphConfig.t) : result unit :=
  match validation_errors config with
  | [] => Ok tt
  | errors => Raise (ValidationError errors)
  end.

(** [create_graph], with the identifier it would draw as an argument. *)
Definition create_graph (graph_id : string) (config : GraphConfig.t) : M string :=
  lift (_validate_graph config) ;;;
  (fun s => (InMemoryStorage.save_graph graph_id config s, Ok tt)) ;;;
  ret graph_id.

Definition get_graph (graph_id : string) : M GraphConfig.t :=
  fun s => (s, InMemoryStorage.load_graph graph_id s).

Definition has_graph (graph_id : string) : M bool :=
  fun s => (s, Ok (InMemoryStorage.has_graph graph_id s)).

End GraphManager.

(* ================================================================== *)
(** * Workflow executor ([app/engine/executor.py]) *)

Module WorkflowExecutor.

(** [isinstance(result, dict)], with the dictionary when it is one. *)
Definition as_dict (result : Any) : option Dict :=
  match result with
  | PyDict d => Some d
  | _ => None
  end.

Definition _execute_node (registry : ToolRegistry.t)
    (run_id node_name : string) (graph : GraphConfig.t) : M ExecutionLog.t :=
  (* node_config = next(n for n in graph.nodes if n.name == node_name) *)
  match List.find (fun n => String.eqb (NodeConfig.name n) node_name)
          (GraphConfig.nodes graph) with
  | None => raise StopIteration
  | Some node_config =>
      let* handler := lift (ToolRegistry.get (NodeConfig.handler node_config) registry) in
      let* state_before := StateManager.get_state run_id in
      match handler (dict_copy state_before) with
      | Raises e => raise (NodeExecutionError node_name e)
      | Returns result =>
          match as_dict result with
          | Some updates => StateManager.update_state run_id updates ;;; ret tt
          | None => ret tt
          end ;;;
          let* state_after := StateManager.get_state run_id in
          ret (ExecutionLog.mk node_name state_before state_after "success")
      end
  end.

(** The [for edge in graph.edges] scan of [_get_next_node]. *)
Fixpoint scan_edges (current : string) (current_state : Dict)
    (edges : list EdgeConfig.t) : result (option string) :=
  match edges with
  | [] => Ok None
  | edge :: rest =>
      if negb (String.eqb (EdgeConfig.source edge) current)
      then scan_edges current current_state rest
      else
        match EdgeConfig.condition edge with
        | None => Ok (Some (EdgeConfig.target edge))
        | Some condition =>
            match _evaluate_condition condition current_state with
            | Raise e => Raise e
            | Ok false => scan_edges current current_state rest
            | Ok true => Ok (Some (EdgeConfig.target edge))
            end
        end
  end.

Definition _get_next_node (current run_id : string) (graph : GraphConfig.t)
  : M (option string) :=
  let* current_state := StateManager.get_state run_id in
  lift (scan_edges current current_state (GraphConfig.edges graph)).

(** The local variables of [execute] that an iteration updates. *)
Record locals := Locals
  { execution_log : list ExecutionLog.t; loop_counts : gmap string Z }.

(** How an iteration of the [while] loop ends: with the next value of
    [current_node], or with an exception. *)
Inductive control :=
| Next (current_node : option string)
| Throw (e : exn).

(** The loop policy of a node: [graph.loops and current_node in graph.loops]
    holds exactly when there is one ([None] and the empty dictionary are both
    falsy). *)
Definition loop_config_at (graph : GraphConfig.t) (current_node : string)
  : option LoopConfig.t :=
  match GraphConfig.loops graph with
  | None => None
  | Some loops => dict_get current_node loops
  end.

(** Advance through the edges: the last statement of the loop body. *)
Definition advance (run_id : string) (graph : GraphConfig.t)
    (current_node : string) (vars : locals) (s : InMemoryStorage.t)
  : InMemoryStorage.t * locals * control :=
  match _get_next_node current_node run_id graph s with
  | (s', Raise e) => (s', vars, Throw e)
  | (s', Ok next) => (s', vars, Next next)
  end.

(** One iteration of [while current_node is not None]. *)
Definition loop_body (registry : ToolRegistry.t) (run_id : string)
    (graph : GraphConfig.t) (current_node : string) (vars : locals)
    (s : InMemoryStorage.t) : InMemoryStorage.t * locals * control :=
  match _execute_node registry run_id current_node graph s with
  | (s1, Raise e) => (s1, vars, Throw e)
  | (s1, Ok log_entry) =>
      let vars1 :=
        Locals (app (execution_log vars) [log_entry]) (loop_counts vars) in
      match loop_config_at graph current_node with
      | None => advance run_id graph current_node vars1 s1
      | Some loop_config =>
          let count := default 0 (loop_counts vars1 !! current_node) + 1 in
          let vars2 :=
            Locals (execution_log vars1)
              (<[current_node := count]> (loop_counts vars1)) in
          if Z.ltb (LoopConfig.max_iterations loop_config) count
          then (s1, vars2, Throw (LoopLimitError current_node
                                    (LoopConfig.max_iterations loop_config)))
          else
            match StateManager.get_state run_id s1 with
            | (s2, Raise e) => (s2, vars2, Throw e)
            | (s2, Ok current_state) =>
                match _evaluate_condition
                        (LoopConfig.condition loop_config) current_state with
                | Raise e => (s2, vars2, Throw e)
                | Ok true => (s2, vars2, Next (Some current_node))   (* continue *)
                | Ok false => advance run_id graph current_node vars2 s2
                end
            end
      end
  end.

(** How the [while] loop ends. *)
Inductive loop_exit :=
| Finished               (* current_node became None *)
| Raised (e : exn)       (* an exception left the loop *)
| Exhausted.             (* still running when the fuel ran out *)

Fixpoint while_loop (fuel : nat) (registry : ToolRegistry.t) (run_id : string)
    (graph : GraphConfig.t) (current_node : option string) (vars : locals)
    (s : InMemoryStorage.t) : InMemoryStorage.t * locals * loop_exit :=
  match current_node with
  | None => (s, vars, Finished)
  | Some node =>
      match fuel with
      | O => (s, vars, Exhausted)
      | S fuel' =>
          match loop_body registry run_id graph node vars s with
          | (s', vars', Throw e) => (s', vars', Raised e)
          | (s', vars', Next next) =>
              while_loop fuel' registry run_id graph next vars' s'
          end
      end
  end.

(** The [except Exception as e] branch of [execute]. *)
Definition on_exception (run_id graph_id : string) (vars : locals) (e : exn)
  : M ExecutionResult.t :=
  StateManager.complete_run run_id "failed" ;;;
  let* final_state := StateManager.get_state run_id in
  ret (ExecutionResult.mk run_id graph_id "failed" final_state
         (execution_log vars) (Some (str_exn e))).

(** [execute]; [None] when the fuel does not reach the end of the run. *)
Definition execute (fuel : nat) (registry : ToolRegistry.t)
    (run_id graph_id : string) (initial_state : Dict)
  : M (option ExecutionResult.t) :=
  let* graph := GraphManager.get_graph graph_id in
  StateManager.initialize run_id graph_id initial_state ;;;
  fun s =>
    match while_loop fuel registry run_id graph
            (Some (GraphConfig.entry_node graph)) (Locals [] ∅) s with
    | (s', vars, Exhausted) => (s', Ok None)
    | (s', vars, Raised e) =>
        (let* r := on_exception run_id graph_id vars e in ret (Some r)) s'
    | (s', vars, Finished) =>
        match StateManager.complete_run run_id "completed" s' with
        | (s'', Ok run_data) =>
            (s'', Ok (Some (ExecutionResult.mk run_id graph_id "completed"
                              (RunData.current_state run_data)
                              (execution_log vars) None)))
        | (s'', Raise e) =>
            (let* r := on_exception run_id graph_id vars e in ret (Some r)) s''
        end
    end.

End WorkflowExecutor.

Import WorkflowExecutor.

(* ================================================================== *)
(** * Notions used in the statements *)

Definition with_state (run_data : RunData.t) (state : Dict) : RunData.t :=
  RunData.mk (RunData.run_id run_data) (RunData.graph_id run_data) state
    (RunData.status run_data) (RunData.execution_log run_data).

Definition with_status (run_data : RunData.t) (status : string) : RunData.t :=
  RunData.mk (RunData.run_id run_data) (RunData.graph_id run_data)
    (RunData.current_state run_data) status (RunData.execution_log run_data).

(** The record of a run in the storage. *)
Definition run_of (s : InMemoryStorage.t) (run_id : string) : option RunData.t :=
  InMemoryStorage._runs s !! run_id.

(** The state after a handler returned [result]. *)
Definition merged (state : Dict) (result : Any) : Dict :=
  match as_dict result with
  | Some updates => dict_update state updates
  | None => state
  end.

Definition find_node (graph : GraphConfig.t) (node_name : string)
  : option NodeConfig.t :=
  List.find (fun n => String.eqb (NodeConfig.name n) node_name)
    (GraphConfig.nodes graph).

(** What an iteration leaves behind: the record of the run, changed in its
    state at most, and a log that grew by at most one successful entry for
    the node that ran. *)
Definition log_grows (current_node : string) (before after : list ExecutionLog.t)
  : Prop :=
  after = before
  \/ exists log_entry,
       after = (before ++ [log_entry])%list
       /\ ExecutionLog.node log_entry = current_node
       /\ ExecutionLog.status log_entry = "success".

(** The record [initialize] stores. *)
Definition fresh_run (run_id graph_id : string) (initial_state : Dict) : RunData.t :=
  RunData.mk run_id graph_id initial_state "running" [].

(** The storage in which the loop of [execute] starts. *)
Definition started (run_id graph_id : string) (initial_state : Dict)
    (s : InMemoryStorage.t) : InMemoryStorage.t :=
  InMemoryStorage.save_run run_id (fresh_run run_id graph_id initial_state) s.

(** The variables with which the loop of [execute] starts. *)
Definition no_locals : locals := Locals [] ∅.

(** [n] iterations of the loop that each end with a next node: the
    configurations a run goes through. *)
Fixpoint iterations (n : nat) (registry : ToolRegistry.t) (run_id : string)
    (graph : GraphConfig.t) (current_node : string) (vars : locals)
    (s : InMemoryStorage.t) : option (string * locals * InMemoryStorage.t) :=
  match n with
  | O => Some (current_node, vars, s)
  | S n' =>
      match loop_body registry run_id graph current_node vars s with
      | (s', vars', Next (Some next)) =>
          iterations n' registry run_id graph next vars' s'
      | _ => None
      end
  end.

(** An edge that [_get_next_node] takes when it meets it: it leaves
    [current] and its condition is absent or evaluates to true. *)
Definition edge_matches (current : string) (current_state : Dict)
    (edge : EdgeConfig.t) : bool :=
  String.eqb (EdgeConfig.source edge) current
  && match EdgeConfig.condition edge with
     | None => true
     | Some condition => condition_holds condition current_state
     end.

(** The names a graph definition may refer to, and those it refers to in its
    loop table. *)
Definition node_names (config : GraphConfig.t) : list string :=
  map NodeConfig.name (GraphConfig.nodes config).

Definition loop_keys (config : GraphConfig.t) : list string :=
  match GraphConfig.loops config with
  | None => []
  | Some loops => map fst loops
  end.

(** A graph definition that breaks one of the reference invariants. *)
Definition violation (config : GraphConfig.t) : Prop :=
  ~ In (GraphConfig.entry_node config) (node_names config)
  \/ (exists edge, In edge (GraphConfig.edges config)
        /\ (~ In (EdgeConfig.source edge) (node_names config)
            \/ ~ In (EdgeConfig.target edge) (node_names config)))
  \/ (exists key, In key (loop_keys config) /\ ~ In key (node_names config)).

(** The four messages of [_validate_graph]. *)
Definition entry_error (x : string) : string :=
  "Entry node '" ++ x ++ "' not found in nodes".
Definition source_error (x : string) : string :=
  "Edge source '" ++ x ++ "' not found in nodes".
Definition target_error (x : string) : string :=
  "Edge target '" ++ x ++ "' not found in nodes".
Definition loop_error (x : string) : string :=
  "Loop node '" ++ x ++ "' not found in nodes".

(** The graph with another edge list. *)
Definition with_edges (graph : GraphConfig.t) (edges : list EdgeConfig.t)
  : GraphConfig.t :=
  GraphConfig.mk (GraphConfig.name graph) (GraphConfig.nodes graph) edges
    (GraphConfig.entry_node graph) (GraphConfig.loops graph).

(** The storage after a handler returned [result] to the run [run_data]. *)
Definition after_node (run_id : string) (run_data : RunData.t) (result : Any)
    (s : InMemoryStorage.t) : InMemoryStorage.t :=
  match as_dict result with
  | Some updates =>
      InMemoryStorage.save_run run_id
        (with_state run_data
           (dict_update (RunData.current_state run_data) updates)) s
  | None => s
  end.

(** The handler of a node, when the node is defined and its handler
    registered. *)
Definition handler_of (registry : ToolRegistry.t) (graph : GraphConfig.t)
    (node_name : string) : option Callable :=
  match find_node graph node_name with
  | None => None
  | Some node_config =>
      ToolRegistry._tools registry !! NodeConfig.handler node_config
  end.

(** The ways the execution of a defined node fails: its handler is not
    registered, or it raises on the state it is given. *)
Definition node_fails (registry : ToolRegistry.t) (graph : GraphConfig.t)
    (node_name : string) (state : Dict) (e : exn) : Prop :=
  exists node_config,
    find_node graph node_name = Some node_config
    /\ ((ToolRegistry._tools registry !! NodeConfig.handler node_config = None
         /\ e = ToolNotFoundError (NodeConfig.handler node_config))
        \/ (exists handler message,
              ToolRegistry._tools registry !! NodeConfig.handler node_config
              = Some handler
              /\ handler state = Raises message
              /\ e = NodeExecutionError node_name message)).

(* ================================================================== *)
(** * State hand-off with object identity

    The embedding above treats a state as a tree.  In Python a list or a
    dictionary is an object with identity, and [dict.copy()] makes a new
    dictionary that holds the same value objects.  This module embeds the
    state manager and [_execute_node] once more, over a heap of objects, to
    see what each hand-off of the state shares.  The lookups of the node
    and of its handler touch no object and are left out: [_execute_node]
    takes the handler itself. *)

Module Aliasing.

(** A location: the identity of a list or of a dictionary. *)
Abbreviation loc := nat.

(** A value: a scalar, or a reference to a list or a dictionary. *)
Inductive val :=
| VNone
| VBool (b : bool)
| VInt (z : Z)
| VFloat (f : pyfloat)
| VStr (s : string)
| VRef (l : loc).

Inductive obj :=
| OList (items : list val)
| ODict (items : list (string * val)).

(** The heap: the object at location [l] is the [l]-th of the list. *)
Abbreviation heap := (list obj).

(** A new object, at the first free location. *)
Definition alloc (o : obj) (h : heap) : loc * heap :=
  (List.length h, (h ++ [o])%list).

Module ExecutionLog.
Record t := mk
  { node : string; state_before : loc; state_after : loc; status : string }.
End ExecutionLog.

Module RunData.
Record t := mk
  { run_id : string;
    graph_id : string;
    current_state : loc;
    status : string;
    execution_log : list ExecutionLog.t }.
End RunData.

(** The objects, and the run table of the storage backend. *)
Record world := World { objects : heap; _runs : gmap string RunData.t }.

(** [d.copy()]: a new dictionary with the items of [d]. *)
Definition dict_copy (d : loc) : Stateful world loc :=
  fun w =>
    match objects w !! d with
    | Some (ODict items) =>
        let (l, h) := alloc (ODict items) (objects w) in
        (World h (_runs w), Ok l)
    | _ => (w, Raise TypeError)
    end.

Definition load_run (run_id : string) : Stateful world RunData.t :=
  fun w =>
    match _runs w !! run_id with
    | None => (w, Raise (RunNotFoundError run_id))
    | Some run_data => (w, Ok run_data)
    end.

Definition save_run (run_id : string) (run_data : RunData.t)
  : Stateful world unit :=
  fun w => (World (objects w) (<[run_id := run_data]> (_runs w)), Ok tt).

(** [StateManager.initialize]: [current_state=initial_state.copy()]. *)
Definition initialize (run_id graph_id : string) (initial_state : loc)
  : Stateful world RunData.t :=
  let* current_state := dict_copy initial_state in
  let run_data := RunData.mk run_id graph_id current_state "running" [] in
  save_run run_id run_data ;;;
  ret run_data.

(** [StateManager.get_state]: [run_data.current_state.copy()]. *)
Definition get_state (run_id : string) : Stateful world loc :=
  let* run_data := load_run run_id in
  dict_copy (RunData.current_state run_data).

(** [run_data.current_state.update(updates)]: the dictionary of the run is
    written in place. *)
Definition update_in_place (d updates : loc) : Stateful world unit :=
  fun w =>
    match objects w !! d, objects w !! updates with
    | Some (ODict items), Some (ODict new_items) =>
        (World (<[d := ODict (dict_update items new_items)]> (objects w))
           (_runs w), Ok tt)
    | _, _ => (w, Raise TypeError)
    end.

(** [StateManager.update_state]. *)
Definition update_state (run_id : string) (updates : loc) : Stateful world loc :=
  let* run_data := load_run run_id in
  update_in_place (RunData.current_state run_data) updates ;;;
  save_run run_id run_data ;;;
  dict_copy (RunData.current_state run_data).

(** What calling a handler comes to. *)
Inductive outcome :=
| Returns (value : val)
| Raises (message : string).

(** A handler is given the location of a dictionary and may read and write
    the heap. *)
Abbreviation Callable := (loc -> heap -> heap * outcome).

(** [isinstance(result, dict)], with the location of the dictionary. *)
Definition as_dict (result : val) (h : heap) : option loc :=
  match result with
  | VRef l => match h !! l with Some (ODict _) => Some l | _ => None end
  | _ => None
  end.

(** [WorkflowExecutor._execute_node], from [state_before = ...] on. *)
Definition _execute_node (handler : Callable) (run_id node_name : string)
  : Stateful world ExecutionLog.t :=
  let* state_before := get_state run_id in
  let* argument := dict_copy state_before in     (* state_before.copy() *)
  let* result :=
    fun w =>
      match handler argument (objects w) with
      | (h, Raises e) =>
          (World h (_runs w), Raise (NodeExecutionError node_name e))
      | (h, Returns result) => (World h (_runs w), Ok result)
      end in
  (fun w =>
     match as_dict result (objects w) with
     | Some updates => (update_state run_id updates ;;; ret tt) w
     | None => (w, Ok tt)
     end) ;;;
  let* state_after := get_state run_id in
  ret (ExecutionLog.mk node_name state_before state_after "success").

(** What is seen through a value: the tree of everything reachable from it,
    to a depth of [fuel] references. *)
Fixpoint view (fuel : nat) (h : heap) (v : val) : option Any :=
  match v with
  | VNone => Some PyNone
  | VBool b => Some (PyBool b)
  | VInt z => Some (PyInt z)
  | VFloat f => Some (PyFloat f)
  | VStr s => Some (PyStr s)
  | VRef l =>
      match fuel with
      | O => None
      | S fuel' =>
          match h !! l with
          | None => None
          | Some (OList items) =>
              option_map PyList
                (fold_right
                   (fun item rest =>
                      match view fuel' h item, rest with
                      | Some a, Some r => Some (a :: r)
                      | _, _ => None
                      end)
                   (Some []) items)
          | Some (ODict items) =>
              option_map PyDict
                (fold_right
                   (fun item rest =>
                      match view fuel' h (snd item), rest with
                      | Some a, Some r => Some ((fst item, a) :: r)
                      | _, _ => None
                      end)
                   (Some []) items)
          end
      end
  end.

(** A handler that changes nothing but the dictionary it is given and
    objects it creates. *)
Definition writes_own_argument_only (handler : Callable) : Prop :=
  forall argument h,
    (List.length h <= List.length (fst (handler argument h)))%nat
    /\ forall l, (l < List.length h)%nat -> l <> argument ->
         fst (handler argument h) !! l = h !! l.

(** [state["items"].append(2)], returning [None]: a handler that changes a
    list nested in the state it is given. *)
Definition append_item : Callable :=
  fun argument h =>
    match h !! argument with
    | Some (ODict items) =>
        match dict_get "items" items with
        | Some (VRef l) =>
            match h !! l with
            | Some (OList xs) =>
                (<[l := OList (xs ++ [VInt 2])]> h, Returns VNone)
            | _ => (h, Raises "'items' is not a list")
            end
        | _ => (h, Raises "'items'")
        end
    | _ => (h, Raises "not a dict")
    end.

(** [state["seen"] = True], returning [{"count": 1}]: a handler that
    changes the dictionary it is given. *)
Definition mark_seen : Callable :=
  fun argument h =>
    match h !! argument with
    | Some (ODict items) =>
        let h1 := <[argument := ODict (dict_set "seen" (VBool true) items)]> h in
        let (l, h2) := alloc (ODict [("count", VInt 1)]) h1 in
        (h2, Returns (VRef l))
    | _ => (h, Raises "not a dict")
    end.

(** The caller's objects: the list [[1]] at location 0 and the dictionary
    [{"items": that list}] at location 1, which is passed as
    [initial_state]. *)
Definition caller_heap : heap := [OList [VInt 1]; ODict [("items", VRef 0)]].
Definition caller_world : world := World caller_heap ∅.

(** The run ["run"] created from the caller's dictionary, and the execution
    of a node whose handler is [append_item] in that run. *)
Definition created_world : world :=
  fst (initialize "run" "graph" 1%nat caller_world).
Definition after_append : world * result ExecutionLog.t :=
  _execute_node append_item "run" "node" created_world.

End Aliasing.

(* ================================================================== *)
(** * Sample graphs, handlers and storage *)

Module Sample.

(** A handler that never asks to stop. *)
Definition keep_going : Callable :=
  fun _ => Returns (PyDict [("stop", PyBool false)]).

(** A handler that returns [{"a": 2, "b": 3}]. *)
Definition set_a : Callable :=
  fun _ => Returns (PyDict [("a", PyInt 2); ("b", PyInt 3)]).

(** A handler that raises. *)
Definition failing : Callable := fun _ => Raises "boom".

Definition registry : ToolRegistry.t :=
  ToolRegistry.register "keep_going" keep_going
    (ToolRegistry.register "set_a" set_a
       (ToolRegistry.register "failing" failing (ToolRegistry.mk ∅))).

(** One node that loops while [stop != True], at most 3 times, with an edge
    back to itself and an edge out. *)
Definition looping_policy : LoopConfig.t :=
  LoopConfig.mk (ConditionConfig.mk "stop" "ne" (PyBool true)) 3.

Definition looping_graph : GraphConfig.t :=
  GraphConfig.mk "looping"
    [NodeConfig.mk "A" "keep_going" None; NodeConfig.mk "B" "set_a" None]
    [EdgeConfig.mk "A" "A" None; EdgeConfig.mk "A" "B" None]
    "A" (Some [("A", looping_policy)]).

(** The edges [A -> B if x < 5], [A -> C if x < 10], [A -> D]. *)
Definition branching_graph : GraphConfig.t :=
  GraphConfig.mk "branching"
    [NodeConfig.mk "A" "set_a" None; NodeConfig.mk "B" "set_a" None;
     NodeConfig.mk "C" "set_a" None; NodeConfig.mk "D" "set_a" None]
    [EdgeConfig.mk "A" "B" (Some (ConditionConfig.mk "x" "lt" (PyInt 5)));
     EdgeConfig.mk "A" "C" (Some (ConditionConfig.mk "x" "lt" (PyInt 10)));
     EdgeConfig.mk "A" "D" None]
    "A" None.

(** [A], whose handler returns, then [B], whose handler raises. *)
Definition failing_graph : GraphConfig.t :=
  GraphConfig.mk "failing"
    [NodeConfig.mk "A" "set_a" None; NodeConfig.mk "B" "failing" None]
    [EdgeConfig.mk "A" "B" None]
    "A" None.

(** A definition with a wrong entry node, a wrong edge target, a wrong edge
    source and a wrong loop key. *)
Definition broken_graph : GraphConfig.t :=
  GraphConfig.mk "broken"
    [NodeConfig.mk "A" "set_a" None]
    [EdgeConfig.mk "A" "B" None; EdgeConfig.mk "C" "A" None]
    "start" (Some [("Z", looping_policy)]).

Definition storage : InMemoryStorage.t :=
  InMemoryStorage.save_graph "looping" looping_graph
    (InMemoryStorage.save_graph "branching" branching_graph
       (InMemoryStorage.save_graph "failing" failing_graph
          InMemoryStorage.empty)).

(** The run ["run"] of the branching graph, started with [x = 3]. *)
Definition branching_run : InMemoryStorage.t :=
  started "run" "branching" [("x", PyInt 3)] storage.

(** The run ["run"] of the failing graph after its first node, and its
    local variables then. *)
Definition failing_run_at_B : InMemoryStorage.t :=
  InMemoryStorage.save_run "run"
    (fresh_run "run" "failing" [("c", PyInt 0); ("a", PyInt 2); ("b", PyInt 3)])
    (started "run" "failing" [("c", PyInt 0)] storage).

Definition failing_vars_at_B : locals :=
  Locals
    [ExecutionLog.mk "A" [("c", PyInt 0)]
       [("c", PyInt 0); ("a", PyInt 2); ("b", PyInt 3)] "success"]
    ∅.

(** The run ["run"] of the looping graph, started with an empty state, and
    the execution of its node once. *)
Definition looping_run : InMemoryStorage.t :=
  started "run" "looping" [] storage.

Definition looping_entry : ExecutionLog.t :=
  ExecutionLog.mk "A" [] [("stop", PyBool false)] "success".

Definition looping_run_after_A : InMemoryStorage.t :=
  InMemoryStorage.save_run "run"
    (fresh_run "run" "looping" [("stop", PyBool false)]) looping_run.

(** What [execute] returns for the failing graph. *)
Definition failing_result : ExecutionResult.t :=
  ExecutionResult.mk "run" "failing" "failed"
    [("c", PyInt 0); ("a", PyInt 2); ("b", PyInt 3)]
    [ExecutionLog.mk "A" [("c", PyInt 0)]
       [("c", PyInt 0); ("a", PyInt 2); ("b", PyInt 3)] "success"]
    (Some "Node execution failed at 'B': boom").

End Sample.

(* ================================================================== *)
(** * API routes ([app/api/routes.py], [app/models/api.py])

    The module-level [storage], [graph_manager], [state_manager] and
    [executor] are the storage the routes run on and the registry they are
    given.  A route returns its response model, or raises [HTTPException],
    which FastAPI turns into an error response; any other exception leaves
    the route as it is. *)

(** [e.details], the dictionary an engine exception is built with. *)
Definition details_exn (e : exn) : Dict :=
  match e with
  | GraphNotFoundError graph_id => [("graph_id", PyStr graph_id)]
  | RunNotFoundError run_id => [("run_id", PyStr run_id)]
  | ValidationError errors => [("errors", PyList (map PyStr errors))]
  | ToolNotFoundError tool_name => [("tool_name", PyStr tool_name)]
  | LoopLimitError node_name max_iterations =>
      [("node", PyStr node_name); ("max_iterations", PyInt max_iterations)]
  | NodeExecutionError node_name original_error =>
      [("node", PyStr node_name); ("original_error", PyStr original_error)]
  | StopIteration | TypeError | RecursionError => []
  end.

Module routes.

(** The [detail] of an [HTTPException]. *)
Record detail := Detail { error : string; message : string; details : Dict }.

Inductive response (A : Type) :=
| Response (body : A)
| HTTPException (status_code : Z) (detail : detail).
Arguments Response {A} body.
Arguments HTTPException {A} status_code detail.

Module CreateGraphResponse.
Record t := mk { graph_id : string }.
End CreateGraphResponse.

Module RunGraphResponse.
Record t := mk
  { run_id : string;
    status : string;
    final_state : Dict;
    execution_log : list ExecutionLog.t }.
End RunGraphResponse.

Module StateResponse.
Record t := mk { run_id : string; status : string; current_state : Dict }.
End StateResponse.

(** [POST /graph/create], with the identifier [create_graph] would draw. *)
Definition create_graph (graph_id : string) (config : GraphConfig.t)
  : M (response CreateGraphResponse.t) :=
  fun s =>
    match GraphManager.create_graph graph_id config s with
    | (s', Ok graph_id) => (s', Ok (Response (CreateGraphResponse.mk graph_id)))
    | (s', Raise (ValidationError errors)) =>
        (s', Ok (HTTPException 400
                   (Detail "ValidationError"
                      (str_exn (ValidationError errors))
                      (details_exn (ValidationError errors)))))
    | (s', Raise e) => (s', Raise e)
    end.

(** [result.error or "Workflow execution failed"]. *)
Definition error_or_default (error : option string) : string :=
  match error with
  | None => "Workflow execution failed"
  | Some message =>
      if String.eqb message "" then "Workflow execution failed" else message
  end.

(** [POST /graph/run]; [None] when the fuel does not reach the end of the
    run. *)
Definition run_graph (fuel : nat) (registry : ToolRegistry.t)
    (run_id graph_id : string) (initial_state : Dict)
  : M (option (response RunGraphResponse.t)) :=
  fun s =>
    match execute fuel registry run_id graph_id initial_state s with
    | (s', Ok None) => (s', Ok None)
    | (s', Ok (Some result)) =>
        if String.eqb (ExecutionResult.status result) "failed"
        then
          (s', Ok (Some (HTTPException 500
                           (Detail "ExecutionError"
                              (error_or_default (ExecutionResult.error result))
                              [("run_id", PyStr (ExecutionResult.run_id result))]))))
        else
          (s', Ok (Some (Response
                           (RunGraphResponse.mk
                              (ExecutionResult.run_id result)
                              (ExecutionResult.status result)
                              (ExecutionResult.final_state result)
                              (ExecutionResult.execution_log result)))))
    | (s', Raise (GraphNotFoundError missing)) =>
        (s', Ok (Some (HTTPException 404
                         (Detail "GraphNotFoundError"
                            (str_exn (GraphNotFoundError missing))
                            (details_exn (GraphNotFoundError missing))))))
    | (s', Raise e) => (s', Raise e)
    end.

(** [GET /graph/state/{run_id}]. *)
Definition get_state (run_id : string) : M (response StateResponse.t) :=
  fun s =>
    match StateManager.get_run run_id s with
    | (s', Ok run_data) =>
        (s', Ok (Response
                   (StateResponse.mk (RunData.run_id run_data)
                      (RunData.status run_data)
                      (RunData.current_state run_data))))
    | (s', Raise (RunNotFoundError missing)) =>
        (s', Ok (HTTPException 404
                   (Detail "RunNotFoundError"
                      (str_exn (RunNotFoundError missing))
                      (details_exn (RunNotFoundError missing)))))
    | (s', Raise e) => (s', Raise e)
    end.

End routes.

(* ================================================================== *)
(** * The code review workflow ([app/workflows/code_review.py]) *)

Module code_review.

(** [create_code_review_workflow(threshold)]. *)
Definition create_code_review_workflow (threshold : pyfloat) : GraphConfig.t :=
  GraphConfig.mk "code_review"
    [NodeConfig.mk "extract" "extract_functions"
       (Some "Extract function definitions from code");
     NodeConfig.mk "complexity" "check_complexity"
       (Some "Calculate code complexity score");
     NodeConfig.mk "issues" "detect_issues" (Some "Detect code issues");
     NodeConfig.mk "improve" "suggest_improvements"
       (Some "Generate improvement suggestions")]
    [EdgeConfig.mk "extract" "complexity" None;
     EdgeConfig.mk "complexity" "issues" None;
     EdgeConfig.mk "issues" "improve" None;
     EdgeConfig.mk "improve" "complexity"
       (Some (ConditionConfig.mk "quality_score" "lt" (PyFloat threshold)))]
    "extract"
    (Some [("improve",
            LoopConfig.mk
              (ConditionConfig.mk "quality_score" "lt" (PyFloat threshold)) 5)]).

End code_review.

(* ================================================================== *)
(** * Notions used in the further statements *)

(** The number of records of a node in a log. *)
Definition count_node (node_name : string) (log : list ExecutionLog.t) : nat :=
  List.length
    (List.filter (fun log_entry => String.eqb (ExecutionLog.node log_entry) node_name)
       log).

(** A log whose records follow one another: the first starts from [state],
    each starts from the state the one before left, and the last leaves
    [final]. *)
Fixpoint chained (state : Dict) (log : list ExecutionLog.t) (final : Dict)
  : Prop :=
  match log with
  | [] => state = final
  | log_entry :: rest =>
      ExecutionLog.state_before log_entry = state
      /\ chained (ExecutionLog.state_after log_entry) rest final
  end.

(** The exceptions of the engine's own taxonomy that end a run. *)
Definition engine_failure (e : exn) : Prop :=
  match e with
  | ToolNotFoundError _ | NodeExecutionError _ _ | LoopLimitError _ _ => True
  | _ => False
  end.

(** Every run but [run_id], and every graph, is the same in [s] and [s']. *)
Definition same_elsewhere (run_id : string) (s s' : InMemoryStorage.t) : Prop :=
  InMemoryStorage._graphs s' = InMemoryStorage._graphs s
  /\ forall other, other <> run_id -> run_of s' other = run_of s other.

(** The next node the edges give from [current_node] in [state]. *)
Definition next_by_edges (graph : GraphConfig.t) (current_node : string)
    (state : Dict) : option string :=
  option_map EdgeConfig.target
    (List.find (edge_matches current_node state) (GraphConfig.edges graph)).

(** The four ordering operators of a condition. *)
Definition ordering_operators : list string := ["gt"; "lt"; "gte"; "lte"].

(** Two ordering operators that no outcome of a comparison satisfies
    together. *)
Definition exclusive (op1 op2 : ordering) : Prop :=
  forall c, holds op1 c = true -> holds op2 c = true -> False.

(* ================================================================== *)
(** * Further sample graphs and runs *)

Module MoreSamples.

(** One node with an unconditional edge to itself and no loop policy. *)
Definition spinning_graph : GraphConfig.t :=
  GraphConfig.mk "spinning"
    [NodeConfig.mk "A" "keep_going" None]
    [EdgeConfig.mk "A" "A" None]
    "A" None.

Definition spinning_storage : InMemoryStorage.t :=
  InMemoryStorage.save_graph "spinning" spinning_graph Sample.storage.

(** What [execute] returns for the looping graph with a limit of 3. *)
Definition looping_step : ExecutionLog.t :=
  ExecutionLog.mk "A" [("stop", PyBool false)] [("stop", PyBool false)] "success".

Definition looping_result : ExecutionResult.t :=
  ExecutionResult.mk "run" "looping" "failed" [("stop", PyBool false)]
    [Sample.looping_entry; looping_step; looping_step; looping_step]
    (Some "Loop limit exceeded at node 'A': max 3 iterations").

(** The code review workflow with its default threshold of 70, a handler
    for its last node that reports a quality of 80, and a run of it that is
    about to execute that node. *)
Definition review_graph : GraphConfig.t :=
  code_review.create_code_review_workflow (FFin 70 0).

Definition review_registry : ToolRegistry.t :=
  ToolRegistry.register "suggest_improvements"
    (fun _ => Returns (PyDict [("quality_score", PyInt 80)]))
    Sample.registry.

Definition review_run : InMemoryStorage.t :=
  started "run" "review" [("code", PyStr "pass")]
    (InMemoryStorage.save_graph "review" review_graph Sample.storage).

Definition review_policy : LoopConfig.t :=
  LoopConfig.mk (ConditionConfig.mk "quality_score" "lt" (PyFloat (FFin 70 0))) 5.

End MoreSamples.

(* ================================================================== *)
(** * Comparisons under the recursion limit of the interpreter

    [py_eq] and [py_order] compare trees of any depth.  The interpreter
    compares two lists, or two dictionaries, item by item, with one nested
    call for each level of nesting, and raises [RecursionError] once the
    calls nest deeper than it admits.  [_evaluate_condition] catches
    [TypeError] only, so that exception leaves it, and [execute] reports it
    as a failed run.  This module embeds the comparisons, the evaluator and
    the loop of [execute] once more with that limit: [limit] is the number
    of nested comparison calls the interpreter still admits where the
    operator function compares its two operands.  Every pair of items costs
    a call here.  The interpreter skips the call for a pair that is one and
    the same object, so it can do with fewer calls than [depth] counts, never
    with more; two lists or dictionaries built apart are never the same
    object. *)

(** The number of nested comparison calls a value can ask for: one for the
    value, and one for each level of items below it. *)
Fixpoint depth (a : Any) : nat :=
  match a with
  | PyList xs =>
      S ((fix items (xs : list Any) : nat :=
            match xs with
            | [] => O
            | x :: rest => Nat.max (depth x) (items rest)
            end) xs)
  | PyDict d =>
      S ((fix items (d : list (string * Any)) : nat :=
            match d with
            | [] => O
            | (_, v) :: rest => Nat.max (depth v) (items rest)
            end) d)
  | _ => 1%nat
  end.

Module RecursionLimit.

(** [a == b] with [limit] nested calls left.  Two lists of different
    lengths, and two dictionaries of different sizes, are unequal without a
    look at their items; otherwise the items are compared in order, up to
    the first pair that is unequal or raises. *)
Fixpoint py_eq (limit : nat) (a b : Any) {struct limit} : result bool :=
  match limit with
  | O => Raise RecursionError
  | S limit' =>
      match a, b with
      | PyNone, PyNone => Ok true
      | (PyBool _ | PyInt _ | PyFloat _), _ => Ok (num_eq a b)
      | PyStr s, PyStr t => Ok (String.eqb s t)
      | PyList xs, PyList ys =>
          if negb (Nat.eqb (List.length xs) (List.length ys)) then Ok false
          else
            (fix go (xs ys : list Any) {struct xs} : result bool :=
               match xs, ys with
               | x :: xs', y :: ys' =>
                   match py_eq limit' x y with
                   | Ok true => go xs' ys'
                   | r => r
                   end
               | _, _ => Ok true
               end) xs ys
      | PyDict d, PyDict d' =>
          if negb (Nat.eqb (List.length d) (List.length d')) then Ok false
          else
            (fix go (d : list (string * Any)) {struct d} : result bool :=
               match d with
               | [] => Ok true
               | (k, v) :: rest =>
                   match dict_get k d' with
                   | None => Ok false
                   | Some w =>
                       match py_eq limit' v w with
                       | Ok true => go rest
                       | r => r
                       end
                   end
               end) d
      | _, _ => Ok false
      end
  end.

(** [a < b], [a > b], [a <= b], [a >= b] with [limit] nested calls left.
    Two lists are searched for their first pair of unequal items, which is
    then compared with the operator itself. *)
Fixpoint py_order (limit : nat) (op : ordering) (a b : Any) {struct limit}
  : result bool :=
  match limit with
  | O => Raise RecursionError
  | S limit' =>
      match a, b with
      | (PyBool _ | PyInt _ | PyFloat _), _ =>
          match to_num a, to_num b with
          | Some x, Some y => Ok (holds op (float_compare x y))
          | _, _ => Raise TypeError
          end
      | PyStr s, PyStr t => Ok (holds op (Some (String.compare s t)))
      | PyList xs, PyList ys =>
          (fix go (xs ys : list Any) {struct xs} : result bool :=
             match xs, ys with
             | x :: xs', y :: ys' =>
                 match py_eq limit' x y with
                 | Raise e => Raise e
                 | Ok true => go xs' ys'
                 | Ok false => py_order limit' op x y
                 end
             | _, _ =>
                 Ok (holds op (Some (Nat.compare (List.length xs) (List.length ys))))
             end) xs ys
      | _, _ => Raise TypeError
      end
  end.

(** The table [operators] of the source. *)
Definition operators (limit : nat) (op : string)
  : option (Any -> Any -> result bool) :=
  if String.eqb op "eq" then Some (py_eq limit)
  else if String.eqb op "ne"
       then Some (fun a b =>
                    match py_eq limit a b with
                    | Ok r => Ok (negb r)
                    | Raise e => Raise e
                    end)
  else if String.eqb op "gt" then Some (py_order limit OpGt)
  else if String.eqb op "lt" then Some (py_order limit OpLt)
  else if String.eqb op "gte" then Some (py_order limit OpGe)
  else if String.eqb op "lte" then Some (py_order limit OpLe)
  else None.

Definition _evaluate_condition (limit : nat) (condition : ConditionConfig.t)
    (state : Dict) : result bool :=
  (* field_value = state.get(condition.field) *)
  let field_value :=
    match dict_get (ConditionConfig.field condition) state with
    | Some v => v
    | None => PyNone
    end in
  match operators limit (ConditionConfig.operator condition) with
  | None => Ok false
  | Some op_func =>
      match op_func field_value (ConditionConfig.value condition) with
      | Raise TypeError => Ok false          (* except TypeError *)
      | r => r
      end
  end.

(** The [for edge in graph.edges] scan of [_get_next_node]. *)
Fixpoint scan_edges (limit : nat) (current : string) (current_state : Dict)
    (edges : list EdgeConfig.t) : result (option string) :=
  match edges with
  | [] => Ok None
  | edge :: rest =>
      if negb (String.eqb (EdgeConfig.source edge) current)
      then scan_edges limit current current_state rest
      else
        match EdgeConfig.condition edge with
        | None => Ok (Some (EdgeConfig.target edge))
        | Some condition =>
            match _evaluate_condition limit condition current_state with
            | Raise e => Raise e
            | Ok false => scan_edges limit current current_state rest
            | Ok true => Ok (Some (EdgeConfig.target edge))
            end
        end
  end.

Definition _get_next_node (limit : nat) (current run_id : string)
    (graph : GraphConfig.t) : M (option string) :=
  let* current_state := StateManager.get_state run_id in
  lift (scan_edges limit current current_state (GraphConfig.edges graph)).

Definition advance (limit : nat) (run_id : string) (graph : GraphConfig.t)
    (current_node : string) (vars : locals) (s : InMemoryStorage.t)
  : InMemoryStorage.t * locals * control :=
  match _get_next_node limit current_node run_id graph s with
  | (s', Raise e) => (s', vars, Throw e)
  | (s', Ok next) => (s', vars, Next next)
  end.

(** One iteration of [while current_node is not None]. *)
Definition loop_body (limit : nat) (registry : ToolRegistry.t) (run_id : string)
    (graph : GraphConfig.t) (current_node : string) (vars : locals)
    (s : InMemoryStorage.t) : InMemoryStorage.t * locals * control :=
  match _execute_node registry run_id current_node graph s with
  | (s1, Raise e) => (s1, vars, Throw e)
  | (s1, Ok log_entry) =>
      let vars1 :=
        Locals (app (execution_log vars) [log_entry]) (loop_counts vars) in
      match loop_config_at graph current_node with
      | None => advance limit run_id graph current_node vars1 s1
      | Some loop_config =>
          let count := default 0 (loop_counts vars1 !! current_node) + 1 in
          let vars2 :=
            Locals (execution_log vars1)
              (<[current_node := count]> (loop_counts vars1)) in
          if Z.ltb (LoopConfig.max_iterations loop_config) count
          then (s1, vars2, Throw (LoopLimitError current_node
                                    (LoopConfig.max_iterations loop_config)))
          else
            match StateManager.get_state run_id s1 with
            | (s2, Raise e) => (s2, vars2, Throw e)
            | (s2, Ok current_state) =>
                match _evaluate_condition limit
                        (LoopConfig.condition loop_config) current_state with
                | Raise e => (s2, vars2, Throw e)
                | Ok true => (s2, vars2, Next (Some current_node))   (* continue *)
                | Ok false => advance limit run_id graph current_node vars2 s2
                end
            end
      end
  end.

Fixpoint while_loop (limit fuel : nat) (registry : ToolRegistry.t)
    (run_id : string) (graph : GraphConfig.t) (current_node : option string)
    (vars : locals) (s : InMemoryStorage.t)
  : InMemoryStorage.t * locals * loop_exit :=
  match current_node with
  | None => (s, vars, Finished)
  | Some node =>
      match fuel with
      | O => (s, vars, Exhausted)
      | S fuel' =>
          match loop_body limit registry run_id graph node vars s with
          | (s', vars', Throw e) => (s', vars', Raised e)
          | (s', vars', Next next) =>
              while_loop limit fuel' registry run_id graph next vars' s'
          end
      end
  end.

(** [execute]; [None] when the fuel does not reach the end of the run. *)
Definition execute (limit fuel : nat) (registry : ToolRegistry.t)
    (run_id graph_id : string) (initial_state : Dict)
  : M (option ExecutionResult.t) :=
  let* graph := GraphManager.get_graph graph_id in
  StateManager.initialize run_id graph_id initial_state ;;;
  fun s =>
    match while_loop limit fuel registry run_id graph
            (Some (GraphConfig.entry_node graph)) (Locals [] ∅) s with
    | (s', vars, Exhausted) => (s', Ok None)
    | (s', vars, Raised e) =>
        (let* r := on_exception run_id graph_id vars e in ret (Some r)) s'
    | (s', vars, Finished) =>
        match StateManager.complete_run run_id "completed" s' with
        | (s'', Ok run_data) =>
            (s'', Ok (Some (ExecutionResult.mk run_id graph_id "completed"
                              (RunData.current_state run_data)
                              (execution_log vars) None)))
        | (s'', Raise e) =>
            (let* r := on_exception run_id graph_id vars e in ret (Some r)) s''
        end
    end.

End RecursionLimit.

(** The conditions of a graph definition: those of its edges, then those of
    its loop policies. *)
Definition conditions (graph : GraphConfig.t) : list ConditionConfig.t :=
  (flat_map (fun edge =>
               match EdgeConfig.condition edge with
               | Some condition => [condition]
               | None => []
               end) (GraphConfig.edges graph)
   ++ map (fun kv => LoopConfig.condition (snd kv))
        (default [] (GraphConfig.loops graph)))%list.

(** A graph definition one of whose conditions compares with a value nested
    deeper than [limit]. *)
Definition deep (limit : nat) (graph : GraphConfig.t) : Prop :=
  exists condition,
    In condition (conditions graph)
    /\ (limit < depth (ConditionConfig.value condition))%nat.

(** [n] lists inside one another, around an empty list. *)
Fixpoint nested (n : nat) : Any :=
  match n with
  | O => PyList []
  | S n' => PyList [nested n']
  end.

Module DeepSamples.

(** The recursion limit of a fresh interpreter ([sys.getrecursionlimit()]). *)
Definition default_limit : nat := 1000.



(** A graph that passes validation, with an edge whose condition compares
    with lists nested three deep. *)
Definition deep_graph : GraphConfig.t :=
  GraphConfig.mk "deep"
    [NodeConfig.mk "A" "keep_going" None; NodeConfig.mk "B" "keep_going" None]
    [EdgeConfig.mk "A" "B" (Some (ConditionConfig.mk "tree" "eq" (nested 2)))]
    "A" None.

Definition deep_storage : InMemoryStorage.t :=
  InMemoryStorage.save_graph "deep" deep_graph Sample.storage.

End DeepSamples.

(* ================================================================== *)
(** * Properties *)

(* ------------------------------------------------------------------ *)
(** ** Comparisons *)

(** An ordering comparison raises nothing but [TypeError]. *)
Lemma py_order_raises_TypeError op a :
  forall b e, py_order op a b = Raise e -> e = TypeError.
Proof.
  induction a as [ | b0 | z | f | s | xs IH | d _ ] using Any_nested_ind;
    intros b e; simpl.
  - congruence.
  - destruct (to_num b); congruence.
  - destruct (to_num b); congruence.
  - destruct (to_num b); congruence.
  - destruct b; congruence.
  - destruct b as [ | | | | | ys | ]; try congruence.
    revert ys. induction IH as [ | x xs' Hx _ IHxs ]; intros ys.
    + congruence.
    + destruct ys as [ | y ys' ]; [ congruence | ].
      destruct (py_eq x y); [ apply IHxs | apply Hx ].
  - congruence.
Qed.

(** Every operator of the table returns a boolean or raises [TypeError]. *)
Lemma operators_raise_TypeError op op_func a b e :
  operators op = Some op_func -> op_func a b = Raise e -> e = TypeError.
Proof.
  unfold operators.
  repeat (destruct (String.eqb op _); [ intros [= <-] | ]);
    try discriminate; try (intros [=]; fail);
    try apply py_order_raises_TypeError.
  all: discriminate.
Qed.

(* ------------------------------------------------------------------ *)
(** ** Comparisons under the recursion limit *)

Lemma depth_pos a : (1 <= depth a)%nat.
Proof. destruct a; simpl; lia. Qed.

Lemma depth_dict_get k (d : Dict) w :
  dict_get k d = Some w -> (depth w < depth (PyDict d))%nat.
Proof.
  induction d as [ | [k' v] rest IH ]; simpl; [ discriminate | ].
  destruct (String.eqb k k').
  - intros [= ->]. lia.
  - intros H. apply IH in H. simpl in H. lia.
Qed.

(** With [limit] calls left, [==] gives what the comparison of the trees
    gives, or raises [RecursionError]; it raises only when both operands
    nest deeper than the limit. *)
Lemma py_eq_limit limit :
  forall a b,
    RecursionLimit.py_eq limit a b = Ok (py_eq a b)
    \/ (RecursionLimit.py_eq limit a b = Raise RecursionError
        /\ (limit < depth a)%nat /\ (limit < depth b)%nat).
Proof.
  induction limit as [ | limit IH ]; intros a b.
  - right. pose proof (depth_pos a). pose proof (depth_pos b).
    repeat split; lia.
  - destruct a as [ | b0 | z | f | s | xs | d ], b as [ | b1 | z1 | f1 | s1 | ys | d' ];
      try (left; reflexivity).
    + (* two lists *)
      cbn [RecursionLimit.py_eq py_eq].
      destruct (Nat.eqb (List.length xs) (List.length ys)) eqn:Hlen; cbn [negb].
      * apply Nat.eqb_eq in Hlen. revert ys Hlen.
        induction xs as [ | x xs IHxs ]; intros [ | y ys ] Hlen;
          try discriminate Hlen.
        -- left. reflexivity.
        -- injection Hlen as Hlen.
           destruct (IH x y) as [ Hxy | (Hxy & Hx & Hy) ]; rewrite Hxy.
           ++ destruct (py_eq x y); [ | left; reflexivity ].
              destruct (IHxs ys Hlen) as [ Hrest | (Hrest & Hxs & Hys) ].
              ** left. rewrite Hrest. reflexivity.
              ** right. rewrite Hrest. simpl in *.
                 split; [ reflexivity | lia ].
           ++ right. simpl. split; [ reflexivity | lia ].
      * left. f_equal. symmetry. apply Nat.eqb_neq in Hlen. revert ys Hlen.
        induction xs as [ | x xs IHxs ]; intros [ | y ys ] Hlen; simpl in *;
          try reflexivity; try congruence.
        rewrite IHxs by congruence. apply andb_false_r.
    + (* two dictionaries *)
      cbn [RecursionLimit.py_eq py_eq].
      destruct (Nat.eqb (List.length d) (List.length d')); cbn [negb andb];
        [ | left; reflexivity ].
      induction d as [ | [k v] rest IHd ].
      * left. reflexivity.
      * destruct (dict_get k d') as [ w | ] eqn:Hget; [ | left; reflexivity ].
        pose proof (depth_dict_get _ _ _ Hget) as Hw.
        destruct (IH v w) as [ Hvw | (Hvw & Hv & Hw') ]; rewrite Hvw.
        -- destruct (py_eq v w); [ | left; reflexivity ].
           destruct IHd as [ Hrest | (Hrest & Hd & Hd') ].
           ++ left. rewrite Hrest. reflexivity.
           ++ right. rewrite Hrest. simpl in *. split; [ reflexivity | lia ].
        -- right. simpl in *. split; [ reflexivity | lia ].
Qed.

(** The same for the ordering operators, which can raise [TypeError] as
    well. *)
Lemma py_order_limit op limit :
  forall a b,
    RecursionLimit.py_order limit op a b = py_order op a b
    \/ (RecursionLimit.py_order limit op a b = Raise RecursionError
        /\ (limit < depth a)%nat /\ (limit < depth b)%nat).
Proof.
  induction limit as [ | limit IH ]; intros a b.
  - right. pose proof (depth_pos a). pose proof (depth_pos b).
    repeat split; lia.
  - destruct a as [ | b0 | z | f | s | xs | d ], b as [ | b1 | z1 | f1 | s1 | ys | d' ];
      try (left; reflexivity).
    cbn [RecursionLimit.py_order py_order]. revert ys.
    induction xs as [ | x xs IHxs ]; intros [ | y ys ];
      try (left; reflexivity).
    destruct (py_eq_limit limit x y) as [ Hxy | (Hxy & Hx & Hy) ]; rewrite Hxy.
    + destruct (py_eq x y).
      * destruct (IHxs ys) as [ Hrest | (Hrest & Hxs & Hys) ].
        -- left. exact Hrest.
        -- right. rewrite Hrest. simpl in *. split; [ reflexivity | lia ].
      * destruct (IH x y) as [ Hord | (Hord & Hx & Hy) ].
        -- left. exact Hord.
        -- right. rewrite Hord. simpl. split; [ reflexivity | lia ].
    + right. simpl. split; [ reflexivity | lia ].
Qed.

(** An operator of the table with the limit, and the operator of the same
    name without. *)
Lemma operators_limit limit op :
  match RecursionLimit.operators limit op, operators op with
  | Some op_func, Some op_tree =>
      forall a b,
        op_func a b = op_tree a b
        \/ (op_func a b = Raise RecursionError
            /\ (limit < depth a)%nat /\ (limit < depth b)%nat)
  | None, None => True
  | _, _ => False
  end.
Proof.
  unfold RecursionLimit.operators, operators.
  repeat (destruct (String.eqb op _); [ intros a b | ]);
    try exact I; try apply py_order_limit.
  - apply py_eq_limit.
  - destruct (py_eq_limit limit a b) as [ -> | (-> & H) ]; auto.
Qed.

(** The evaluator with the limit returns what the evaluator without returns,
    or raises [RecursionError]; it raises only when the value of the field
    and the value of the condition both nest deeper than the limit. *)
Lemma evaluate_condition_limit limit condition state :
  RecursionLimit._evaluate_condition limit condition state
  = _evaluate_condition condition state
  \/ (RecursionLimit._evaluate_condition limit condition state
      = Raise RecursionError
      /\ (limit < depth (default PyNone
                           (dict_get (ConditionConfig.field condition) state)))%nat
      /\ (limit < depth (ConditionConfig.value condition))%nat).
Proof.
  unfold RecursionLimit._evaluate_condition, _evaluate_condition.
  change (match dict_get (ConditionConfig.field condition) state with
          | Some v => v
          | None => PyNone
          end)
    with (default PyNone (dict_get (ConditionConfig.field condition) state)).
  pose proof (operators_limit limit (ConditionConfig.operator condition)) as Hop.
  destruct (RecursionLimit.operators limit _) as [ op_func | ],
    (operators _) as [ op_tree | ]; try contradiction; [ | left; reflexivity ].
  destruct (Hop (default PyNone (dict_get (ConditionConfig.field condition) state))
              (ConditionConfig.value condition))
    as [ -> | (-> & H) ]; [ left; reflexivity | right; auto ].
Qed.

(* ------------------------------------------------------------------ *)
(** ** Dictionaries *)

Lemma dict_get_set {V : Type} (k k' : string) (v : V) (d : list (string * V)) :
  dict_get k (dict_set k' v d)
  = if String.eqb k k' then Some v else dict_get k d.
Proof.
  induction d as [ | [k0 v0] d IH ]; simpl.
  - reflexivity.
  - destruct (String.eqb k' k0) eqn:E0; simpl.
    + apply String.eqb_eq in E0. subst k0.
      destruct (String.eqb k k'); reflexivity.
    + destruct (String.eqb k k0) eqn:E1.
      * apply String.eqb_eq in E1. subst k0.
        rewrite String.eqb_sym, E0. reflexivity.
      * exact IH.
Qed.

(** After [d.update(updates)] a key reads as its last assignment in
    [updates], and as before when [updates] does not assign it. *)
Lemma dict_get_update {V : Type} (k : string) (updates d : list (string * V)) :
  dict_get k (dict_update d updates)
  = match dict_get k (rev updates) with
    | Some v => Some v
    | None => dict_get k d
    end.
Proof.
  unfold dict_update. revert d.
  induction updates as [ | [k0 v0] updates IH ] using rev_ind; intros d.
  - reflexivity.
  - rewrite fold_left_app, rev_app_distr. simpl.
    rewrite dict_get_set.
    destruct (String.eqb k k0); [ reflexivity | apply IH ].
Qed.

(** In a dictionary that binds every key once, the last assignment of a key
    is its only one. *)
Lemma dict_get_rev {V : Type} (k : string) (d : list (string * V)) :
  List.NoDup (map fst d) -> dict_get k (rev d) = dict_get k d.
Proof.
  induction d as [ | [k0 v0] d IH ]; simpl; intros Hnd.
  - reflexivity.
  - inversion Hnd as [ | ? ? Hnotin Hnd' ]; subst.
    assert (Happ : forall (d1 d2 : list (string * V)),
               dict_get k (d1 ++ d2)%list
               = match dict_get k d1 with
                 | Some v => Some v
                 | None => dict_get k d2
                 end).
    { induction d1 as [ | [k1 v1] d1 IH1 ]; intros d2; simpl;
        [ reflexivity | destruct (String.eqb k k1); auto ]. }
    rewrite Happ, (IH Hnd'). simpl.
    destruct (String.eqb k k0) eqn:E.
    + apply String.eqb_eq in E. subst k0.
      assert (Hnone : dict_get k d = None).
      { clear - Hnotin. induction d as [ | [k1 v1] d IHd ]; simpl;
          [ reflexivity | ].
        destruct (String.eqb k k1) eqn:E1.
        - apply String.eqb_eq in E1. subst k1. exfalso. apply Hnotin. left. reflexivity.
        - apply IHd. intros Hin. apply Hnotin. right. exact Hin. }
      rewrite Hnone. reflexivity.
    + destruct (dict_get k d); reflexivity.
Qed.

(* ------------------------------------------------------------------ *)
(** ** State manager and storage *)

Lemma run_of_save_run run_id run_data s :
  run_of (InMemoryStorage.save_run run_id run_data s) run_id = Some run_data.
Proof. unfold run_of. simpl. apply lookup_insert_eq. Qed.

Lemma run_of_save_run_ne run_id run_id' run_data s :
  run_id <> run_id' ->
  run_of (InMemoryStorage.save_run run_id run_data s) run_id' = run_of s run_id'.
Proof. intros Hne. unfold run_of. simpl. apply lookup_insert_ne. exact Hne. Qed.

Lemma get_state_found run_id s run_data :
  run_of s run_id = Some run_data ->
  StateManager.get_state run_id s = (s, Ok (RunData.current_state run_data)).
Proof.
  unfold run_of. intros H.
  unfold StateManager.get_state, bind, load_run, InMemoryStorage.load_run, ret.
  rewrite H. reflexivity.
Qed.

Lemma get_state_reads_only run_id s :
  fst (StateManager.get_state run_id s) = s.
Proof.
  unfold StateManager.get_state, bind, load_run, InMemoryStorage.load_run, ret.
  destruct (InMemoryStorage._runs s !! run_id); reflexivity.
Qed.

Lemma update_state_found run_id updates s run_data :
  run_of s run_id = Some run_data ->
  StateManager.update_state run_id updates s
  = (InMemoryStorage.save_run run_id
       (with_state run_data (dict_update (RunData.current_state run_data) updates)) s,
     Ok (dict_update (RunData.current_state run_data) updates)).
Proof.
  unfold run_of. intros H.
  unfold StateManager.update_state, bind, load_run, save_run,
    InMemoryStorage.load_run, ret.
  rewrite H. reflexivity.
Qed.

Lemma complete_run_found run_id status s run_data :
  run_of s run_id = Some run_data ->
  StateManager.complete_run run_id status s
  = (InMemoryStorage.save_run run_id (with_status run_data status) s,
     Ok (with_status run_data status)).
Proof.
  unfold run_of. intros H.
  unfold StateManager.complete_run, bind, load_run, save_run,
    InMemoryStorage.load_run, ret.
  rewrite H. reflexivity.
Qed.

Lemma initialize_spec run_id graph_id initial_state s :
  StateManager.initialize run_id graph_id initial_state s
  = (InMemoryStorage.save_run run_id
       (RunData.mk run_id graph_id initial_state "running" []) s,
     Ok (RunData.mk run_id graph_id initial_state "running" [])).
Proof. reflexivity. Qed.

(* ------------------------------------------------------------------ *)
(** ** One node execution *)

(** [_execute_node] on a run that has its record in the storage, case by
    case. *)
Lemma execute_node_found registry run_id node_name graph s run_data :
  run_of s run_id = Some run_data ->
  _execute_node registry run_id node_name graph s
  = match find_node graph node_name with
    | None => (s, Raise StopIteration)
    | Some node_config =>
        match ToolRegistry._tools registry !! NodeConfig.handler node_config with
        | None => (s, Raise (ToolNotFoundError (NodeConfig.handler node_config)))
        | Some handler =>
            let state := RunData.current_state run_data in
            match handler state with
            | Raises e => (s, Raise (NodeExecutionError node_name e))
            | Returns result =>
                (match as_dict result with
                 | Some updates =>
                     InMemoryStorage.save_run run_id
                       (with_state run_data (dict_update state updates)) s
                 | None => s
                 end,
                 Ok (ExecutionLog.mk node_name state (merged state result) "success"))
            end
        end
    end.
Proof.
  intros Hrun. unfold _execute_node, find_node.
  destruct (List.find _ _) as [ node_config | ]; [ | reflexivity ].
  unfold bind at 1, lift, ToolRegistry.get.
  destruct (ToolRegistry._tools registry !! _) as [ handler | ]; [ | reflexivity ].
  unfold bind at 1. rewrite (get_state_found _ _ _ Hrun). unfold dict_copy.
  cbv zeta.
  destruct (handler (RunData.current_state run_data)) as [ result | e ];
    [ | reflexivity ].
  unfold merged. destruct (as_dict result) as [ updates | ].
  - unfold bind. rewrite (update_state_found _ _ _ _ Hrun). unfold ret.
    rewrite (get_state_found _ _ _ (run_of_save_run _ _ _)). reflexivity.
  - unfold bind, ret. rewrite (get_state_found _ _ _ Hrun). reflexivity.
Qed.

(** A node execution that raises has written nothing. *)
Lemma execute_node_raise_unchanged registry run_id node_name graph s s' e :
  _execute_node registry run_id node_name graph s = (s', Raise e) -> s' = s.
Proof.
  destruct (run_of s run_id) as [ run_data | ] eqn:Hrun.
  - rewrite (execute_node_found _ _ _ _ _ _ Hrun).
    destruct (find_node _ _); [ | congruence ].
    destruct (_ !! _) as [ handler | ]; [ | congruence ].
    cbv zeta. destruct (handler _); [ | congruence ].
    destruct (as_dict _); congruence.
  - unfold _execute_node.
    destruct (List.find _ _); [ | unfold raise; congruence ].
    unfold bind at 1, lift. destruct (ToolRegistry.get _ _); [ | congruence ].
    unfold bind at 1, StateManager.get_state, bind, load_run,
      InMemoryStorage.load_run.
    unfold run_of in Hrun. rewrite Hrun. congruence.
Qed.

(** A node execution that succeeds leaves the record of the run in the
    storage, with [state_after] as its state and nothing else changed. *)
Lemma execute_node_ok registry run_id node_name graph s s' run_data log_entry :
  run_of s run_id = Some run_data ->
  _execute_node registry run_id node_name graph s = (s', Ok log_entry) ->
  run_of s' run_id
  = Some (with_state run_data (ExecutionLog.state_after log_entry))
  /\ ExecutionLog.node log_entry = node_name
  /\ ExecutionLog.state_before log_entry = RunData.current_state run_data
  /\ ExecutionLog.status log_entry = "success".
Proof.
  intros Hrun. rewrite (execute_node_found _ _ _ _ _ _ Hrun).
  destruct (find_node _ _); [ | congruence ].
  destruct (_ !! _) as [ handler | ]; [ | congruence ].
  cbv zeta. destruct (handler _) as [ result | ]; [ | congruence ].
  intros [= <- <-]. simpl. repeat split.
  unfold merged. destruct (as_dict result).
  - apply run_of_save_run.
  - rewrite Hrun. destruct run_data; reflexivity.
Qed.

(* ------------------------------------------------------------------ *)
(** ** The loop of [execute] *)

Lemma get_next_node_found current run_id graph s run_data :
  run_of s run_id = Some run_data ->
  _get_next_node current run_id graph s
  = (s, scan_edges current (RunData.current_state run_data)
          (GraphConfig.edges graph)).
Proof.
  intros Hrun. unfold _get_next_node, bind.
  rewrite (get_state_found _ _ _ Hrun). reflexivity.
Qed.

Lemma advance_found run_id graph current_node vars s run_data :
  run_of s run_id = Some run_data ->
  advance run_id graph current_node vars s
  = (s, vars,
     match scan_edges current_node (RunData.current_state run_data)
             (GraphConfig.edges graph) with
     | Ok next => Next next
     | Raise e => Throw e
     end).
Proof.
  intros Hrun. unfold advance. rewrite (get_next_node_found _ _ _ _ _ Hrun).
  destruct (scan_edges _ _ _); reflexivity.
Qed.

Lemma loop_body_keeps_run registry run_id graph current_node vars s run_data
    s' vars' c :
  run_of s run_id = Some run_data ->
  loop_body registry run_id graph current_node vars s = (s', vars', c) ->
  (exists state', run_of s' run_id = Some (with_state run_data state'))
  /\ log_grows current_node (execution_log vars) (execution_log vars').
Proof.
  intros Hrun. unfold loop_body.
  destruct (_execute_node _ _ _ _ s) as [s1 [log_entry | e]] eqn:Hnode.
  - destruct (execute_node_ok _ _ _ _ _ _ _ _ Hrun Hnode)
      as (Hrun1 & Hname & _ & Hstatus).
    assert (Hgrow : log_grows current_node (execution_log vars)
                      (execution_log vars ++ [log_entry])%list)
      by (right; eauto).
    destruct (loop_config_at graph current_node) as [ loop_config | ].
    + cbv zeta. destruct (Z.ltb _ _).
      * intros [= <- <- <-]. simpl. eauto.
      * rewrite (get_state_found _ _ _ Hrun1).
        destruct (_evaluate_condition _ _) as [ [ | ] | e ].
        -- intros [= <- <- <-]. simpl. eauto.
        -- rewrite (advance_found _ _ _ _ _ _ Hrun1).
           intros [= <- <- <-]. simpl. eauto.
        -- intros [= <- <- <-]. simpl. eauto.
    + rewrite (advance_found _ _ _ _ _ _ Hrun1).
      intros [= <- <- <-]. simpl. eauto.
  - apply execute_node_raise_unchanged in Hnode as ->.
    intros [= <- <- <-]. split.
    + exists (RunData.current_state run_data). rewrite Hrun.
      destruct run_data; reflexivity.
    + left. reflexivity.
Qed.

(** The same for the whole loop: every entry it appends is a success. *)
Lemma while_loop_keeps_run fuel registry run_id graph :
  forall current_node vars s run_data s' vars' exit,
    run_of s run_id = Some run_data ->
    while_loop fuel registry run_id graph current_node vars s = (s', vars', exit) ->
    (exists state', run_of s' run_id = Some (with_state run_data state'))
    /\ exists appended,
         execution_log vars' = (execution_log vars ++ appended)%list
         /\ Forall (fun log_entry => ExecutionLog.status log_entry = "success")
              appended.
Proof.
  induction fuel as [ | fuel IH ];
    intros current_node vars s run_data s' vars' exit Hrun; simpl.
  - assert (Hsame : (s, vars) = (s', vars') ->
              (exists state', run_of s' run_id = Some (with_state run_data state'))
              /\ exists appended,
                  execution_log vars' = (execution_log vars ++ appended)%list
                  /\ Forall (fun log_entry =>
                               ExecutionLog.status log_entry = "success") appended).
    { intros [= <- <-]. split.
      - exists (RunData.current_state run_data). rewrite Hrun.
        destruct run_data; reflexivity.
      - exists []. rewrite app_nil_r. split; [ reflexivity | constructor ]. }
    destruct current_node; intros [= <- <- <-]; apply Hsame; reflexivity.
  - destruct current_node as [ node | ].
    + destruct (loop_body registry run_id graph node vars s)
        as [[s1 vars1] c] eqn:Hbody.
      destruct (loop_body_keeps_run _ _ _ _ _ _ _ _ _ _ Hrun Hbody)
        as [[state1 Hrun1] Hgrow].
      assert (Hone : exists appended,
                 execution_log vars1 = (execution_log vars ++ appended)%list
                 /\ Forall (fun log_entry =>
                              ExecutionLog.status log_entry = "success") appended).
      { destruct Hgrow as [ -> | (log_entry & -> & _ & Hstatus) ].
        - exists []. rewrite app_nil_r. split; [ reflexivity | constructor ].
        - exists [log_entry]. split; [ reflexivity | ].
          constructor; [ exact Hstatus | constructor ]. }
      destruct c as [ next | e ].
      * intros Hloop.
        destruct (IH _ _ _ _ _ _ _ Hrun1 Hloop)
          as [[state' Hrun'] (appended' & Hlog' & Hall')].
        split; [ exists state'; exact Hrun' | ].
        destruct Hone as (appended & Hlog & Hall).
        exists (appended ++ appended')%list. split.
        -- rewrite Hlog', Hlog, app_assoc. reflexivity.
        -- apply Forall_app. split; assumption.
      * intros [= <- <- <-]. split; [ exists state1; exact Hrun1 | exact Hone ].
    + intros [= <- <- <-]. split.
      * exists (RunData.current_state run_data). rewrite Hrun.
        destruct run_data; reflexivity.
      * exists []. rewrite app_nil_r. split; [ reflexivity | constructor ].
Qed.

(* ------------------------------------------------------------------ *)
(** ** A whole run *)

Lemma on_exception_found run_id graph_id vars e s run_data :
  run_of s run_id = Some run_data ->
  on_exception run_id graph_id vars e s
  = (InMemoryStorage.save_run run_id (with_status run_data "failed") s,
     Ok (ExecutionResult.mk run_id graph_id "failed"
           (RunData.current_state run_data) (execution_log vars)
           (Some (str_exn e)))).
Proof.
  intros Hrun. unfold on_exception, bind at 1.
  rewrite (complete_run_found _ _ _ _ Hrun). unfold bind.
  rewrite (get_state_found _ _ _ (run_of_save_run _ _ _)). reflexivity.
Qed.

(** What [execute] returns and stores, from how its loop ended. *)
Lemma execute_outcome fuel registry run_id graph_id initial_state s graph
    s1 vars exit :
  InMemoryStorage._graphs s !! graph_id = Some graph ->
  while_loop fuel registry run_id graph (Some (GraphConfig.entry_node graph))
    no_locals (started run_id graph_id initial_state s) = (s1, vars, exit) ->
  exists state1,
    let run_data := fresh_run run_id graph_id state1 in
    run_of s1 run_id = Some run_data
    /\ execute fuel registry run_id graph_id initial_state s
       = match exit with
         | Exhausted => (s1, Ok None)
         | Raised e =>
             (InMemoryStorage.save_run run_id (with_status run_data "failed") s1,
              Ok (Some (ExecutionResult.mk run_id graph_id "failed" state1
                          (execution_log vars) (Some (str_exn e)))))
         | Finished =>
             (InMemoryStorage.save_run run_id (with_status run_data "completed") s1,
              Ok (Some (ExecutionResult.mk run_id graph_id "completed" state1
                          (execution_log vars) None)))
         end.
Proof.
  intros Hgraph Hloop.
  destruct (while_loop_keeps_run _ _ _ _ _ _ _ _ _ _ _
              (run_of_save_run run_id _ s) Hloop) as [[state1 Hrun1] _].
  exists state1. cbv zeta. split; [ exact Hrun1 | ].
  unfold execute, bind at 1, GraphManager.get_graph, InMemoryStorage.load_graph.
  rewrite Hgraph. unfold bind at 1. rewrite initialize_spec.
  unfold started, fresh_run, no_locals in Hloop. unfold dict_copy. rewrite Hloop.
  destruct exit as [ | e | ].
  - rewrite (complete_run_found _ _ _ _ Hrun1). reflexivity.
  - unfold bind. rewrite (on_exception_found _ _ _ _ _ _ Hrun1). reflexivity.
  - reflexivity.
Qed.

Lemma while_loop_iterations n registry run_id graph :
  forall fuel current_node vars s node' vars' s',
    iterations n registry run_id graph current_node vars s
    = Some (node', vars', s') ->
    while_loop (n + fuel) registry run_id graph (Some current_node) vars s
    = while_loop fuel registry run_id graph (Some node') vars' s'.
Proof.
  induction n as [ | n IH ]; intros fuel current_node vars s node' vars' s'; simpl.
  - intros [= <- <- <-]. reflexivity.
  - destruct (loop_body _ _ _ _ _ _) as [[s1 vars1] [ [ next | ] | e ]];
      try discriminate.
    apply IH.
Qed.

Lemma iterations_keep_run n registry run_id graph :
  forall current_node vars s run_data node' vars' s',
    run_of s run_id = Some run_data ->
    iterations n registry run_id graph current_node vars s
    = Some (node', vars', s') ->
    exists state', run_of s' run_id = Some (with_state run_data state').
Proof.
  induction n as [ | n IH ];
    intros current_node vars s run_data node' vars' s' Hrun; simpl.
  - intros [= <- <- <-]. exists (RunData.current_state run_data).
    rewrite Hrun. destruct run_data; reflexivity.
  - destruct (loop_body _ _ _ _ _ _) as [[s1 vars1] c] eqn:Hbody.
    destruct (loop_body_keeps_run _ _ _ _ _ _ _ _ _ _ Hrun Hbody)
      as [[state1 Hrun1] _].
    destruct c as [ [ next | ] | e ]; try discriminate.
    intros Hiter. destruct (IH _ _ _ _ _ _ _ Hrun1 Hiter) as [state' Hrun'].
    exists state'. exact Hrun'.
Qed.

(* ================================================================== *)
(** * The condition evaluator *)

Lemma depth_nested n : depth (nested n) = S n.
Proof. induction n as [ | n IH ]; simpl; [ reflexivity | rewrite IH; lia ]. Qed.




(** An operator outside the table gives [false] whatever the operands and
    the limit. *)
Lemma evaluate_condition_unsupported_operator_limit limit condition state :
  RecursionLimit.operators limit (ConditionConfig.operator condition) = None ->
  RecursionLimit._evaluate_condition limit condition state = Ok false.
Proof.
  intros Hop. unfold RecursionLimit._evaluate_condition. rewrite Hop. reflexivity.
Qed.

(** Ordering a string against a number is a [TypeError] in Python; the
    evaluator answers [false]. *)
Example evaluate_condition_type_mismatch :
  py_order OpGt (PyStr "high") (PyInt 5) = Raise TypeError
  /\ _evaluate_condition (ConditionConfig.mk "score" "gt" (PyInt 5))
       [("score", PyStr "high")] = Ok false.
Proof. split; reflexivity. Qed.

(** A missing field is compared as [None]: equal to [None], unordered with
    a number. *)
Example evaluate_condition_missing_field :
  _evaluate_condition (ConditionConfig.mk "score" "eq" PyNone) [] = Ok true
  /\ _evaluate_condition (ConditionConfig.mk "score" "lt" (PyInt 5)) [] = Ok false.
Proof. split; reflexivity. Qed.

Example evaluate_condition_unsupported_operator :
  _evaluate_condition (ConditionConfig.mk "score" "contains" (PyInt 5))
    [("score", PyInt 5)] = Ok false.
Proof. reflexivity. Qed.

(** Numbers compare across [bool], [int] and [float]. *)
Example evaluate_condition_numbers :
  _evaluate_condition (ConditionConfig.mk "quality_score" "lt" (PyFloat (FFin 70 0)))
    [("quality_score", PyInt 40)] = Ok true
  /\ _evaluate_condition (ConditionConfig.mk "quality_score" "gte" (PyFloat (FFin 141 (-1))))
       [("quality_score", PyInt 70)] = Ok false
  /\ _evaluate_condition (ConditionConfig.mk "done" "eq" (PyInt 1))
       [("done", PyBool true)] = Ok true.
Proof. repeat split; reflexivity. Qed.

(* ================================================================== *)
(** * Edge selection *)

Lemma evaluate_condition_returns condition state :
  _evaluate_condition condition state = Ok (condition_holds condition state).
Proof.
  unfold condition_holds, _evaluate_condition.
  destruct (operators _) as [ op_func | ] eqn:Hop; [ | reflexivity ].
  destruct (op_func _ _) as [ b | e ] eqn:Hcmp; [ reflexivity | ].
  rewrite (operators_raise_TypeError _ _ _ _ _ Hop Hcmp). reflexivity.
Qed.

(** The scan of [_get_next_node] stops at the first edge that matches. *)
Lemma scan_edges_find current current_state edges :
  scan_edges current current_state edges
  = Ok (option_map EdgeConfig.target
          (List.find (edge_matches current current_state) edges)).
Proof.
  induction edges as [ | edge rest IH ]; simpl; [ reflexivity | ].
  unfold edge_matches at 1.
  destruct (String.eqb (EdgeConfig.source edge) current); simpl; [ | exact IH ].
  destruct (EdgeConfig.condition edge) as [ condition | ]; [ | reflexivity ].
  rewrite evaluate_condition_returns.
  destruct (condition_holds condition current_state); [ reflexivity | exact IH ].
Qed.

(** [List.find] returns the first element, in list order, that the test
    accepts. *)
Lemma find_first {A : Type} (test : A -> bool) (l : list A) :
  match List.find test l with
  | Some x =>
      exists before after,
        l = (before ++ x :: after)%list
        /\ test x = true
        /\ Forall (fun y => test y = false) before
  | None => Forall (fun y => test y = false) l
  end.
Proof.
  induction l as [ | a l IH ]; simpl; [ constructor | ].
  destruct (test a) eqn:Ha.
  - exists [], l. repeat split; [ exact Ha | constructor ].
  - destruct (List.find test l) as [ x | ].
    + destruct IH as (before & after & -> & Hx & Hbefore).
      exists (a :: before), after. repeat split; [ exact Hx | ].
      constructor; assumption.
    + constructor; assumption.
Qed.

(** C2. From a node, with the state of the run and the edge list fixed, the
    engine moves to the target of the first edge, in the order of the
    definition, that leaves the node and whose condition is absent or true;
    when no edge does, the next node is [None] and the loop ends the run.
    The choice is a function of the node, the state and the edge list. *)
Theorem edge_selection_first_match (registry : ToolRegistry.t)
    (run_id : string) (graph : GraphConfig.t) (current_node : string)
    (vars : locals) (s : InMemoryStorage.t) (run_data : RunData.t) :
  run_of s run_id = Some run_data ->
  let matches := edge_matches current_node (RunData.current_state run_data) in
  let selected := List.find matches (GraphConfig.edges graph) in
  advance run_id graph current_node vars s
  = (s, vars, Next (option_map EdgeConfig.target selected))
  /\ match selected with
     | Some edge =>
         exists before after,
           GraphConfig.edges graph = (before ++ edge :: after)%list
           /\ matches edge = true
           /\ Forall (fun earlier => matches earlier = false) before
     | None =>
         Forall (fun edge => matches edge = false) (GraphConfig.edges graph)
         /\ forall fuel,
              while_loop fuel registry run_id graph None vars s
              = (s, vars, Finished)
     end.
Proof.
  intros Hrun matches selected. split.
  - rewrite (advance_found _ _ _ _ _ _ Hrun), scan_edges_find. reflexivity.
  - subst selected.
    pose proof (find_first matches (GraphConfig.edges graph)) as Hfirst.
    destruct (List.find matches (GraphConfig.edges graph)) as [ edge | ].
    + exact Hfirst.
    + split; [ exact Hfirst | ]. intros [ | fuel ]; reflexivity.
Qed.

(* ================================================================== *)
(** * Graph validation *)

Lemma is_node_In config x :
  GraphManager.is_node config x = true <-> In x (node_names config).
Proof.
  unfold GraphManager.is_node, node_names. rewrite existsb_exists, in_map_iff.
  split.
  - intros (node & Hin & Heq). apply String.eqb_eq in Heq. eauto.
  - intros (node & Heq & Hin). exists node. split; [ exact Hin | ].
    apply String.eqb_eq. exact Heq.
Qed.

Lemma is_node_false config x :
  GraphManager.is_node config x = false <-> ~ In x (node_names config).
Proof.
  rewrite <- is_node_In. destruct (GraphManager.is_node config x); split;
    congruence.
Qed.

(** The error list, message by message. *)
Lemma In_validation_errors config message :
  In message (GraphManager.validation_errors config)
  <-> (message = entry_error (GraphConfig.entry_node config)
       /\ ~ In (GraphConfig.entry_node config) (node_names config))
      \/ (exists edge, In edge (GraphConfig.edges config)
            /\ ((message = source_error (EdgeConfig.source edge)
                 /\ ~ In (EdgeConfig.source edge) (node_names config))
                \/ (message = target_error (EdgeConfig.target edge)
                    /\ ~ In (EdgeConfig.target edge) (node_names config))))
      \/ (exists key, In key (loop_keys config)
            /\ message = loop_error key /\ ~ In key (node_names config)).
Proof.
  assert (Hone : forall x (make : string -> string),
             In message (if GraphManager.is_node config x then [] else [make x])
             <-> message = make x /\ ~ In x (node_names config)).
  { intros x make. destruct (GraphManager.is_node config x) eqn:E.
    - apply is_node_In in E. simpl. tauto.
    - apply is_node_false in E. simpl. intuition. }
  unfold GraphManager.validation_errors. cbv zeta.
  rewrite !in_app_iff, in_flat_map.
  rewrite (Hone (GraphConfig.entry_node config) entry_error).
  assert (Hedges :
    (exists edge, In edge (GraphConfig.edges config)
       /\ In message
            ((if GraphManager.is_node config (EdgeConfig.source edge) then []
              else [source_error (EdgeConfig.source edge)])
             ++ (if GraphManager.is_node config (EdgeConfig.target edge) then []
                 else [target_error (EdgeConfig.target edge)]))%list)
    <-> (exists edge, In edge (GraphConfig.edges config)
           /\ ((message = source_error (EdgeConfig.source edge)
                /\ ~ In (EdgeConfig.source edge) (node_names config))
               \/ (message = target_error (EdgeConfig.target edge)
                   /\ ~ In (EdgeConfig.target edge) (node_names config))))).
  { split; intros (edge & Hin & Hmsg); exists edge; (split; [ exact Hin | ]);
      rewrite in_app_iff, (Hone _ source_error), (Hone _ target_error) in *;
      exact Hmsg. }
  assert (Hloops :
    In message
      match GraphConfig.loops config with
      | None => []
      | Some loops =>
          flat_map
            (fun kv : string * LoopConfig.t =>
               if GraphManager.is_node config (fst kv) then []
               else [loop_error (fst kv)]) loops
      end
    <-> (exists key, In key (loop_keys config)
           /\ message = loop_error key /\ ~ In key (node_names config))).
  { unfold loop_keys. destruct (GraphConfig.loops config) as [ loops | ].
    - rewrite in_flat_map. split.
      + intros ([key loop_config] & Hin & Hmsg). apply Hone in Hmsg.
        exists key. split; [ | exact Hmsg ].
        apply in_map_iff. exists (key, loop_config). auto.
      + intros (key & Hin & Hmsg). apply in_map_iff in Hin.
        destruct Hin as ([key' loop_config] & Hkey & Hin). simpl in Hkey.
        subst key'. exists (key, loop_config). split; [ exact Hin | ].
        apply Hone. exact Hmsg.
    - simpl. split; [ intros [] | intros (key & [] & _) ]. }
  unfold entry_error, source_error, target_error, loop_error in *.
  rewrite <- Hedges, <- Hloops. reflexivity.
Qed.

(** There is an error to report exactly when an invariant is broken. *)
Lemma validation_errors_violation config :
  (exists message, In message (GraphManager.validation_errors config))
  <-> violation config.
Proof.
  unfold violation. split.
  - intros [message Hin]. apply In_validation_errors in Hin.
    destruct Hin as [ [_ Hbad] | [ (edge & Hin & Hmsg) | (key & Hin & _ & Hbad) ] ].
    + left. exact Hbad.
    + right. left. exists edge. split; [ exact Hin | ].
      destruct Hmsg as [ [_ Hbad] | [_ Hbad] ]; auto.
    + right. right. eauto.
  - intros [ Hentry | [ (edge & Hin & [ Hsrc | Htgt ]) | (key & Hin & Hbad) ] ];
      eexists; apply In_validation_errors.
    + left. eauto.
    + right. left. exists edge. eauto.
    + right. left. exists edge. eauto.
    + right. right. exists key. eauto.
Qed.

Lemma validation_errors_cases config :
  (GraphManager.validation_errors config = [] /\ ~ violation config)
  \/ (GraphManager.validation_errors config <> [] /\ violation config).
Proof.
  destruct (GraphManager.validation_errors config) as [ | message rest ] eqn:E.
  - left. split; [ reflexivity | ].
    intros Hviol. apply validation_errors_violation in Hviol.
    destruct Hviol as [message Hin]. rewrite E in Hin. destruct Hin.
  - right. split; [ discriminate | ].
    apply validation_errors_violation. exists message. rewrite E. left. reflexivity.
Qed.

Lemma validate_graph_cases config :
  (GraphManager._validate_graph config = Ok tt /\ ~ violation config)
  \/ (GraphManager._validate_graph config
       = Raise (ValidationError (GraphManager.validation_errors config))
       /\ violation config).
Proof.
  unfold GraphManager._validate_graph.
  destruct (validation_errors_cases config) as [ [E Hok] | [E Hviol] ].
  - left. rewrite E. auto.
  - right. destruct (GraphManager.validation_errors config); [ congruence | auto ].
Qed.

(** C4. Validation raises [ValidationError] exactly when the entry node, an
    edge source, an edge target or a loop key is not a node name (and raises
    nothing else); the error list it carries has a message for the entry
    node if it is wrong, for every wrong edge source and target, and for
    every wrong loop key; and a rejected definition leaves the storage as it
    was. *)
Theorem validation_reports_every_violation (config : GraphConfig.t) :
  ((exists errors,
       GraphManager._validate_graph config = Raise (ValidationError errors))
   <-> violation config)
  /\ (GraphManager._validate_graph config = Ok tt <-> ~ violation config)
  /\ (forall errors,
        GraphManager._validate_graph config = Raise (ValidationError errors) ->
        (~ In (GraphConfig.entry_node config) (node_names config) ->
         In (entry_error (GraphConfig.entry_node config)) errors)
        /\ (forall edge, In edge (GraphConfig.edges config) ->
              (~ In (EdgeConfig.source edge) (node_names config) ->
               In (source_error (EdgeConfig.source edge)) errors)
              /\ (~ In (EdgeConfig.target edge) (node_names config) ->
                  In (target_error (EdgeConfig.target edge)) errors))
        /\ (forall key, In key (loop_keys config) ->
              ~ In key (node_names config) -> In (loop_error key) errors))
  /\ (forall graph_id s,
        violation config ->
        GraphManager.create_graph graph_id config s
        = (s, Raise (ValidationError (GraphManager.validation_errors config)))).
Proof.
  destruct (validate_graph_cases config) as [ [Hv Hok] | [Hv Hviol] ].
  - rewrite Hv. repeat split; try tauto; try discriminate.
    intros [errors Hraise]. discriminate.
  - rewrite Hv. split; [ | split; [ | split ] ].
    + split; [ intros _; exact Hviol | eauto ].
    + split; [ discriminate | tauto ].
    + intros errors [= <-]. repeat split.
      * intros Hbad. apply In_validation_errors. left. auto.
      * intros Hbad. apply In_validation_errors. right. left. exists edge. auto.
      * intros Hbad. apply In_validation_errors. right. left. exists edge. auto.
      * intros key Hin Hbad. apply In_validation_errors. right. right.
        exists key. auto.
    + intros graph_id s _.
      unfold GraphManager.create_graph, bind, lift. rewrite Hv. reflexivity.
Qed.

(* ================================================================== *)
(** * State merge *)

Lemma run_of_after_node run_id run_data result s :
  run_of s run_id = Some run_data ->
  run_of (after_node run_id run_data result s) run_id
  = Some (with_state run_data (merged (RunData.current_state run_data) result)).
Proof.
  intros Hrun. unfold after_node, merged. destruct (as_dict result).
  - apply run_of_save_run.
  - rewrite Hrun. destruct run_data; reflexivity.
Qed.

(** A node whose handler is registered and returns. *)
Lemma execute_node_returns registry run_id node_name graph s run_data
    handler result :
  run_of s run_id = Some run_data ->
  handler_of registry graph node_name = Some handler ->
  handler (RunData.current_state run_data) = Returns result ->
  _execute_node registry run_id node_name graph s
  = (after_node run_id run_data result s,
     Ok (ExecutionLog.mk node_name (RunData.current_state run_data)
           (merged (RunData.current_state run_data) result) "success")).
Proof.
  intros Hrun Hhandler Hret. rewrite (execute_node_found _ _ _ _ _ _ Hrun).
  unfold handler_of in Hhandler.
  destruct (find_node graph node_name) as [ node_config | ]; [ | discriminate ].
  rewrite Hhandler. cbv zeta. rewrite Hret. reflexivity.
Qed.

(** C5. When the handler of a node returns, the node execution succeeds;
    if the returned value is a mapping, the state of the run becomes the old
    state updated with it, so that every key reads as the mapping assigns it
    (last assignment first) and every other key as before; if it is not a
    mapping, the state and the storage are left as they were. *)
Theorem handler_result_merged (registry : ToolRegistry.t)
    (run_id node_name : string) (graph : GraphConfig.t)
    (s : InMemoryStorage.t) (run_data : RunData.t)
    (handler : Callable) (result : Any) :
  run_of s run_id = Some run_data ->
  handler_of registry graph node_name = Some handler ->
  handler (RunData.current_state run_data) = Returns result ->
  let before := RunData.current_state run_data in
  exists s' log_entry after,
    _execute_node registry run_id node_name graph s = (s', Ok log_entry)
    /\ run_of s' run_id = Some (with_state run_data after)
    /\ ExecutionLog.state_after log_entry = after
    /\ match result with
       | PyDict updates =>
           after = dict_update before updates
           /\ forall key,
                dict_get key after
                = match dict_get key (rev updates) with
                  | Some value => Some value
                  | None => dict_get key before
                  end
       | _ => after = before /\ s' = s
       end.
Proof.
  intros Hrun Hhandler Hret before.
  exists (after_node run_id run_data result s). eexists. exists (merged before result).
  split; [ apply (execute_node_returns _ _ _ _ _ _ _ _ Hrun Hhandler Hret) | ].
  split; [ apply (run_of_after_node _ _ _ _ Hrun) | ].
  split; [ reflexivity | ].
  destruct result; try (split; reflexivity).
  split; [ reflexivity | ]. intros key. apply dict_get_update.
Qed.

(** Two merges in a row: the later value of [a] wins, [b] is added, and the
    key no handler returned is still there. *)
Example merge_last_write_wins :
  merged (merged [("c", PyInt 0)] (PyDict [("a", PyInt 1)]))
    (PyDict [("a", PyInt 2); ("b", PyInt 3)])
  = [("c", PyInt 0); ("a", PyInt 2); ("b", PyInt 3)]
  /\ merged [("c", PyInt 0)] (PyStr "done") = [("c", PyInt 0)].
Proof. split; reflexivity. Qed.

(* ================================================================== *)
(** * Loop policies *)

Lemma execute_node_ignores_edges registry run_id node_name graph edges s :
  _execute_node registry run_id node_name (with_edges graph edges) s
  = _execute_node registry run_id node_name graph s.
Proof. reflexivity. Qed.

(** An iteration at a node with a loop policy, after its handler returned:
    the count goes up, and the limit, then the condition, decide. *)
Lemma loop_body_with_policy registry run_id graph current_node vars s run_data
    handler result loop_config :
  run_of s run_id = Some run_data ->
  handler_of registry graph current_node = Some handler ->
  handler (RunData.current_state run_data) = Returns result ->
  loop_config_at graph current_node = Some loop_config ->
  let state := RunData.current_state run_data in
  let log_entry :=
    ExecutionLog.mk current_node state (merged state result) "success" in
  let count := default 0 (loop_counts vars !! current_node) + 1 in
  let vars' :=
    Locals (execution_log vars ++ [log_entry])
      (<[current_node := count]> (loop_counts vars)) in
  let s' := after_node run_id run_data result s in
  loop_body registry run_id graph current_node vars s
  = if Z.ltb (LoopConfig.max_iterations loop_config) count
    then (s', vars', Throw (LoopLimitError current_node
                              (LoopConfig.max_iterations loop_config)))
    else if condition_holds (LoopConfig.condition loop_config) (merged state result)
         then (s', vars', Next (Some current_node))
         else advance run_id graph current_node vars' s'.
Proof.
  intros Hrun Hhandler Hret Hloop. cbv zeta. unfold loop_body.
  rewrite (execute_node_returns _ _ _ _ _ _ _ _ Hrun Hhandler Hret), Hloop.
  cbv zeta. simpl execution_log. simpl loop_counts.
  destruct (Z.ltb _ _); [ reflexivity | ].
  rewrite (get_state_found _ _ _ (run_of_after_node _ _ result _ Hrun)).
  simpl RunData.current_state. rewrite evaluate_condition_returns.
  destruct (condition_holds _ _); reflexivity.
Qed.

(** C6. At a node with a loop policy, once the node has executed and its
    count is within the limit, the policy's condition is evaluated on the
    state the node left; if it is true the next node is the same node,
    whatever the edges of the graph are: they are not consulted. *)
Theorem loop_policy_precedes_edges (registry : ToolRegistry.t)
    (run_id : string) (graph : GraphConfig.t) (current_node : string)
    (vars : locals) (s s1 : InMemoryStorage.t) (run_data : RunData.t)
    (log_entry : ExecutionLog.t) (loop_config : LoopConfig.t) :
  run_of s run_id = Some run_data ->
  _execute_node registry run_id current_node graph s = (s1, Ok log_entry) ->
  loop_config_at graph current_node = Some loop_config ->
  default 0 (loop_counts vars !! current_node) + 1
    <= LoopConfig.max_iterations loop_config ->
  _evaluate_condition (LoopConfig.condition loop_config)
    (ExecutionLog.state_after log_entry) = Ok true ->
  StateManager.get_state run_id s1
  = (s1, Ok (ExecutionLog.state_after log_entry))
  /\ forall edges,
       loop_body registry run_id (with_edges graph edges) current_node vars s
       = (s1,
          Locals (execution_log vars ++ [log_entry])
            (<[current_node := default 0 (loop_counts vars !! current_node) + 1]>
               (loop_counts vars)),
          Next (Some current_node)).
Proof.
  intros Hrun Hnode Hloop Hcount Hcond.
  destruct (execute_node_ok _ _ _ _ _ _ _ _ Hrun Hnode) as (Hrun1 & _).
  pose proof (get_state_found _ _ _ Hrun1) as Hstate. simpl in Hstate.
  split; [ exact Hstate | ].
  intros edges. unfold loop_body.
  rewrite execute_node_ignores_edges, Hnode.
  change (loop_config_at (with_edges graph edges) current_node)
    with (loop_config_at graph current_node).
  rewrite Hloop. cbv zeta. simpl execution_log. simpl loop_counts.
  destruct (Z.ltb_spec (LoopConfig.max_iterations loop_config)
              (default 0 (loop_counts vars !! current_node) + 1)); [ lia | ].
  rewrite Hstate, Hcond. reflexivity.
Qed.

(* ================================================================== *)
(** * Failing nodes *)

Lemma node_fails_raises registry run_id node_name graph s run_data e :
  run_of s run_id = Some run_data ->
  node_fails registry graph node_name (RunData.current_state run_data) e ->
  _execute_node registry run_id node_name graph s = (s, Raise e).
Proof.
  intros Hrun (node_config & Hfind & Hfail).
  rewrite (execute_node_found _ _ _ _ _ _ Hrun), Hfind.
  destruct Hfail as [ [Hnone ->] | (handler & message & Hsome & Hraises & ->) ].
  - rewrite Hnone. reflexivity.
  - rewrite Hsome. cbv zeta. rewrite Hraises. reflexivity.
Qed.

(** An iteration whose node execution raises ends the loop there, with the
    log and the storage as they were. *)
Lemma while_loop_node_raises fuel registry run_id graph current_node vars s e :
  _execute_node registry run_id current_node graph s = (s, Raise e) ->
  while_loop (S fuel) registry run_id graph (Some current_node) vars s
  = (s, vars, Raised e).
Proof. intros Hnode. simpl. unfold loop_body. rewrite Hnode. reflexivity. Qed.

(** C7. Take a run that has gone through [n] iterations and is about to
    execute [current_node] in storage [s1] with local variables [vars].  If
    the handler of that node is not registered, or raises on the state of
    the run, then [execute] returns a result with status [failed], the state
    the run had when the node was entered, the log as it stood before the
    failing attempt, and the text of the error; the stored record differs
    from the one in [s1] by its status only, so no further node has run. *)
Theorem failure_stops_run (fuel : nat) (registry : ToolRegistry.t)
    (run_id graph_id : string) (initial_state : Dict) (s : InMemoryStorage.t)
    (graph : GraphConfig.t) (n : nat) (current_node : string) (vars : locals)
    (s1 : InMemoryStorage.t) (run_data : RunData.t) (e : exn) :
  InMemoryStorage._graphs s !! graph_id = Some graph ->
  iterations n registry run_id graph (GraphConfig.entry_node graph) no_locals
    (started run_id graph_id initial_state s) = Some (current_node, vars, s1) ->
  (n < fuel)%nat ->
  run_of s1 run_id = Some run_data ->
  node_fails registry graph current_node (RunData.current_state run_data) e ->
  execute fuel registry run_id graph_id initial_state s
  = (InMemoryStorage.save_run run_id (with_status run_data "failed") s1,
     Ok (Some (ExecutionResult.mk run_id graph_id "failed"
                 (RunData.current_state run_data) (execution_log vars)
                 (Some (str_exn e))))).
Proof.
  intros Hgraph Hiter Hfuel Hrun Hfail.
  assert (Hloop :
    while_loop fuel registry run_id graph (Some (GraphConfig.entry_node graph))
      no_locals (started run_id graph_id initial_state s)
    = (s1, vars, Raised e)).
  { replace fuel with (n + S (fuel - S n))%nat by lia.
    rewrite (while_loop_iterations _ _ _ _ _ _ _ _ _ _ _ Hiter).
    apply while_loop_node_raises.
    apply (node_fails_raises _ _ _ _ _ _ _ Hrun Hfail). }
  destruct (execute_outcome _ _ _ _ _ _ _ _ _ _ Hgraph Hloop)
    as (state1 & Hrun1 & ->).
  rewrite Hrun in Hrun1. injection Hrun1 as ->. reflexivity.
Qed.

(* ================================================================== *)
(** * The stored log and the returned log *)

(** C9. The record of a run in the storage has an empty [execution_log]
    when [initialize] has stored it, at every configuration the loop goes
    through, and after [execute], whether the run completed, failed or is
    still going when the fuel runs out; [complete_run] leaves the stored log
    as it finds it. *)
Theorem stored_log_stays_empty (fuel : nat) (registry : ToolRegistry.t)
    (run_id graph_id : string) (initial_state : Dict) (s : InMemoryStorage.t)
    (graph : GraphConfig.t) :
  InMemoryStorage._graphs s !! graph_id = Some graph ->
  (exists run_data,
      run_of (fst (StateManager.initialize run_id graph_id initial_state s)) run_id
      = Some run_data
      /\ RunData.execution_log run_data = [])
  /\ (forall n current_node vars s1,
        iterations n registry run_id graph (GraphConfig.entry_node graph)
          no_locals (started run_id graph_id initial_state s)
        = Some (current_node, vars, s1) ->
        exists run_data,
          run_of s1 run_id = Some run_data
          /\ RunData.execution_log run_data = [])
  /\ (exists run_data,
        run_of (fst (execute fuel registry run_id graph_id initial_state s)) run_id
        = Some run_data
        /\ RunData.execution_log run_data = [])
  /\ (forall s0 run_data status,
        run_of s0 run_id = Some run_data ->
        exists run_data',
          run_of (fst (StateManager.complete_run run_id status s0)) run_id
          = Some run_data'
          /\ RunData.execution_log run_data' = RunData.execution_log run_data).
Proof.
  intros Hgraph. split; [ | split; [ | split ] ].
  - rewrite initialize_spec. simpl. eexists. split;
      [ apply run_of_save_run | reflexivity ].
  - intros n current_node vars s1 Hiter.
    destruct (iterations_keep_run _ _ _ _ _ _ _ _ _ _ _
                (run_of_save_run run_id _ s) Hiter) as [state' Hrun'].
    eexists. split; [ exact Hrun' | reflexivity ].
  - destruct (while_loop fuel registry run_id graph
                (Some (GraphConfig.entry_node graph)) no_locals
                (started run_id graph_id initial_state s))
      as [[s1 vars] exit] eqn:Hloop.
    destruct (execute_outcome _ _ _ _ _ _ _ _ _ _ Hgraph Hloop)
      as (state1 & Hrun1 & ->).
    destruct exit; simpl; eexists;
      (split; [ first [ apply run_of_save_run | exact Hrun1 ] | reflexivity ]).
  - intros s0 run_data status Hrun.
    rewrite (complete_run_found _ _ _ _ Hrun). simpl. eexists. split;
      [ apply run_of_save_run | reflexivity ].
Qed.

(** C10. Every entry of the log [execute] returns has status [success], and
    an iteration whose node execution raises leaves the log as it was. *)
Theorem trace_entries_all_success (fuel : nat) (registry : ToolRegistry.t)
    (run_id graph_id : string) (initial_state : Dict)
    (s s' : InMemoryStorage.t) (r : ExecutionResult.t) :
  execute fuel registry run_id graph_id initial_state s = (s', Ok (Some r)) ->
  Forall (fun log_entry => ExecutionLog.status log_entry = "success")
    (ExecutionResult.execution_log r)
  /\ forall graph current_node vars s0 s1 e,
       _execute_node registry run_id current_node graph s0 = (s1, Raise e) ->
       loop_body registry run_id graph current_node vars s0
       = (s1, vars, Throw e).
Proof.
  intros Hexec. split.
  - destruct (InMemoryStorage._graphs s !! graph_id) as [ graph | ] eqn:Hgraph.
    + destruct (while_loop fuel registry run_id graph
                  (Some (GraphConfig.entry_node graph)) no_locals
                  (started run_id graph_id initial_state s))
        as [[s1 vars] exit] eqn:Hloop.
      destruct (while_loop_keeps_run _ _ _ _ _ _ _ _ _ _ _
                  (run_of_save_run run_id _ s) Hloop)
        as [_ (appended & Hlog & Hall)].
      simpl in Hlog. subst appended.
      destruct (execute_outcome _ _ _ _ _ _ _ _ _ _ Hgraph Hloop)
        as (state1 & _ & Heq).
      rewrite Heq in Hexec.
      destruct exit; try discriminate; injection Hexec as _ <-; exact Hall.
    + unfold execute, bind at 1, GraphManager.get_graph,
        InMemoryStorage.load_graph in Hexec.
      rewrite Hgraph in Hexec. discriminate.
  - intros graph current_node vars s0 s1 e Hnode.
    unfold loop_body. rewrite Hnode. reflexivity.
Qed.

(* ================================================================== *)
(** * The iteration limit *)

(** A node whose handler always returns and always leaves a state on which
    the loop condition holds. *)
Lemma loop_until_limit registry run_id graph current_node handler loop_config :
  handler_of registry graph current_node = Some handler ->
  loop_config_at graph current_node = Some loop_config ->
  (forall state, exists result,
      handler state = Returns result
      /\ condition_holds (LoopConfig.condition loop_config) (merged state result)
         = true) ->
  forall (n : nat) fuel vars s run_data,
    run_of s run_id = Some run_data ->
    default 0 (loop_counts vars !! current_node)
    = LoopConfig.max_iterations loop_config - Z.of_nat n ->
    (n < fuel)%nat ->
    exists s' vars' appended,
      while_loop fuel registry run_id graph (Some current_node) vars s
      = (s', vars',
         Raised (LoopLimitError current_node
                   (LoopConfig.max_iterations loop_config)))
      /\ execution_log vars' = (execution_log vars ++ appended)%list
      /\ List.length appended = S n
      /\ Forall (fun log_entry => ExecutionLog.node log_entry = current_node)
           appended.
Proof.
  intros Hhandler Hloop Halways.
  induction n as [ | n IH ]; intros fuel vars s run_data Hrun Hcount Hfuel;
    (destruct fuel as [ | fuel ]; [ lia | ]);
    destruct (Halways (RunData.current_state run_data)) as (result & Hret & Hcond);
    simpl while_loop;
    rewrite (loop_body_with_policy _ _ _ _ _ _ _ _ _ _ Hrun Hhandler Hret Hloop);
    cbv zeta; rewrite Hcount.
  - destruct (Z.ltb_spec (LoopConfig.max_iterations loop_config)
                (LoopConfig.max_iterations loop_config - Z.of_nat 0 + 1));
      [ | lia ].
    do 2 eexists. eexists [_]. split; [ reflexivity | ].
    simpl. repeat split. constructor; [ reflexivity | constructor ].
  - destruct (Z.ltb_spec (LoopConfig.max_iterations loop_config)
                (LoopConfig.max_iterations loop_config - Z.of_nat (S n) + 1));
      [ lia | ].
    rewrite Hcond.
    match goal with
    | |- context [while_loop fuel _ _ _ _ ?v ?st] =>
        destruct (IH fuel v st _ (run_of_after_node _ _ result _ Hrun))
          as (s' & vars' & appended & Hwhile & Hlog & Hlen & Hall)
    end.
    + simpl loop_counts. rewrite lookup_insert_eq. simpl. lia.
    + lia.
    + rewrite Hwhile. do 2 eexists. eexists (_ :: appended).
      split; [ reflexivity | ]. simpl execution_log in Hlog.
      rewrite Hlog, <- app_assoc. simpl. repeat split.
      * rewrite Hlen. reflexivity.
      * constructor; [ reflexivity | exact Hall ].
Qed.

(** C1, as the code has it.  A graph that starts at a node with a loop
    policy of [max_iterations = 3], whose handler always returns and whose
    loop condition holds after every execution, fails with
    [LoopLimitError], and the log returned has four records of that node:
    the count is compared with the limit after the node has run and its
    record has been appended, so the fourth execution takes place. *)
Theorem loop_limit_three_runs_four_times (fuel : nat)
    (registry : ToolRegistry.t) (run_id graph_id : string)
    (initial_state : Dict) (s : InMemoryStorage.t) (graph : GraphConfig.t)
    (handler : Callable) (loop_config : LoopConfig.t) :
  InMemoryStorage._graphs s !! graph_id = Some graph ->
  handler_of registry graph (GraphConfig.entry_node graph) = Some handler ->
  loop_config_at graph (GraphConfig.entry_node graph) = Some loop_config ->
  LoopConfig.max_iterations loop_config = 3 ->
  (forall state, exists result,
      handler state = Returns result
      /\ condition_holds (LoopConfig.condition loop_config) (merged state result)
         = true) ->
  (4 <= fuel)%nat ->
  exists s' final_state log,
    execute fuel registry run_id graph_id initial_state s
    = (s', Ok (Some (ExecutionResult.mk run_id graph_id "failed" final_state log
                       (Some (str_exn (LoopLimitError
                                         (GraphConfig.entry_node graph) 3))))))
    /\ List.length log = 4%nat
    /\ Forall (fun log_entry =>
                 ExecutionLog.node log_entry = GraphConfig.entry_node graph) log.
Proof.
  intros Hgraph Hhandler Hloop Hmax Halways Hfuel.
  destruct (loop_until_limit registry run_id graph _ _ _ Hhandler Hloop Halways
              3%nat fuel no_locals (started run_id graph_id initial_state s) _
              (run_of_save_run run_id _ s))
    as (s1 & vars & appended & Hwhile & Hlog & Hlen & Hall).
  { rewrite Hmax. reflexivity. }
  { lia. }
  destruct (execute_outcome _ _ _ _ _ _ _ _ _ _ Hgraph Hwhile)
    as (state1 & _ & Hexec).
  rewrite Hmax in Hexec. simpl in Hlog. subst appended.
  do 3 eexists. split; [ exact Hexec | ]. split; assumption.
Qed.

(* ================================================================== *)
(** * State hand-off *)

Lemma lookup_alloc_old {A : Type} (h : list A) (o : A) (l : nat) :
  (l < List.length h)%nat -> (h ++ [o])%list !! l = h !! l.
Proof. intros H. apply lookup_app_l. exact H. Qed.

Lemma lookup_alloc_new {A : Type} (h : list A) (o : A) :
  (h ++ [o])%list !! List.length h = Some o.
Proof. apply list_lookup_middle. reflexivity. Qed.

Lemma aliasing_dict_copy_found d w items :
  Aliasing.objects w !! d = Some (Aliasing.ODict items) ->
  Aliasing.dict_copy d w
  = (Aliasing.World (Aliasing.objects w ++ [Aliasing.ODict items])%list
       (Aliasing._runs w),
     Ok (List.length (Aliasing.objects w))).
Proof. intros H. unfold Aliasing.dict_copy. rewrite H. reflexivity. Qed.

Lemma aliasing_get_state_found run_id w run_data items :
  Aliasing._runs w !! run_id = Some run_data ->
  Aliasing.objects w !! Aliasing.RunData.current_state run_data
  = Some (Aliasing.ODict items) ->
  Aliasing.get_state run_id w
  = (Aliasing.World (Aliasing.objects w ++ [Aliasing.ODict items])%list
       (Aliasing._runs w),
     Ok (List.length (Aliasing.objects w))).
Proof.
  intros Hrun Hobj. unfold Aliasing.get_state, bind, Aliasing.load_run.
  rewrite Hrun. apply aliasing_dict_copy_found. exact Hobj.
Qed.

Lemma aliasing_update_state_found run_id updates w run_data items new_items :
  Aliasing._runs w !! run_id = Some run_data ->
  Aliasing.objects w !! Aliasing.RunData.current_state run_data
  = Some (Aliasing.ODict items) ->
  Aliasing.objects w !! updates = Some (Aliasing.ODict new_items) ->
  Aliasing.update_state run_id updates w
  = (Aliasing.World
       (<[Aliasing.RunData.current_state run_data
          := Aliasing.ODict (dict_update items new_items)]> (Aliasing.objects w)
        ++ [Aliasing.ODict (dict_update items new_items)])%list
       (<[run_id := run_data]> (Aliasing._runs w)),
     Ok (List.length (Aliasing.objects w))).
Proof.
  intros Hrun Hobj Hupd.
  unfold Aliasing.update_state, bind at 1, Aliasing.load_run. rewrite Hrun.
  unfold bind at 1, Aliasing.update_in_place. rewrite Hobj, Hupd.
  unfold bind, Aliasing.save_run. simpl Aliasing.objects.
  rewrite (aliasing_dict_copy_found _ _ (dict_update items new_items)).
  - simpl. rewrite length_insert. reflexivity.
  - simpl. apply list_lookup_insert_eq. apply lookup_lt_Some in Hobj. exact Hobj.
Qed.

(** What [_execute_node] leaves, for a handler that writes nothing but its
    own argument: every object that existed, except the dictionary of the
    run, is as it was, and the snapshot taken before the call has the items
    the run had. *)
Lemma aliasing_execute_node_frame (handler : Aliasing.Callable)
    (run_id node_name : string) (w : Aliasing.world)
    (run_data : Aliasing.RunData.t) (state : list (string * Aliasing.val)) :
  Aliasing.writes_own_argument_only handler ->
  Aliasing._runs w !! run_id = Some run_data ->
  Aliasing.objects w !! Aliasing.RunData.current_state run_data
  = Some (Aliasing.ODict state) ->
  exists w' r,
    Aliasing._execute_node handler run_id node_name w = (w', r)
    /\ Aliasing._runs w' !! run_id = Some run_data
    /\ (forall l, (l < List.length (Aliasing.objects w))%nat ->
          l <> Aliasing.RunData.current_state run_data ->
          Aliasing.objects w' !! l = Aliasing.objects w !! l)
    /\ match r with
       | Ok log_entry =>
           (List.length (Aliasing.objects w)
            <= Aliasing.ExecutionLog.state_before log_entry)%nat
           /\ (List.length (Aliasing.objects w)
               <= Aliasing.ExecutionLog.state_after log_entry)%nat
           /\ Aliasing.objects w' !! Aliasing.ExecutionLog.state_before log_entry
              = Some (Aliasing.ODict state)
           /\ exists state',
                Aliasing.objects w' !! Aliasing.RunData.current_state run_data
                = Some (Aliasing.ODict state')
                /\ Aliasing.objects w' !! Aliasing.ExecutionLog.state_after log_entry
                   = Some (Aliasing.ODict state')
                /\ (state' = state
                    \/ exists updates, state' = dict_update state updates)
       | Raise _ =>
           Aliasing.objects w' !! Aliasing.RunData.current_state run_data
           = Some (Aliasing.ODict state)
       end.
Proof.
  destruct w as [h runs]. simpl. intros Hframe Hrun Hobj.
  set (c := Aliasing.RunData.current_state run_data) in *.
  assert (Hc : (c < List.length h)%nat)
    by (apply lookup_lt_Some in Hobj; exact Hobj).
  set (h2 := ((h ++ [Aliasing.ODict state]) ++ [Aliasing.ODict state])%list).
  assert (Hlen2 : List.length h2 = S (S (List.length h)))
    by (unfold h2; rewrite !length_app; simpl; lia).
  assert (Hold2 : forall l, (l < List.length h)%nat -> h2 !! l = h !! l).
  { intros l Hl. unfold h2.
    rewrite lookup_alloc_old by (rewrite length_app; simpl; lia).
    apply lookup_alloc_old. exact Hl. }
  assert (Hsnap2 : h2 !! List.length h = Some (Aliasing.ODict state)).
  { unfold h2. rewrite lookup_alloc_old by (rewrite length_app; simpl; lia).
    apply lookup_alloc_new. }
  destruct (Hframe (S (List.length h)) h2) as [Hgrow Hsame].
  unfold Aliasing._execute_node.
  unfold bind at 1.
  rewrite (aliasing_get_state_found run_id (Aliasing.World h runs) run_data state
             Hrun Hobj).
  unfold bind at 1.
  rewrite (aliasing_dict_copy_found _ _ state) by (simpl; apply lookup_alloc_new).
  simpl Aliasing.objects. simpl Aliasing._runs.
  rewrite length_app. simpl List.length.
  replace (List.length h + 1)%nat with (S (List.length h)) by lia.
  fold h2. unfold bind at 1. cbn [Aliasing.objects Aliasing._runs].
  destruct (handler (S (List.length h)) h2) as [h3 out]. simpl in Hgrow, Hsame.
  assert (Hold3 : forall l, (l < List.length h)%nat -> h3 !! l = h !! l).
  { intros l Hl. rewrite Hsame by lia. apply Hold2. exact Hl. }
  assert (Hsnap3 : h3 !! List.length h = Some (Aliasing.ODict state)).
  { rewrite Hsame by lia. exact Hsnap2. }
  assert (Hobj3 : h3 !! c = Some (Aliasing.ODict state)).
  { rewrite Hold3 by exact Hc. exact Hobj. }
  destruct out as [ result | e ].
  2:{ do 2 eexists. split; [ reflexivity | ]. simpl.
      split; [ exact Hrun | ]. split; [ | exact Hobj3 ].
      intros l Hl _. apply Hold3. exact Hl. }
  unfold bind at 1.
  destruct (Aliasing.as_dict result h3) as [ updates | ] eqn:Hdict.
  - assert (Hupd : exists new_items,
               h3 !! updates = Some (Aliasing.ODict new_items)).
    { unfold Aliasing.as_dict in Hdict. destruct result; try discriminate.
      destruct (h3 !! l) as [ [ | new_items ] | ] eqn:E; try discriminate.
      injection Hdict as <-. eauto. }
    destruct Hupd as [new_items Hupd].
    simpl Aliasing.objects. rewrite Hdict.
    unfold bind at 1.
    rewrite (aliasing_update_state_found run_id updates (Aliasing.World h3 runs)
               run_data state new_items Hrun Hobj3 Hupd).
    unfold ret at 1. unfold bind at 1.
    cbn [Aliasing.objects Aliasing._runs]. fold c.
    set (state' := dict_update state new_items).
    set (h4 := <[c := Aliasing.ODict state']> h3).
    assert (Hlen4 : List.length h4 = List.length h3)
      by (unfold h4; apply length_insert).
    assert (Hobj4 : h4 !! c = Some (Aliasing.ODict state')).
    { unfold h4. apply list_lookup_insert_eq. lia. }
    rewrite (aliasing_get_state_found run_id
               (Aliasing.World (h4 ++ [Aliasing.ODict state'])%list
                  (<[run_id := run_data]> runs)) run_data state');
      [ | apply lookup_insert_eq
        | simpl; fold c; rewrite lookup_alloc_old by lia; exact Hobj4 ].
    do 2 eexists. split; [ reflexivity | ]. simpl.
    split; [ apply lookup_insert_eq | ].
    assert (Hkeep : forall l, (l < List.length h3)%nat -> l <> c ->
               ((h4 ++ [Aliasing.ODict state']) ++ [Aliasing.ODict state'])%list
                 !! l = h3 !! l).
    { intros l Hl Hne.
      rewrite lookup_alloc_old by (rewrite length_app; simpl; lia).
      rewrite lookup_alloc_old by lia.
      unfold h4. apply list_lookup_insert_ne. congruence. }
    split; [ | split; [ | split; [ | split ] ] ].
    + intros l Hl Hne. rewrite Hkeep by lia. apply Hold3. exact Hl.
    + lia.
    + rewrite length_app. simpl. lia.
    + rewrite Hkeep by lia. exact Hsnap3.
    + exists state'. split; [ | split ].
      * rewrite lookup_alloc_old by (rewrite length_app; simpl; lia).
        rewrite lookup_alloc_old by lia. exact Hobj4.
      * apply lookup_alloc_new.
      * right. exists new_items. reflexivity.
  - simpl Aliasing.objects. rewrite Hdict. unfold bind at 1.
    rewrite (aliasing_get_state_found run_id (Aliasing.World h3 runs) run_data
               state Hrun Hobj3).
    do 2 eexists. split; [ reflexivity | ]. simpl.
    split; [ exact Hrun | ].
    split; [ | split; [ | split; [ | split ] ] ].
    + intros l Hl Hne. rewrite lookup_alloc_old by lia. apply Hold3. exact Hl.
    + lia.
    + lia.
    + rewrite lookup_alloc_old by lia. exact Hsnap3.
    + exists state. split; [ | split ].
      * rewrite lookup_alloc_old by lia. exact Hobj3.
      * apply lookup_alloc_new.
      * left. reflexivity.
Qed.

Lemma mark_seen_writes_own_argument_only :
  Aliasing.writes_own_argument_only Aliasing.mark_seen.
Proof.
  intros argument h. unfold Aliasing.mark_seen.
  destruct (h !! argument) as [ [ xs | items ] | ]; simpl;
    try (split; [ lia | reflexivity ]).
  rewrite length_app, length_insert. simpl. split; [ lia | ].
  intros l Hl Hne.
  rewrite lookup_alloc_old by (rewrite length_insert; exact Hl).
  apply list_lookup_insert_ne. congruence.
Qed.

(** C8, deep copies: a run that shows there are none.  The caller passes [{"items": [1]}]; the handler
    of the first node appends to the list it finds under ["items"] in the
    dictionary it is given and returns [None].  The list is one object,
    shared by the caller's dictionary, the dictionary of the run, the
    snapshot [state_before] and the handler's argument: after the node, the
    caller's dictionary, the dictionary of the run and [state_before] all
    show [[1, 2]]. *)
Lemma nested_mutation_is_shared :
  snd Aliasing.after_append
  = Ok (Aliasing.ExecutionLog.mk "node" 3 5 "success")
  /\ Aliasing.view 2 (Aliasing.objects Aliasing.caller_world) (Aliasing.VRef 1)
     = Some (PyDict [("items", PyList [PyInt 1])])
  /\ Aliasing.view 2 (Aliasing.objects Aliasing.created_world) (Aliasing.VRef 2)
     = Some (PyDict [("items", PyList [PyInt 1])])
  /\ Aliasing.view 2 (Aliasing.objects (fst Aliasing.after_append)) (Aliasing.VRef 1)
     = Some (PyDict [("items", PyList [PyInt 1; PyInt 2])])
  /\ Aliasing.view 2 (Aliasing.objects (fst Aliasing.after_append)) (Aliasing.VRef 2)
     = Some (PyDict [("items", PyList [PyInt 1; PyInt 2])])
  /\ Aliasing.view 2 (Aliasing.objects (fst Aliasing.after_append)) (Aliasing.VRef 3)
     = Some (PyDict [("items", PyList [PyInt 1; PyInt 2])])
  /\ Aliasing.view 2 (Aliasing.objects (fst Aliasing.after_append)) (Aliasing.VRef 1)
     <> Aliasing.view 2 (Aliasing.objects Aliasing.caller_world) (Aliasing.VRef 1)
  /\ Aliasing.view 2 (Aliasing.objects (fst Aliasing.after_append)) (Aliasing.VRef 3)
     <> Aliasing.view 2 (Aliasing.objects Aliasing.created_world) (Aliasing.VRef 2).
Proof. repeat split; try (vm_compute; reflexivity); vm_compute; discriminate. Qed.

(** C8, as the code has it.  Run creation and every hand-off of the state
    copy the dictionary, not what it holds.  [initialize] stores a new
    dictionary with the items of the caller's and writes no object of the
    caller.  A node execution whose handler writes nothing but the
    dictionary it is given (and objects it creates) writes no object that
    existed before, except the dictionary of the run: the caller's
    dictionary and earlier snapshots keep their items; [state_before] is a
    new dictionary with the items the run had; the dictionary of the run
    ends with those items, updated with the returned mapping if there is
    one, whatever the handler did to its argument; [state_after] is a new
    dictionary with the items the run ends with. *)
Theorem state_handoffs_are_shallow_copies (handler : Aliasing.Callable)
    (run_id graph_id node_name : string) (initial_state : Aliasing.loc)
    (w : Aliasing.world) (items : list (string * Aliasing.val)) :
  Aliasing.objects w !! initial_state = Some (Aliasing.ODict items) ->
  Aliasing.writes_own_argument_only handler ->
  (exists w1 run_data,
      Aliasing.initialize run_id graph_id initial_state w = (w1, Ok run_data)
      /\ Aliasing._runs w1 !! run_id = Some run_data
      /\ Aliasing.RunData.current_state run_data
         = List.length (Aliasing.objects w)
      /\ Aliasing.objects w1 !! Aliasing.RunData.current_state run_data
         = Some (Aliasing.ODict items)
      /\ forall l, (l < List.length (Aliasing.objects w))%nat ->
           Aliasing.objects w1 !! l = Aliasing.objects w !! l)
  /\ forall w1 run_data state,
       Aliasing._runs w1 !! run_id = Some run_data ->
       Aliasing.objects w1 !! Aliasing.RunData.current_state run_data
       = Some (Aliasing.ODict state) ->
       exists w2 r,
         Aliasing._execute_node handler run_id node_name w1 = (w2, r)
         /\ Aliasing._runs w2 !! run_id = Some run_data
         /\ (forall l, (l < List.length (Aliasing.objects w1))%nat ->
               l <> Aliasing.RunData.current_state run_data ->
               Aliasing.objects w2 !! l = Aliasing.objects w1 !! l)
         /\ match r with
            | Ok log_entry =>
                (List.length (Aliasing.objects w1)
                 <= Aliasing.ExecutionLog.state_before log_entry)%nat
                /\ (List.length (Aliasing.objects w1)
                    <= Aliasing.ExecutionLog.state_after log_entry)%nat
                /\ Aliasing.objects w2
                     !! Aliasing.ExecutionLog.state_before log_entry
                   = Some (Aliasing.ODict state)
                /\ exists state',
                     Aliasing.objects w2
                       !! Aliasing.RunData.current_state run_data
                     = Some (Aliasing.ODict state')
                     /\ Aliasing.objects w2
                          !! Aliasing.ExecutionLog.state_after log_entry
                        = Some (Aliasing.ODict state')
                     /\ (state' = state
                         \/ exists updates, state' = dict_update state updates)
            | Raise _ =>
                Aliasing.objects w2 !! Aliasing.RunData.current_state run_data
                = Some (Aliasing.ODict state)
            end.
Proof.
  intros Hinit Hframe. split.
  - unfold Aliasing.initialize, bind at 1.
    rewrite (aliasing_dict_copy_found _ _ _ Hinit).
    unfold bind, Aliasing.save_run, ret. cbn [Aliasing.objects Aliasing._runs].
    do 2 eexists. split; [ reflexivity | ].
    cbn [Aliasing.objects Aliasing._runs Aliasing.RunData.current_state].
    split; [ apply lookup_insert_eq | ].
    split; [ reflexivity | ].
    split; [ apply lookup_alloc_new | ].
    intros l Hl. apply lookup_alloc_old. exact Hl.
  - intros w1 run_data state Hrun Hobj.
    apply aliasing_execute_node_frame; assumption.
Qed.

(* ================================================================== *)
(** * The statements at sample inputs *)

Lemma keep_going_always_holds (state : Dict) :
  exists result,
    Sample.keep_going state = Returns result
    /\ condition_holds (LoopConfig.condition Sample.looping_policy)
         (merged state result) = true.
Proof.
  exists (PyDict [("stop", PyBool false)]). split; [ reflexivity | ].
  assert (Hstop : dict_get "stop"
                    (merged state (PyDict [("stop", PyBool false)]))
                  = Some (PyBool false)).
  { unfold merged. cbn [as_dict]. rewrite dict_get_update. reflexivity. }
  unfold condition_holds, _evaluate_condition.
  cbn [LoopConfig.condition Sample.looping_policy ConditionConfig.field
       ConditionConfig.operator ConditionConfig.value].
  rewrite Hstop. reflexivity.
Qed.

(** The looping graph, whose node never asks to stop, run with a limit of 3. *)
Lemma loop_limit_three_runs_four_times_witness :
  exists s' final_state log,
    execute 4 Sample.registry "run" "looping" [] Sample.storage
    = (s', Ok (Some (ExecutionResult.mk "run" "looping" "failed" final_state log
                       (Some (str_exn (LoopLimitError "A" 3))))))
    /\ List.length log = 4%nat
    /\ Forall (fun log_entry => ExecutionLog.node log_entry = "A") log.
Proof.
  apply (loop_limit_three_runs_four_times 4 Sample.registry "run" "looping" []
           Sample.storage Sample.looping_graph Sample.keep_going
           Sample.looping_policy).
  - vm_compute. reflexivity.
  - vm_compute. reflexivity.
  - reflexivity.
  - reflexivity.
  - exact keep_going_always_holds.
  - lia.
Defined.


(** The edges [A -> B if x < 5], [A -> C if x < 10], [A -> D] with [x = 3]:
    the engine goes to [B]. *)
Lemma edge_selection_first_match_witness :
  advance "run" Sample.branching_graph "A" no_locals Sample.branching_run
  = (Sample.branching_run, no_locals, Next (Some "B")).
Proof.
  destruct (edge_selection_first_match Sample.registry "run"
              Sample.branching_graph "A" no_locals Sample.branching_run
              (fresh_run "run" "branching" [("x", PyInt 3)]))
    as [Hadvance _].
  - vm_compute. reflexivity.
  - exact Hadvance.
Defined.

(** The broken definition is rejected, with its four messages. *)
Lemma validation_reports_every_violation_witness :
  violation Sample.broken_graph
  /\ In (entry_error "start") (GraphManager.validation_errors Sample.broken_graph)
  /\ In (target_error "B") (GraphManager.validation_errors Sample.broken_graph)
  /\ In (source_error "C") (GraphManager.validation_errors Sample.broken_graph)
  /\ In (loop_error "Z") (GraphManager.validation_errors Sample.broken_graph)
  /\ GraphManager.create_graph "id" Sample.broken_graph Sample.storage
     = (Sample.storage,
        Raise (ValidationError
                 (GraphManager.validation_errors Sample.broken_graph))).
Proof.
  destruct (validation_reports_every_violation Sample.broken_graph)
    as (Hiff & _ & Hall & Hpure).
  assert (Hviol : violation Sample.broken_graph).
  { apply Hiff. eexists. vm_compute. reflexivity. }
  assert (Hnot : forall x, x <> "A" -> ~ In x (node_names Sample.broken_graph)).
  { intros x Hx [ Heq | [] ]. apply Hx. symmetry. exact Heq. }
  destruct (Hall (GraphManager.validation_errors Sample.broken_graph))
    as (Hentry & Hedges & Hloops).
  { vm_compute. reflexivity. }
  split; [ exact Hviol | ].
  split; [ apply Hentry, Hnot; discriminate | ].
  split; [ apply (Hedges (EdgeConfig.mk "A" "B" None));
           [ left; reflexivity | apply Hnot; discriminate ] | ].
  split; [ apply (Hedges (EdgeConfig.mk "C" "A" None));
           [ right; left; reflexivity | apply Hnot; discriminate ] | ].
  split; [ apply Hloops; [ left; reflexivity | apply Hnot; discriminate ] | ].
  apply Hpure. exact Hviol.
Defined.

(** A state [{"c": 0, "a": 1}] and a handler that returns
    [{"a": 2, "b": 3}]. *)
Lemma handler_result_merged_witness :
  exists s' log_entry,
    _execute_node Sample.registry "run" "A" Sample.failing_graph
      (started "run" "failing" [("c", PyInt 0); ("a", PyInt 1)] Sample.storage)
    = (s', Ok log_entry)
    /\ ExecutionLog.state_after log_entry
       = [("c", PyInt 0); ("a", PyInt 2); ("b", PyInt 3)].
Proof.
  destruct (handler_result_merged Sample.registry "run" "A" Sample.failing_graph
              (started "run" "failing" [("c", PyInt 0); ("a", PyInt 1)]
                 Sample.storage)
              (fresh_run "run" "failing" [("c", PyInt 0); ("a", PyInt 1)])
              Sample.set_a (PyDict [("a", PyInt 2); ("b", PyInt 3)]))
    as (s' & log_entry & after & Hnode & _ & Hafter & Hmerge & _).
  - vm_compute. reflexivity.
  - vm_compute. reflexivity.
  - reflexivity.
  - exists s', log_entry. split; [ exact Hnode | ].
    rewrite Hafter. exact Hmerge.
Defined.

(** The looping graph has an edge from [A] to itself and an edge from [A]
    to [B]; while the policy's condition holds neither is looked at. *)
Lemma loop_policy_precedes_edges_witness :
  loop_body Sample.registry "run"
    (with_edges Sample.looping_graph [EdgeConfig.mk "A" "B" None]) "A"
    no_locals Sample.looping_run
  = (Sample.looping_run_after_A,
     Locals [Sample.looping_entry] (<["A" := 1]> ∅),
     Next (Some "A")).
Proof.
  destruct (loop_policy_precedes_edges Sample.registry "run"
              Sample.looping_graph "A" no_locals Sample.looping_run
              Sample.looping_run_after_A (fresh_run "run" "looping" [])
              Sample.looping_entry Sample.looping_policy)
    as [_ Hbody].
  - vm_compute. reflexivity.
  - vm_compute. reflexivity.
  - reflexivity.
  - vm_compute. discriminate.
  - reflexivity.
  - exact (Hbody [EdgeConfig.mk "A" "B" None]).
Defined.

(** The failing graph: [A] runs, [B] raises. *)
Lemma failure_stops_run_witness :
  execute 5 Sample.registry "run" "failing" [("c", PyInt 0)] Sample.storage
  = (InMemoryStorage.save_run "run"
       (with_status
          (fresh_run "run" "failing"
             [("c", PyInt 0); ("a", PyInt 2); ("b", PyInt 3)]) "failed")
       Sample.failing_run_at_B,
     Ok (Some Sample.failing_result)).
Proof.
  apply (failure_stops_run 5 Sample.registry "run" "failing" [("c", PyInt 0)]
           Sample.storage Sample.failing_graph 1 "B" Sample.failing_vars_at_B
           Sample.failing_run_at_B
           (fresh_run "run" "failing"
              [("c", PyInt 0); ("a", PyInt 2); ("b", PyInt 3)])
           (NodeExecutionError "B" "boom")).
  - vm_compute. reflexivity.
  - vm_compute. reflexivity.
  - lia.
  - vm_compute. reflexivity.
  - exists (NodeConfig.mk "B" "failing" None). split; [ reflexivity | ].
    right. exists Sample.failing, "boom".
    split; [ vm_compute; reflexivity | split; reflexivity ].
Defined.

Lemma stored_log_stays_empty_witness :
  exists run_data,
    run_of (fst (execute 5 Sample.registry "run" "failing" [("c", PyInt 0)]
                   Sample.storage)) "run"
    = Some run_data
    /\ RunData.execution_log run_data = [].
Proof.
  destruct (stored_log_stays_empty 5 Sample.registry "run" "failing"
              [("c", PyInt 0)] Sample.storage Sample.failing_graph)
    as (_ & _ & Hafter & _).
  - vm_compute. reflexivity.
  - exact Hafter.
Defined.

Lemma trace_entries_all_success_witness :
  Forall (fun log_entry => ExecutionLog.status log_entry = "success")
    (ExecutionResult.execution_log Sample.failing_result).
Proof.
  destruct (trace_entries_all_success 5 Sample.registry "run" "failing"
              [("c", PyInt 0)] Sample.storage
              (fst (execute 5 Sample.registry "run" "failing" [("c", PyInt 0)]
                      Sample.storage))
              Sample.failing_result)
    as [Hall _].
  - vm_compute. reflexivity.
  - exact Hall.
Defined.

(** The caller's objects and a handler that sets a key of the dictionary it
    is given: the run gets a dictionary of its own, at a new location. *)
Lemma state_handoffs_are_shallow_copies_witness :
  exists w1 run_data,
    Aliasing.initialize "run" "graph" 1%nat Aliasing.caller_world
    = (w1, Ok run_data)
    /\ Aliasing.RunData.current_state run_data = 2%nat
    /\ Aliasing.objects w1 !! 2%nat
       = Some (Aliasing.ODict [("items", Aliasing.VRef 0)])
    /\ Aliasing.objects w1 !! 1%nat
       = Some (Aliasing.ODict [("items", Aliasing.VRef 0)]).
Proof.
  destruct (state_handoffs_are_shallow_copies Aliasing.mark_seen "run" "graph"
              "node" 1%nat Aliasing.caller_world
              [("items", Aliasing.VRef 0)])
    as [(w1 & run_data & Hinit & _ & Hloc & Hitems & Hold) _].
  - reflexivity.
  - exact mark_seen_writes_own_argument_only.
  - exists w1, run_data. split; [ exact Hinit | ].
    split; [ exact Hloc | ].
    split; [ rewrite Hloc in Hitems; exact Hitems | ].
    rewrite Hold; [ reflexivity | simpl; lia ].
Defined.

(* ================================================================== *)
(** * Further properties: storage, state manager, registry, graph manager *)

(** X1. What is saved under an identifier is what is loaded under it, until
    it is saved again; saving a run or a graph changes the answer for no
    other identifier and for nothing in the other table. *)
Theorem storage_save_load_round_trip (s : InMemoryStorage.t)
    (run_id graph_id : string) (run_data : RunData.t) (config : GraphConfig.t) :
  InMemoryStorage.load_run run_id (InMemoryStorage.save_run run_id run_data s)
  = Ok run_data
  /\ (forall other, other <> run_id ->
        InMemoryStorage.load_run other (InMemoryStorage.save_run run_id run_data s)
        = InMemoryStorage.load_run other s)
  /\ (forall any,
        InMemoryStorage.load_graph any (InMemoryStorage.save_run run_id run_data s)
        = InMemoryStorage.load_graph any s)
  /\ InMemoryStorage.load_graph graph_id
       (InMemoryStorage.save_graph graph_id config s)
     = Ok config
  /\ (forall other, other <> graph_id ->
        InMemoryStorage.load_graph other
          (InMemoryStorage.save_graph graph_id config s)
        = InMemoryStorage.load_graph other s)
  /\ (forall any,
        InMemoryStorage.load_run any (InMemoryStorage.save_graph graph_id config s)
        = InMemoryStorage.load_run any s).
Proof.
  unfold InMemoryStorage.load_run, InMemoryStorage.load_graph,
    InMemoryStorage.save_run, InMemoryStorage.save_graph. simpl.
  repeat split.
  - rewrite lookup_insert_eq. reflexivity.
  - intros other Hne. rewrite lookup_insert_ne by congruence. reflexivity.
  - rewrite lookup_insert_eq. reflexivity.
  - intros other Hne. rewrite lookup_insert_ne by congruence. reflexivity.
Qed.

(** X2. [has_run] and [has_graph] answer [True] exactly when the load
    succeeds; the load of an identifier that is not there raises the
    not-found error that carries it; after [clear] nothing is there. *)
Theorem storage_has_agrees_with_load (s : InMemoryStorage.t) (id : string) :
  (InMemoryStorage.has_run id s = true
   <-> exists run_data, InMemoryStorage.load_run id s = Ok run_data)
  /\ (InMemoryStorage.has_run id s = false
      <-> InMemoryStorage.load_run id s = Raise (RunNotFoundError id))
  /\ (InMemoryStorage.has_graph id s = true
      <-> exists config, InMemoryStorage.load_graph id s = Ok config)
  /\ (InMemoryStorage.has_graph id s = false
      <-> InMemoryStorage.load_graph id s = Raise (GraphNotFoundError id))
  /\ InMemoryStorage.has_run id (InMemoryStorage.clear s) = false
  /\ InMemoryStorage.has_graph id (InMemoryStorage.clear s) = false.
Proof.
  unfold InMemoryStorage.has_run, InMemoryStorage.has_graph,
    InMemoryStorage.load_run, InMemoryStorage.load_graph, InMemoryStorage.clear.
  simpl. rewrite !lookup_empty.
  destruct (InMemoryStorage._runs s !! id) as [ run_data | ];
    destruct (InMemoryStorage._graphs s !! id) as [ config | ];
    repeat split; try congruence; eauto;
    try (intros [x Hx]; discriminate).
Qed.

Lemma with_state_same run_data :
  with_state run_data (RunData.current_state run_data) = run_data.
Proof. destruct run_data; reflexivity. Qed.

Lemma same_elsewhere_save_run run_id run_data s :
  same_elsewhere run_id s (InMemoryStorage.save_run run_id run_data s).
Proof.
  split; [ reflexivity | ].
  intros other Hne. apply run_of_save_run_ne. congruence.
Qed.

Lemma same_elsewhere_refl run_id s : same_elsewhere run_id s s.
Proof. split; [ reflexivity | intros; reflexivity ]. Qed.

Lemma same_elsewhere_trans run_id s1 s2 s3 :
  same_elsewhere run_id s1 s2 -> same_elsewhere run_id s2 s3 ->
  same_elsewhere run_id s1 s3.
Proof.
  intros [Hg1 Hr1] [Hg2 Hr2]. split; [ congruence | ].
  intros other Hne. rewrite Hr2, Hr1 by exact Hne. reflexivity.
Qed.

(** X3. On a run that is in the storage, [set_state] replaces the state and
    nothing else: [get_state] then returns the state that was set, the
    status and the stored log are as before, and no other run and no graph
    is touched. *)
Theorem set_state_then_get_state (run_id : string) (state : Dict)
    (s : InMemoryStorage.t) (run_data : RunData.t) :
  run_of s run_id = Some run_data ->
  exists s',
    StateManager.set_state run_id state s = (s', Ok tt)
    /\ StateManager.get_state run_id s' = (s', Ok state)
    /\ StateManager.get_run run_id s' = (s', Ok (with_state run_data state))
    /\ same_elsewhere run_id s s'.
Proof.
  intros Hrun.
  exists (InMemoryStorage.save_run run_id (with_state run_data state) s).
  split; [ | split; [ | split ] ].
  - unfold StateManager.set_state, bind, load_run, save_run,
      InMemoryStorage.load_run.
    unfold run_of in Hrun. rewrite Hrun. reflexivity.
  - rewrite (get_state_found _ _ _ (run_of_save_run _ _ _)). reflexivity.
  - unfold StateManager.get_run, load_run, InMemoryStorage.load_run.
    pose proof (run_of_save_run run_id (with_state run_data state) s) as H.
    unfold run_of in H. rewrite H. reflexivity.
  - apply same_elsewhere_save_run.
Qed.

(** X4. Every operation of the state manager on a run that is not in the
    storage raises [RunNotFoundError] for that run and writes nothing. *)
Theorem state_manager_run_not_found (run_id : string) (s : InMemoryStorage.t)
    (state updates : Dict) (status : string) :
  run_of s run_id = None ->
  StateManager.get_state run_id s = (s, Raise (RunNotFoundError run_id))
  /\ StateManager.get_run run_id s = (s, Raise (RunNotFoundError run_id))
  /\ StateManager.update_state run_id updates s
     = (s, Raise (RunNotFoundError run_id))
  /\ StateManager.set_state run_id state s = (s, Raise (RunNotFoundError run_id))
  /\ StateManager.complete_run run_id status s
     = (s, Raise (RunNotFoundError run_id)).
Proof.
  unfold run_of. intros Hnone.
  unfold StateManager.get_state, StateManager.get_run,
    StateManager.update_state, StateManager.set_state,
    StateManager.complete_run, bind, load_run, InMemoryStorage.load_run.
  rewrite Hnone. repeat split.
Qed.

Lemma dict_update_app {V : Type} (d first second : list (string * V)) :
  dict_update (dict_update d first) second = dict_update d (first ++ second)%list.
Proof. unfold dict_update. rewrite fold_left_app. reflexivity. Qed.

Lemma dict_mem_set {V : Type} (k k' : string) (v : V) (d : list (string * V)) :
  dict_mem k d = true -> dict_mem k (dict_set k' v d) = true.
Proof.
  unfold dict_mem. rewrite dict_get_set.
  destruct (String.eqb k k'); [ reflexivity | auto ].
Qed.

Lemma dict_mem_update {V : Type} (k : string) (updates d : list (string * V)) :
  dict_mem k d = true -> dict_mem k (dict_update d updates) = true.
Proof.
  unfold dict_update. revert d.
  induction updates as [ | [k' v] updates IH ]; intros d Hmem; simpl.
  - exact Hmem.
  - apply IH. apply dict_mem_set. exact Hmem.
Qed.

(** X5. Two merges one after the other leave the state, and return the
    state, that one merge of the two update lists in a row does; a merge
    removes no key; and a merge of the empty dictionary changes nothing in
    the state. *)
Theorem update_state_composes (run_id : string) (first second : Dict)
    (s : InMemoryStorage.t) (run_data : RunData.t) :
  run_of s run_id = Some run_data ->
  exists s1 state1 s2 state2,
    StateManager.update_state run_id first s = (s1, Ok state1)
    /\ StateManager.update_state run_id second s1 = (s2, Ok state2)
    /\ StateManager.update_state run_id (first ++ second)%list s = (s2, Ok state2)
    /\ (forall key, dict_mem key (RunData.current_state run_data) = true ->
          dict_mem key state1 = true /\ dict_mem key state2 = true)
    /\ StateManager.update_state run_id [] s1 = (s1, Ok state1).
Proof.
  intros Hrun.
  rewrite (update_state_found _ first _ _ Hrun).
  rewrite (update_state_found _ (first ++ second)%list _ _ Hrun).
  do 4 eexists. split; [ reflexivity | ].
  rewrite (update_state_found _ second _ _ (run_of_save_run _ _ _)).
  simpl RunData.current_state. rewrite dict_update_app.
  split; [ reflexivity | ].
  split.
  { f_equal. unfold InMemoryStorage.save_run. simpl. f_equal.
    rewrite insert_insert_eq. reflexivity. }
  split.
  { intros key Hmem. split; apply dict_mem_update; exact Hmem. }
  rewrite (update_state_found _ [] _ _ (run_of_save_run _ _ _)).
  simpl RunData.current_state. unfold dict_update at 1 3. simpl fold_left.
  f_equal. unfold InMemoryStorage.save_run. simpl. f_equal.
  rewrite insert_insert_eq. reflexivity.
Qed.

(** X6. [complete_run] sets the status it is given, whatever the status
    was: it keeps the state and the stored log, returns the record it
    stores, touches no other run, and a second call overwrites the first. *)
Theorem complete_run_overwrites_status (run_id status status' : string)
    (s : InMemoryStorage.t) (run_data : RunData.t) :
  run_of s run_id = Some run_data ->
  exists s1 s2,
    StateManager.complete_run run_id status s
    = (s1, Ok (with_status run_data status))
    /\ StateManager.get_run run_id s1 = (s1, Ok (with_status run_data status))
    /\ StateManager.get_state run_id s1
       = (s1, Ok (RunData.current_state run_data))
    /\ same_elsewhere run_id s s1
    /\ StateManager.complete_run run_id status' s1
       = (s2, Ok (with_status run_data status'))
    /\ StateManager.complete_run run_id status' s = (s2, Ok (with_status run_data status')).
Proof.
  intros Hrun.
  rewrite !(complete_run_found _ _ _ _ Hrun).
  do 2 eexists. split; [ reflexivity | ].
  pose proof (run_of_save_run run_id (with_status run_data status) s) as Hrun1.
  split.
  { unfold StateManager.get_run, load_run, InMemoryStorage.load_run.
    unfold run_of in Hrun1. rewrite Hrun1. reflexivity. }
  split; [ rewrite (get_state_found _ _ _ Hrun1); reflexivity | ].
  split; [ apply same_elsewhere_save_run | ].
  rewrite (complete_run_found _ _ _ _ Hrun1).
  split; [ | reflexivity ].
  f_equal. unfold InMemoryStorage.save_run. simpl. f_equal.
  rewrite insert_insert_eq. reflexivity.
Qed.

(** X7. A registered tool is the one [get] returns and [has] reports, a
    second registration under the name replaces the first, and registering
    a name changes the answer for no other name; a name that was never
    registered raises [ToolNotFoundError]. *)
Theorem registry_register_get (registry : ToolRegistry.t) (name : string)
    (func func' : Callable) :
  ToolRegistry.get name (ToolRegistry.register name func registry) = Ok func
  /\ ToolRegistry.has name (ToolRegistry.register name func registry) = true
  /\ ToolRegistry.register name func'
       (ToolRegistry.register name func registry)
     = ToolRegistry.register name func' registry
  /\ (forall other, other <> name ->
        ToolRegistry.get other (ToolRegistry.register name func registry)
        = ToolRegistry.get other registry
        /\ ToolRegistry.has other (ToolRegistry.register name func registry)
           = ToolRegistry.has other registry)
  /\ (ToolRegistry.has name registry = false
      <-> ToolRegistry.get name registry = Raise (ToolNotFoundError name)).
Proof.
  unfold ToolRegistry.get, ToolRegistry.has, ToolRegistry.register. simpl.
  rewrite lookup_insert_eq, insert_insert_eq.
  repeat split.
  - rewrite lookup_insert_ne by congruence. reflexivity.
  - rewrite lookup_insert_ne by congruence. reflexivity.
  - destruct (ToolRegistry._tools registry !! name); congruence.
  - destruct (ToolRegistry._tools registry !! name); congruence.
Qed.

(** X8. The names [list_tools] returns are the names [has] reports;
    registering adds its name to them, and after [clear] there is none. *)
Theorem registry_list_tools (registry : ToolRegistry.t) (name : string)
    (func : Callable) :
  (forall any, any ∈ ToolRegistry.list_tools registry
               <-> ToolRegistry.has any registry = true)
  /\ ToolRegistry.list_tools (ToolRegistry.register name func registry)
     = {[name]} ∪ ToolRegistry.list_tools registry
  /\ ToolRegistry.list_tools (ToolRegistry.clear registry) = ∅
  /\ (forall any,
        ToolRegistry.get any (ToolRegistry.clear registry)
        = Raise (ToolNotFoundError any)).
Proof.
  unfold ToolRegistry.list_tools, ToolRegistry.has, ToolRegistry.register,
    ToolRegistry.clear, ToolRegistry.get. simpl.
  split; [ | split; [ | split ] ].
  - intros any. rewrite elem_of_dom.
    destruct (ToolRegistry._tools registry !! any); split;
      intros H; try reflexivity; try discriminate; eauto.
    destruct H as [x Hx]. discriminate.
  - apply dom_insert_L.
  - apply dom_empty_L.
  - intros any. rewrite lookup_empty. reflexivity.
Qed.

(** X9. A definition without violation is stored under the identifier
    drawn for it, which [create_graph] returns: [get_graph] then returns
    the definition and [has_graph] reports it, while the runs and the other
    graphs are as before. *)
Theorem create_graph_then_get_graph (graph_id : string)
    (config : GraphConfig.t) (s : InMemoryStorage.t) :
  ~ violation config ->
  exists s',
    GraphManager.create_graph graph_id config s = (s', Ok graph_id)
    /\ GraphManager.get_graph graph_id s' = (s', Ok config)
    /\ GraphManager.has_graph graph_id s' = (s', Ok true)
    /\ InMemoryStorage._runs s' = InMemoryStorage._runs s
    /\ forall other, other <> graph_id ->
         GraphManager.get_graph other s' = (s', InMemoryStorage.load_graph other s).
Proof.
  intros Hok.
  destruct (validate_graph_cases config) as [ [Hv _] | [_ Hviol] ];
    [ | contradiction ].
  exists (InMemoryStorage.save_graph graph_id config s).
  unfold GraphManager.create_graph, GraphManager.get_graph,
    GraphManager.has_graph, bind, lift, ret, InMemoryStorage.has_graph,
    InMemoryStorage.load_graph.
  rewrite Hv. simpl. rewrite lookup_insert_eq.
  repeat split.
  intros other Hne. rewrite lookup_insert_ne by congruence. reflexivity.
Qed.

(* ================================================================== *)
(** * Further properties: runs *)

Lemma execute_node_same_elsewhere registry run_id node_name graph s s' r :
  _execute_node registry run_id node_name graph s = (s', r) ->
  same_elsewhere run_id s s'.
Proof.
  destruct r as [ log_entry | e ].
  - destruct (run_of s run_id) as [ run_data | ] eqn:Hrun.
    + rewrite (execute_node_found _ _ _ _ _ _ Hrun).
      destruct (find_node _ _); [ | discriminate ].
      destruct (_ !! _) as [ handler | ]; [ | discriminate ].
      cbv zeta. destruct (handler _) as [ result | ]; [ | discriminate ].
      destruct (as_dict result); intros [= <- _].
      * apply same_elsewhere_save_run.
      * apply same_elsewhere_refl.
    + unfold _execute_node.
      destruct (List.find _ _); [ | discriminate ].
      unfold bind at 1, lift. destruct (ToolRegistry.get _ _); [ | discriminate ].
      unfold bind at 1, StateManager.get_state, bind, load_run,
        InMemoryStorage.load_run.
      unfold run_of in Hrun. rewrite Hrun. discriminate.
  - intros Hnode. apply execute_node_raise_unchanged in Hnode as ->.
    apply same_elsewhere_refl.
Qed.

(** An iteration of the loop, from what the node execution gave. *)
Lemma loop_body_found registry run_id graph current_node vars s run_data :
  run_of s run_id = Some run_data ->
  loop_body registry run_id graph current_node vars s
  = match _execute_node registry run_id current_node graph s with
    | (s1, Raise e) => (s1, vars, Throw e)
    | (s1, Ok log_entry) =>
        let log := (execution_log vars ++ [log_entry])%list in
        let state := ExecutionLog.state_after log_entry in
        let by_edges := Next (next_by_edges graph current_node state) in
        match loop_config_at graph current_node with
        | None => (s1, Locals log (loop_counts vars), by_edges)
        | Some loop_config =>
            let count := default 0 (loop_counts vars !! current_node) + 1 in
            let vars' :=
              Locals log (<[current_node := count]> (loop_counts vars)) in
            if Z.ltb (LoopConfig.max_iterations loop_config) count
            then (s1, vars',
                  Throw (LoopLimitError current_node
                           (LoopConfig.max_iterations loop_config)))
            else if condition_holds (LoopConfig.condition loop_config) state
                 then (s1, vars', Next (Some current_node))
                 else (s1, vars', by_edges)
        end
    end.
Proof.
  intros Hrun. unfold loop_body, next_by_edges.
  destruct (_execute_node _ _ _ _ s) as [s1 [log_entry | e]] eqn:Hnode;
    [ | reflexivity ].
  destruct (execute_node_ok _ _ _ _ _ _ _ _ Hrun Hnode) as (Hrun1 & _).
  cbv zeta.
  destruct (loop_config_at graph current_node) as [ loop_config | ].
  - simpl execution_log. simpl loop_counts. destruct (Z.ltb _ _); [ reflexivity | ].
    rewrite (get_state_found _ _ _ Hrun1). simpl RunData.current_state.
    rewrite evaluate_condition_returns.
    destruct (condition_holds _ _); [ reflexivity | ].
    rewrite (advance_found _ _ _ _ _ _ Hrun1), scan_edges_find. reflexivity.
  - rewrite (advance_found _ _ _ _ _ _ Hrun1), scan_edges_find. reflexivity.
Qed.

(** Reasoning on the loop: what holds at the head of every iteration, and
    what follows at the exit. *)
Lemma while_loop_invariant registry run_id graph
    (P : option string -> locals -> InMemoryStorage.t -> Prop)
    (Q : loop_exit -> locals -> InMemoryStorage.t -> Prop) :
  (forall vars s, P None vars s -> Q Finished vars s) ->
  (forall node vars s, P (Some node) vars s -> Q Exhausted vars s) ->
  (forall node vars s s' vars' c,
      P (Some node) vars s ->
      loop_body registry run_id graph node vars s = (s', vars', c) ->
      match c with
      | Next next => P next vars' s'
      | Throw e => Q (Raised e) vars' s'
      end) ->
  forall fuel current_node vars s s' vars' exit,
    P current_node vars s ->
    while_loop fuel registry run_id graph current_node vars s = (s', vars', exit) ->
    Q exit vars' s'.
Proof.
  intros Hfinish Hexhaust Hstep.
  induction fuel as [ | fuel IH ]; intros current_node vars s s' vars' exit HP;
    simpl.
  - destruct current_node; intros [= <- <- <-]; auto. eapply Hexhaust; eauto.
  - destruct current_node as [ node | ]; [ | intros [= <- <- <-]; auto ].
    destruct (loop_body registry run_id graph node vars s)
      as [[s1 vars1] c] eqn:Hbody.
    pose proof (Hstep _ _ _ _ _ _ HP Hbody) as Hc.
    destruct c as [ next | e ].
    + apply IH. exact Hc.
    + intros [= <- <- <-]. exact Hc.
Qed.

(** X10. [execute] on an identifier that names no graph raises
    [GraphNotFoundError] for it and leaves the storage as it was: no run
    record is created. *)
Theorem execute_unknown_graph (fuel : nat) (registry : ToolRegistry.t)
    (run_id graph_id : string) (initial_state : Dict) (s : InMemoryStorage.t) :
  InMemoryStorage.has_graph graph_id s = false ->
  execute fuel registry run_id graph_id initial_state s
  = (s, Raise (GraphNotFoundError graph_id)).
Proof.
  unfold InMemoryStorage.has_graph. intros Hnone.
  unfold execute, bind at 1, GraphManager.get_graph, InMemoryStorage.load_graph.
  destruct (InMemoryStorage._graphs s !! graph_id); [ discriminate | reflexivity ].
Qed.

(** X11. When [execute] returns a result, the record of the run in the
    storage agrees with it: same status, which is [completed] or [failed],
    and the stored state is the final state returned; the result carries
    the identifiers of the run and of the graph, and an error text exactly
    when the status is [failed]. *)
Theorem result_agrees_with_stored_run (fuel : nat) (registry : ToolRegistry.t)
    (run_id graph_id : string) (initial_state : Dict)
    (s s' : InMemoryStorage.t) (r : ExecutionResult.t) :
  execute fuel registry run_id graph_id initial_state s = (s', Ok (Some r)) ->
  StateManager.get_run run_id s'
  = (s', Ok (RunData.mk run_id graph_id (ExecutionResult.final_state r)
               (ExecutionResult.status r) []))
  /\ ExecutionResult.run_id r = run_id
  /\ ExecutionResult.graph_id r = graph_id
  /\ ((ExecutionResult.status r = "completed" /\ ExecutionResult.error r = None)
      \/ (ExecutionResult.status r = "failed"
          /\ exists e, ExecutionResult.error r = Some (str_exn e))).
Proof.
  intros Hexec.
  destruct (InMemoryStorage._graphs s !! graph_id) as [ graph | ] eqn:Hgraph.
  2:{ unfold execute, bind at 1, GraphManager.get_graph,
        InMemoryStorage.load_graph in Hexec.
      rewrite Hgraph in Hexec. discriminate. }
  destruct (while_loop fuel registry run_id graph
              (Some (GraphConfig.entry_node graph)) no_locals
              (started run_id graph_id initial_state s))
    as [[s1 vars] exit] eqn:Hloop.
  destruct (execute_outcome _ _ _ _ _ _ _ _ _ _ Hgraph Hloop)
    as (state1 & _ & Heq).
  rewrite Heq in Hexec.
  unfold StateManager.get_run, load_run, InMemoryStorage.load_run.
  destruct exit; try discriminate; injection Hexec as <- <-; simpl;
    rewrite lookup_insert_eq; repeat split; eauto.
Qed.

Lemma chained_app state log final log_entry :
  chained state log final ->
  ExecutionLog.state_before log_entry = final ->
  chained state (log ++ [log_entry])%list (ExecutionLog.state_after log_entry).
Proof.
  revert state. induction log as [ | first log IH ]; intros state; simpl.
  - intros -> Hbefore. split; [ exact Hbefore | reflexivity ].
  - intros [Hfirst Hrest] Hbefore. split; [ exact Hfirst | ].
    apply IH; assumption.
Qed.

(** What an iteration does to the log, the record of the run and the rest
    of the storage: nothing when the node execution raises, and otherwise
    one more record, which starts from the state of the run and leaves the
    state the run then has. *)
Lemma loop_body_log registry run_id graph current_node vars s run_data
    s' vars' c :
  run_of s run_id = Some run_data ->
  loop_body registry run_id graph current_node vars s = (s', vars', c) ->
  same_elsewhere run_id s s'
  /\ ((execution_log vars' = execution_log vars
       /\ run_of s' run_id = Some run_data)
      \/ exists log_entry,
           execution_log vars' = (execution_log vars ++ [log_entry])%list
           /\ ExecutionLog.node log_entry = current_node
           /\ ExecutionLog.state_before log_entry
              = RunData.current_state run_data
           /\ run_of s' run_id
              = Some (with_state run_data (ExecutionLog.state_after log_entry))).
Proof.
  intros Hrun. rewrite (loop_body_found _ _ _ _ _ _ _ Hrun).
  destruct (_execute_node _ _ _ _ s) as [s1 [log_entry | e]] eqn:Hnode.
  - pose proof (execute_node_same_elsewhere _ _ _ _ _ _ _ Hnode) as Hsame.
    destruct (execute_node_ok _ _ _ _ _ _ _ _ Hrun Hnode)
      as (Hrun1 & Hname & Hbefore & _).
    cbv zeta. intros Hbody.
    assert (Hs : s' = s1 /\ execution_log vars'
                           = (execution_log vars ++ [log_entry])%list).
    { destruct (loop_config_at graph current_node) as [ loop_config | ].
      - destruct (Z.ltb _ _); [ | destruct (condition_holds _ _) ];
          injection Hbody as <- <- <-; auto.
      - injection Hbody as <- <- <-; auto. }
    destruct Hs as [-> Hlog]. split; [ exact Hsame | ].
    right. exists log_entry. auto.
  - pose proof (execute_node_raise_unchanged _ _ _ _ _ _ _ Hnode) as ->.
    intros [= <- <- <-]. split; [ apply same_elsewhere_refl | auto ].
Qed.

(** X12. The log [execute] returns is a chain: its first record starts
    from the initial state, every record starts from the state the record
    before it left, and the final state returned is the state the last
    record left (the initial state when the log is empty). *)
Theorem trace_is_a_chain (fuel : nat) (registry : ToolRegistry.t)
    (run_id graph_id : string) (initial_state : Dict)
    (s s' : InMemoryStorage.t) (r : ExecutionResult.t) :
  execute fuel registry run_id graph_id initial_state s = (s', Ok (Some r)) ->
  chained initial_state (ExecutionResult.execution_log r)
    (ExecutionResult.final_state r).
Proof.
  intros Hexec.
  destruct (InMemoryStorage._graphs s !! graph_id) as [ graph | ] eqn:Hgraph.
  2:{ unfold execute, bind at 1, GraphManager.get_graph,
        InMemoryStorage.load_graph in Hexec.
      rewrite Hgraph in Hexec. discriminate. }
  destruct (while_loop fuel registry run_id graph
              (Some (GraphConfig.entry_node graph)) no_locals
              (started run_id graph_id initial_state s))
    as [[s1 vars] exit] eqn:Hloop.
  assert (Hchain : exists state,
             run_of s1 run_id = Some (fresh_run run_id graph_id state)
             /\ chained initial_state (execution_log vars) state).
  { eapply (while_loop_invariant registry run_id graph
             (fun _ vars s =>
                exists state,
                  run_of s run_id = Some (fresh_run run_id graph_id state)
                  /\ chained initial_state (execution_log vars) state)
             (fun _ vars s =>
                exists state,
                  run_of s run_id = Some (fresh_run run_id graph_id state)
                  /\ chained initial_state (execution_log vars) state));
      [ auto | auto | | | exact Hloop ].
    - intros node vars0 s0 s0' vars0' c (state & Hrun & Hch) Hbody.
      destruct (loop_body_log _ _ _ _ _ _ _ _ _ _ Hrun Hbody)
        as [_ [ [Hlog Hrun'] | (log_entry & Hlog & _ & Hbefore & Hrun') ] ].
      + rewrite Hlog. destruct c; eauto.
      + assert (Hnew : exists state',
                   run_of s0' run_id = Some (fresh_run run_id graph_id state')
                   /\ chained initial_state (execution_log vars0') state').
        { exists (ExecutionLog.state_after log_entry). split; [ exact Hrun' | ].
          rewrite Hlog. apply (chained_app _ _ state); [ exact Hch | exact Hbefore ]. }
        destruct c; exact Hnew.
    - exists initial_state. split; [ apply run_of_save_run | reflexivity ]. }
  destruct Hchain as (state & Hrun1 & Hch).
  destruct (execute_outcome _ _ _ _ _ _ _ _ _ _ Hgraph Hloop)
    as (state1 & Hrun1' & Heq).
  cbv zeta in Hrun1'. rewrite Hrun1 in Hrun1'. injection Hrun1' as <-.
  rewrite Heq in Hexec.
  destruct exit; try discriminate; injection Hexec as _ <-; exact Hch.
Qed.

(** X13. Whatever [execute] does and however it ends, it writes nothing
    but the record of its own run: every graph and every other run in the
    storage is as it was. *)
Theorem execute_writes_own_run_only (fuel : nat) (registry : ToolRegistry.t)
    (run_id graph_id : string) (initial_state : Dict)
    (s : InMemoryStorage.t) :
  same_elsewhere run_id s
    (fst (execute fuel registry run_id graph_id initial_state s)).
Proof.
  destruct (InMemoryStorage._graphs s !! graph_id) as [ graph | ] eqn:Hgraph.
  2:{ unfold execute, bind at 1, GraphManager.get_graph,
        InMemoryStorage.load_graph.
      rewrite Hgraph. apply same_elsewhere_refl. }
  destruct (while_loop fuel registry run_id graph
              (Some (GraphConfig.entry_node graph)) no_locals
              (started run_id graph_id initial_state s))
    as [[s1 vars] exit] eqn:Hloop.
  assert (Hsame : (exists run_data, run_of s1 run_id = Some run_data)
                  /\ same_elsewhere run_id s s1).
  { eapply (while_loop_invariant registry run_id graph
             (fun _ _ s0 =>
                (exists run_data, run_of s0 run_id = Some run_data)
                /\ same_elsewhere run_id s s0)
             (fun _ _ s0 =>
                (exists run_data, run_of s0 run_id = Some run_data)
                /\ same_elsewhere run_id s s0));
       [ auto | auto | | | exact Hloop ].
    - intros node vars0 s0 s0' vars0' c [[run_data Hrun] Hsame] Hbody.
      destruct (loop_body_log _ _ _ _ _ _ _ _ _ _ Hrun Hbody)
        as [Hstep Hcases].
      assert (Hnew : (exists run_data', run_of s0' run_id = Some run_data')
                     /\ same_elsewhere run_id s s0').
      { split; [ | eapply same_elsewhere_trans; eassumption ].
        destruct Hcases as [ [_ Hrun'] | (log_entry & _ & _ & _ & Hrun') ]; eauto. }
      destruct c; exact Hnew.
    - split; [ eexists; apply run_of_save_run | apply same_elsewhere_save_run ]. }
  destruct Hsame as [_ Hsame].
  destruct (execute_outcome _ _ _ _ _ _ _ _ _ _ Hgraph Hloop)
    as (state1 & _ & ->).
  destruct exit; simpl; try exact Hsame;
    (eapply same_elsewhere_trans; [ exact Hsame | apply same_elsewhere_save_run ]).
Qed.

Lemma count_node_app node_name log log_entry :
  count_node node_name (log ++ [log_entry])%list
  = (count_node node_name log
     + if String.eqb (ExecutionLog.node log_entry) node_name then 1 else 0)%nat.
Proof.
  unfold count_node. rewrite List.filter_app, length_app. simpl.
  destruct (String.eqb _ _); reflexivity.
Qed.

(** X14. A node with a loop policy has at most [max_iterations] records in
    the log of a run that completes, and at most one more in the log of a
    run that fails: its executions are counted over the whole run, however
    the node is reached. *)
Theorem loop_policy_bounds_executions (fuel : nat) (registry : ToolRegistry.t)
    (run_id graph_id : string) (initial_state : Dict)
    (s s' : InMemoryStorage.t) (r : ExecutionResult.t)
    (graph : GraphConfig.t) (node_name : string) (loop_config : LoopConfig.t) :
  InMemoryStorage._graphs s !! graph_id = Some graph ->
  loop_config_at graph node_name = Some loop_config ->
  0 <= LoopConfig.max_iterations loop_config ->
  execute fuel registry run_id graph_id initial_state s = (s', Ok (Some r)) ->
  Z.of_nat (count_node node_name (ExecutionResult.execution_log r))
  <= LoopConfig.max_iterations loop_config + 1
  /\ (ExecutionResult.status r = "completed" ->
      Z.of_nat (count_node node_name (ExecutionResult.execution_log r))
      <= LoopConfig.max_iterations loop_config).
Proof.
  intros Hgraph Hpolicy Hmax Hexec.
  set (limit := LoopConfig.max_iterations loop_config) in *.
  destruct (while_loop fuel registry run_id graph
              (Some (GraphConfig.entry_node graph)) no_locals
              (started run_id graph_id initial_state s))
    as [[s1 vars] exit] eqn:Hloop.
  assert (Hbound :
    match exit with
    | Raised _ => Z.of_nat (count_node node_name (execution_log vars)) <= limit + 1
    | _ => Z.of_nat (count_node node_name (execution_log vars)) <= limit
    end).
  { eapply (while_loop_invariant registry run_id graph
              (fun _ vars0 s0 =>
                 (exists run_data, run_of s0 run_id = Some run_data)
                 /\ default 0 (loop_counts vars0 !! node_name)
                    = Z.of_nat (count_node node_name (execution_log vars0))
                 /\ Z.of_nat (count_node node_name (execution_log vars0)) <= limit)
              (fun exit0 vars0 _ =>
                 match exit0 with
                 | Raised _ =>
                     Z.of_nat (count_node node_name (execution_log vars0))
                     <= limit + 1
                 | _ =>
                     Z.of_nat (count_node node_name (execution_log vars0)) <= limit
                 end));
      [ | | | | exact Hloop ].
    - intros vars0 s0 (_ & _ & H). exact H.
    - intros node vars0 s0 (_ & _ & H). exact H.
    - intros node vars0 s0 s0' vars0' c ([run_data Hrun] & Hcount & Hle).
      rewrite (loop_body_found _ _ _ _ _ _ _ Hrun).
      destruct (_execute_node _ _ _ _ s0) as [s1' [log_entry | e]] eqn:Hnode.
      2:{ intros [= <- <- <-]. lia. }
      destruct (execute_node_ok _ _ _ _ _ _ _ _ Hrun Hnode)
        as (Hrun1 & Hname & _).
      assert (Hrun1' : exists run_data', run_of s1' run_id = Some run_data')
        by eauto.
      cbv zeta.
      pose proof (count_node_app node_name (execution_log vars0) log_entry)
        as Happ.
      rewrite Hname in Happ. clear Hname Hnode.
      destruct (String.eqb node node_name) eqn:Heq.
      + apply String.eqb_eq in Heq. subst node. rewrite Hpolicy. fold limit.
        rewrite Hcount.
        destruct (Z.ltb_spec limit
                    (Z.of_nat (count_node node_name (execution_log vars0)) + 1)).
        * intros [= <- <- <-]. simpl. rewrite Happ. lia.
        * assert (Hnext : forall next,
                     (s1',
                      Locals (execution_log vars0 ++ [log_entry])%list
                        (<[node_name
                           := Z.of_nat (count_node node_name (execution_log vars0))
                              + 1]> (loop_counts vars0)),
                      Next next) = (s0', vars0', c) ->
                     match c with
                     | Next _ =>
                         (exists run_data', run_of s0' run_id = Some run_data')
                         /\ default 0 (loop_counts vars0' !! node_name)
                            = Z.of_nat (count_node node_name (execution_log vars0'))
                         /\ Z.of_nat (count_node node_name (execution_log vars0'))
                            <= limit
                     | Throw _ =>
                         Z.of_nat (count_node node_name (execution_log vars0'))
                         <= limit + 1
                     end).
          { intros next [= <- <- <-]. simpl. rewrite lookup_insert_eq, Happ.
            simpl. split; [ exact Hrun1' | lia ]. }
          destruct (condition_holds _ _); apply Hnext.
      + apply String.eqb_neq in Heq.
        assert (Hsame : count_node node_name
                          (execution_log vars0 ++ [log_entry])%list
                        = count_node node_name (execution_log vars0))
          by (rewrite Happ; lia).
        assert (Hnext : forall counts next,
                   counts !! node_name = loop_counts vars0 !! node_name ->
                   (s1', Locals (execution_log vars0 ++ [log_entry])%list counts,
                    next) = (s0', vars0', c) ->
                   match c with
                   | Next _ =>
                       (exists run_data', run_of s0' run_id = Some run_data')
                       /\ default 0 (loop_counts vars0' !! node_name)
                          = Z.of_nat (count_node node_name (execution_log vars0'))
                       /\ Z.of_nat (count_node node_name (execution_log vars0'))
                          <= limit
                   | Throw _ =>
                       Z.of_nat (count_node node_name (execution_log vars0'))
                       <= limit + 1
                   end).
        { intros counts next Hcounts [= <- <- <-]. simpl.
          rewrite Hcounts, Hsame. destruct next; [ | lia ].
          split; [ exact Hrun1' | split; [ exact Hcount | exact Hle ] ]. }
        destruct (loop_config_at graph node) as [ other_config | ].
        * assert (Hins : <[node := default 0 (loop_counts vars0 !! node) + 1]>
                           (loop_counts vars0) !! node_name
                         = loop_counts vars0 !! node_name)
            by (apply lookup_insert_ne; exact Heq).
          destruct (Z.ltb _ _); [ | destruct (condition_holds _ _) ];
            apply (Hnext _ _ Hins).
        * apply (Hnext _ _ eq_refl).
    - split; [ eexists; apply run_of_save_run | ].
      simpl. rewrite lookup_empty. simpl. split; [ reflexivity | exact Hmax ]. }
  destruct (execute_outcome _ _ _ _ _ _ _ _ _ _ Hgraph Hloop)
    as (state1 & _ & Heq).
  rewrite Heq in Hexec.
  destruct exit; try discriminate; injection Hexec as _ <-; simpl.
  - split; [ lia | intros _; exact Hbound ].
  - split; [ exact Hbound | discriminate ].
Qed.

Lemma find_node_In graph node_name :
  In node_name (node_names graph) ->
  exists node_config, find_node graph node_name = Some node_config.
Proof.
  unfold node_names, find_node. intros Hin. apply in_map_iff in Hin.
  destruct Hin as (node_config & Hname & Hin).
  destruct (List.find _ _) as [ found | ] eqn:Hfind; [ eauto | ].
  exfalso. apply (List.find_none _ _ Hfind) in Hin.
  rewrite Hname, String.eqb_refl in Hin. discriminate.
Qed.

Lemma next_by_edges_is_target graph current_node state next :
  next_by_edges graph current_node state = Some next ->
  exists edge,
    In edge (GraphConfig.edges graph)
    /\ EdgeConfig.source edge = current_node
    /\ EdgeConfig.target edge = next.
Proof.
  unfold next_by_edges.
  destruct (List.find _ _) as [ edge | ] eqn:Hfind; [ | discriminate ].
  intros [= <-]. apply List.find_some in Hfind. destruct Hfind as [Hin Hmatch].
  exists edge. split; [ exact Hin | ]. split; [ | reflexivity ].
  unfold edge_matches in Hmatch. apply andb_true_iff in Hmatch.
  apply String.eqb_eq. exact (proj1 Hmatch).
Qed.

Lemma valid_references graph :
  ~ violation graph ->
  In (GraphConfig.entry_node graph) (node_names graph)
  /\ forall edge, In edge (GraphConfig.edges graph) ->
       In (EdgeConfig.target edge) (node_names graph).
Proof.
  intros Hok. split.
  - destruct (GraphManager.is_node graph (GraphConfig.entry_node graph)) eqn:E.
    + apply is_node_In. exact E.
    + exfalso. apply Hok. left. apply is_node_false. exact E.
  - intros edge Hin.
    destruct (GraphManager.is_node graph (EdgeConfig.target edge)) eqn:E.
    + apply is_node_In. exact E.
    + exfalso. apply Hok. right. left. exists edge. split; [ exact Hin | ].
      right. apply is_node_false. exact E.
Qed.

(* ------------------------------------------------------------------ *)
(** ** Runs under the recursion limit *)

Lemma dict_get_In {V : Type} (k : string) (d : list (string * V)) (v : V) :
  dict_get k d = Some v -> In (k, v) d.
Proof.
  induction d as [ | [k' v'] rest IH ]; simpl; [ discriminate | ].
  destruct (String.eqb k k') eqn:Hk.
  - intros [= ->]. apply String.eqb_eq in Hk as ->. left. reflexivity.
  - intros H. right. apply IH. exact H.
Qed.

Lemma edge_condition_in_conditions graph edge condition :
  In edge (GraphConfig.edges graph) ->
  EdgeConfig.condition edge = Some condition ->
  In condition (conditions graph).
Proof.
  intros Hin Hcond. unfold conditions. apply in_or_app. left.
  apply in_flat_map. exists edge. split; [ exact Hin | ].
  rewrite Hcond. left. reflexivity.
Qed.

Lemma loop_condition_in_conditions graph current_node loop_config :
  loop_config_at graph current_node = Some loop_config ->
  In (LoopConfig.condition loop_config) (conditions graph).
Proof.
  unfold loop_config_at, conditions. intros Hloop. apply in_or_app. right.
  destruct (GraphConfig.loops graph) as [ loops | ]; [ | discriminate ].
  apply dict_get_In in Hloop. simpl.
  apply in_map_iff. exists (current_node, loop_config). split; [ reflexivity | exact Hloop ].
Qed.

(** The scan of the edges with the limit gives what the scan without gives,
    or raises [RecursionError] at an edge whose condition compares with a
    value nested deeper than the limit. *)
Lemma scan_edges_limit limit current current_state edges :
  RecursionLimit.scan_edges limit current current_state edges
  = scan_edges current current_state edges
  \/ (RecursionLimit.scan_edges limit current current_state edges
      = Raise RecursionError
      /\ exists edge condition,
           In edge edges
           /\ EdgeConfig.condition edge = Some condition
           /\ (limit < depth (ConditionConfig.value condition))%nat).
Proof.
  induction edges as [ | edge rest IH ]; simpl; [ left; reflexivity | ].
  assert (Hrest : RecursionLimit.scan_edges limit current current_state rest
                  = scan_edges current current_state rest
                  \/ (RecursionLimit.scan_edges limit current current_state rest
                      = Raise RecursionError
                      /\ exists edge0 condition,
                           (edge = edge0 \/ In edge0 rest)
                           /\ EdgeConfig.condition edge0 = Some condition
                           /\ (limit < depth (ConditionConfig.value condition))%nat)).
  { destruct IH as [ H | (H & edge0 & condition & Hin & Hrest) ];
      [ left; exact H | right ].
    split; [ exact H | ]. exists edge0, condition. auto. }
  destruct (negb (String.eqb (EdgeConfig.source edge) current)); [ exact Hrest | ].
  destruct (EdgeConfig.condition edge) as [ condition | ] eqn:Hcond;
    [ | left; reflexivity ].
  destruct (evaluate_condition_limit limit condition current_state)
    as [ -> | (-> & _ & Hvalue) ].
  - destruct (_evaluate_condition condition current_state) as [ [ | ] | e ];
      [ left; reflexivity | exact Hrest | left; reflexivity ].
  - right. split; [ reflexivity | ]. exists edge, condition. auto.
Qed.

Lemma advance_keeps run_id graph current_node vars s s' vars' c :
  advance run_id graph current_node vars s = (s', vars', c) ->
  s' = s /\ vars' = vars.
Proof.
  unfold advance, _get_next_node, bind.
  pose proof (get_state_reads_only run_id s) as Hsame.
  destruct (StateManager.get_state run_id s) as [s2 [ current_state | e ]];
    simpl in Hsame; subst s2.
  - unfold lift. destruct (scan_edges _ _ _); intros [= <- <- <-]; auto.
  - intros [= <- <- <-]. auto.
Qed.

Lemma advance_limit limit run_id graph current_node vars s s' vars' c :
  advance run_id graph current_node vars s = (s', vars', c) ->
  RecursionLimit.advance limit run_id graph current_node vars s = (s', vars', c)
  \/ (RecursionLimit.advance limit run_id graph current_node vars s
      = (s', vars', Throw RecursionError)
      /\ deep limit graph).
Proof.
  unfold advance, RecursionLimit.advance, _get_next_node,
    RecursionLimit._get_next_node, bind.
  destruct (StateManager.get_state run_id s) as [s2 [ current_state | e ]];
    [ | intros [= <- <- <-]; left; reflexivity ].
  unfold lift.
  destruct (scan_edges_limit limit current_node current_state
              (GraphConfig.edges graph))
    as [ -> | (-> & edge & condition & Hin & Hcond & Hdeep) ].
  - intros H. left. exact H.
  - intros H. right. split.
    + destruct (scan_edges _ _ _); injection H as <- <- _; reflexivity.
    + exists condition. split; [ | exact Hdeep ].
      exact (edge_condition_in_conditions _ _ _ Hin Hcond).
Qed.

(** An iteration of the loop with the limit ends as the iteration without,
    or, from the same storage and variables, with the [RecursionError] of a
    condition whose value nests deeper than the limit. *)
Lemma loop_body_limit limit registry run_id graph current_node vars s s' vars' c :
  loop_body registry run_id graph current_node vars s = (s', vars', c) ->
  RecursionLimit.loop_body limit registry run_id graph current_node vars s
  = (s', vars', c)
  \/ (RecursionLimit.loop_body limit registry run_id graph current_node vars s
      = (s', vars', Throw RecursionError)
      /\ deep limit graph).
Proof.
  unfold loop_body, RecursionLimit.loop_body.
  destruct (_execute_node registry run_id current_node graph s)
    as [s1 [ log_entry | e ]]; [ | intros H; left; exact H ].
  destruct (loop_config_at graph current_node) as [ loop_config | ] eqn:Hloop;
    [ | apply advance_limit ].
  cbv zeta. destruct (Z.ltb _ _); [ intros H; left; exact H | ].
  destruct (StateManager.get_state run_id s1) as [s2 [ current_state | e ]];
    [ | intros H; left; exact H ].
  destruct (evaluate_condition_limit limit (LoopConfig.condition loop_config)
              current_state)
    as [ -> | (-> & _ & Hdeep) ].
  - destruct (_evaluate_condition _ _) as [ [ | ] | e ];
      [ intros H; left; exact H | apply advance_limit | intros H; left; exact H ].
  - intros H. right. split.
    + destruct (_evaluate_condition _ _) as [ [ | ] | e ];
        [ injection H as <- <- _; reflexivity
        | apply advance_keeps in H as [-> ->]; reflexivity
        | injection H as <- <- _; reflexivity ].
    + exists (LoopConfig.condition loop_config). split; [ | exact Hdeep ].
      exact (loop_condition_in_conditions _ _ _ Hloop).
Qed.

(** The loop with the limit ends as the loop without, unless a condition of
    the graph compares with a value nested deeper than the limit. *)
Lemma while_loop_limit limit registry run_id graph fuel :
  forall current_node vars s,
    RecursionLimit.while_loop limit fuel registry run_id graph current_node vars s
    = while_loop fuel registry run_id graph current_node vars s
    \/ deep limit graph.
Proof.
  induction fuel as [ | fuel IH ]; intros current_node vars s; simpl.
  - left. reflexivity.
  - destruct current_node as [ node | ]; [ | left; reflexivity ].
    destruct (loop_body registry run_id graph node vars s)
      as [[s1 vars1] c] eqn:Hbody.
    destruct (loop_body_limit limit _ _ _ _ _ _ _ _ _ Hbody) as [ -> | [_ Hdeep] ];
      [ | right; exact Hdeep ].
    destruct c as [ next | e ]; [ apply IH | left; reflexivity ].
Qed.

(** [execute] under the limit is [execute] for a graph whose conditions all
    compare with values nested within the limit: what is shown of the one
    holds of the other. *)
Lemma execute_within_limit limit fuel registry run_id graph_id initial_state s :
  (forall graph,
      InMemoryStorage._graphs s !! graph_id = Some graph -> ~ deep limit graph) ->
  RecursionLimit.execute limit fuel registry run_id graph_id initial_state s
  = execute fuel registry run_id graph_id initial_state s.
Proof.
  intros Hshallow.
  unfold RecursionLimit.execute, execute, bind, GraphManager.get_graph,
    InMemoryStorage.load_graph.
  destruct (InMemoryStorage._graphs s !! graph_id) as [ graph | ] eqn:Hgraph;
    [ | reflexivity ].
  destruct (StateManager.initialize run_id graph_id initial_state s)
    as [s0 [ run_data | e ]]; [ | reflexivity ].
  destruct (while_loop_limit limit registry run_id graph fuel
              (Some (GraphConfig.entry_node graph)) (Locals [] ∅) s0)
    as [ -> | Hdeep ]; [ reflexivity | ].
  exfalso. exact (Hshallow graph eq_refl Hdeep).
Qed.

Lemma while_loop_limit_invariant limit registry run_id graph
    (P : option string -> locals -> InMemoryStorage.t -> Prop)
    (Q : loop_exit -> locals -> InMemoryStorage.t -> Prop) :
  (forall vars s, P None vars s -> Q Finished vars s) ->
  (forall node vars s, P (Some node) vars s -> Q Exhausted vars s) ->
  (forall node vars s s' vars' c,
      P (Some node) vars s ->
      RecursionLimit.loop_body limit registry run_id graph node vars s
      = (s', vars', c) ->
      match c with
      | Next next => P next vars' s'
      | Throw e => Q (Raised e) vars' s'
      end) ->
  forall fuel current_node vars s s' vars' exit,
    P current_node vars s ->
    RecursionLimit.while_loop limit fuel registry run_id graph current_node vars s
    = (s', vars', exit) ->
    Q exit vars' s'.
Proof.
  intros Hfinish Hexhaust Hstep.
  induction fuel as [ | fuel IH ]; intros current_node vars s s' vars' exit HP;
    simpl.
  - destruct current_node; intros [= <- <- <-]; auto. eapply Hexhaust; eauto.
  - destruct current_node as [ node | ]; [ | intros [= <- <- <-]; auto ].
    destruct (RecursionLimit.loop_body limit registry run_id graph node vars s)
      as [[s1 vars1] c] eqn:Hbody.
    pose proof (Hstep _ _ _ _ _ _ HP Hbody) as Hc.
    destruct c as [ next | e ].
    + apply IH. exact Hc.
    + intros [= <- <- <-]. exact Hc.
Qed.

(** What [execute] under the limit returns, from how its loop ended. *)
Lemma execute_limit_outcome limit fuel registry run_id graph_id initial_state s
    graph s1 vars exit run_data :
  InMemoryStorage._graphs s !! graph_id = Some graph ->
  RecursionLimit.while_loop limit fuel registry run_id graph
    (Some (GraphConfig.entry_node graph)) no_locals
    (started run_id graph_id initial_state s) = (s1, vars, exit) ->
  run_of s1 run_id = Some run_data ->
  RecursionLimit.execute limit fuel registry run_id graph_id initial_state s
  = match exit with
    | Exhausted => (s1, Ok None)
    | Raised e =>
        (InMemoryStorage.save_run run_id (with_status run_data "failed") s1,
         Ok (Some (ExecutionResult.mk run_id graph_id "failed"
                     (RunData.current_state run_data)
                     (execution_log vars) (Some (str_exn e)))))
    | Finished =>
        (InMemoryStorage.save_run run_id (with_status run_data "completed") s1,
         Ok (Some (ExecutionResult.mk run_id graph_id "completed"
                     (RunData.current_state run_data)
                     (execution_log vars) None)))
    end.
Proof.
  intros Hgraph Hloop Hrun1.
  unfold RecursionLimit.execute, bind at 1, GraphManager.get_graph,
    InMemoryStorage.load_graph.
  rewrite Hgraph. unfold bind at 1. rewrite initialize_spec.
  unfold started, fresh_run, no_locals in Hloop. unfold dict_copy. rewrite Hloop.
  destruct exit as [ | e | ].
  - rewrite (complete_run_found _ _ _ _ Hrun1). reflexivity.
  - unfold bind. rewrite (on_exception_found _ _ _ _ _ _ Hrun1). reflexivity.
  - reflexivity.
Qed.

(** In a graph without a violation, an iteration at a node of the graph
    leaves the record of the run in place and moves to a node of the graph,
    or ends with one of the engine's three errors. *)
Lemma loop_body_in_valid_graph registry run_id graph node vars s run_data
    s' vars' c :
  ~ violation graph ->
  run_of s run_id = Some run_data ->
  In node (node_names graph) ->
  loop_body registry run_id graph node vars s = (s', vars', c) ->
  (exists run_data', run_of s' run_id = Some run_data')
  /\ match c with
     | Next next => forall node', next = Some node' -> In node' (node_names graph)
     | Throw e => engine_failure e
     end.
Proof.
  intros Hok Hrun Hnode Hbody.
  destruct (valid_references graph Hok) as [_ Htargets].
  split.
  { destruct (loop_body_keeps_run _ _ _ _ _ _ _ _ _ _ Hrun Hbody)
      as [[state' Hrun'] _]. eauto. }
  revert Hbody.
  destruct (find_node_In _ _ Hnode) as [node_config Hfind].
  rewrite (loop_body_found _ _ _ _ _ _ _ Hrun).
  pose proof (execute_node_found registry run_id node graph s run_data Hrun)
    as Hexe.
  rewrite Hfind in Hexe.
  destruct (_execute_node _ _ _ _ s) as [s1 [log_entry | e]] eqn:Hrunnode.
  - assert (Hmove : forall node',
               next_by_edges graph node (ExecutionLog.state_after log_entry)
               = Some node' ->
               In node' (node_names graph)).
    { intros node' Hnext.
      destruct (next_by_edges_is_target _ _ _ _ Hnext) as (edge & Hin & _ & <-).
      apply Htargets. exact Hin. }
    cbv zeta.
    destruct (loop_config_at graph node) as [ loop_config | ].
    + destruct (Z.ltb _ _); [ | destruct (condition_holds _ _) ];
        intros [= <- <- <-]; simpl; auto.
      intros node' [= <-]. exact Hnode.
    + intros [= <- <- <-]. exact Hmove.
  - intros [= <- <- <-].
    destruct (ToolRegistry._tools registry !! NodeConfig.handler node_config)
      as [ handler | ]; [ | injection Hexe as _ ->; exact I ].
    cbv zeta in Hexe.
    destruct (handler (RunData.current_state run_data));
      [ discriminate | injection Hexe as _ ->; exact I ].
Qed.

(** X15. In a graph that passed validation, a run that fails fails with
    one of the engine's three errors (a handler that is not registered, a
    handler that raised, a loop limit) or with the [RecursionError] of a
    comparison, and with the latter only when a condition of the graph
    compares with a value nested deeper than the interpreter admits.  The
    search for the node's definition, which has no default, always finds
    one. *)
Theorem validated_graph_failures (limit fuel : nat)
    (registry : ToolRegistry.t) (run_id graph_id : string)
    (initial_state : Dict) (s s' : InMemoryStorage.t) (r : ExecutionResult.t)
    (graph : GraphConfig.t) :
  InMemoryStorage._graphs s !! graph_id = Some graph ->
  GraphManager._validate_graph graph = Ok tt ->
  RecursionLimit.execute limit fuel registry run_id graph_id initial_state s
  = (s', Ok (Some r)) ->
  ExecutionResult.status r = "failed" ->
  exists e,
    ExecutionResult.error r = Some (str_exn e)
    /\ (engine_failure e \/ (e = RecursionError /\ deep limit graph)).
Proof.
  intros Hgraph Hvalid Hexec Hfailed.
  assert (Hok : ~ violation graph).
  { destruct (validate_graph_cases graph) as [ [_ H] | [H _] ];
      [ exact H | congruence ]. }
  destruct (valid_references graph Hok) as [Hentry _].
  destruct (RecursionLimit.while_loop limit fuel registry run_id graph
              (Some (GraphConfig.entry_node graph)) no_locals
              (started run_id graph_id initial_state s))
    as [[s1 vars] exit] eqn:Hloop.
  assert (Hkind : (exists run_data, run_of s1 run_id = Some run_data)
                  /\ match exit with
                     | Raised e =>
                         engine_failure e \/ (e = RecursionError /\ deep limit graph)
                     | _ => True
                     end).
  { eapply (while_loop_limit_invariant limit registry run_id graph
              (fun current _ s0 =>
                 (exists run_data, run_of s0 run_id = Some run_data)
                 /\ forall node, current = Some node -> In node (node_names graph))
              (fun exit0 _ s0 =>
                 (exists run_data, run_of s0 run_id = Some run_data)
                 /\ match exit0 with
                    | Raised e =>
                        engine_failure e
                        \/ (e = RecursionError /\ deep limit graph)
                    | _ => True
                    end));
      [ | | | | exact Hloop ].
    - intros vars0 s0 [Hrun _]. auto.
    - intros node vars0 s0 [Hrun _]. auto.
    - intros node vars0 s0 s0' vars0' c ([run_data Hrun] & Hnode) Hbody.
      specialize (Hnode node eq_refl).
      destruct (loop_body registry run_id graph node vars0 s0)
        as [[s2 vars2] c2] eqn:Htree.
      destruct (loop_body_in_valid_graph _ _ _ _ _ _ _ _ _ _ Hok Hrun Hnode Htree)
        as [Hrun2 Hc2].
      destruct (loop_body_limit limit _ _ _ _ _ _ _ _ _ Htree)
        as [ Hsame | [Hraise Hdeep] ].
      + rewrite Hsame in Hbody. injection Hbody as <- <- <-.
        destruct c2; auto.
      + rewrite Hraise in Hbody. injection Hbody as <- <- <-. auto.
    - split; [ eexists; apply run_of_save_run | ].
      intros node [= <-]. exact Hentry. }
  destruct Hkind as [[run_data Hrun1] Hkind].
  rewrite (execute_limit_outcome _ _ _ _ _ _ _ _ _ _ _ _ Hgraph Hloop Hrun1)
    in Hexec.
  destruct exit as [ | e | ]; try discriminate; injection Hexec as _ <-.
  - simpl in Hfailed. discriminate.
  - exists e. split; [ reflexivity | exact Hkind ].
Qed.

(** A run of the sample graph whose edge compares with a list nested three
    deep, when the interpreter admits two nested comparisons: the first node
    runs, and the run fails with the message of [RecursionError].  With one
    more, the run completes. *)
Example deep_run_fails :
  (exists s' final_state log_entry,
      RecursionLimit.execute 2 5 Sample.registry "run" "deep"
        [("tree", nested 2)] DeepSamples.deep_storage
      = (s', Ok (Some (ExecutionResult.mk "run" "deep" "failed" final_state
                         [log_entry]
                         (Some "maximum recursion depth exceeded in comparison")))))
  /\ (exists s' r,
        RecursionLimit.execute 3 5 Sample.registry "run" "deep"
          [("tree", nested 2)] DeepSamples.deep_storage
        = (s', Ok (Some r))
        /\ ExecutionResult.status r = "completed"
        /\ map ExecutionLog.node (ExecutionResult.execution_log r) = ["A"; "B"]).
Proof.
  split.
  - do 3 eexists. vm_compute. reflexivity.
  - do 2 eexists. split; [ vm_compute; reflexivity | ].
    split; reflexivity.
Qed.

Lemma find_after_non_matching {A : Type} (test : A -> bool) before x after :
  Forall (fun y => test y = false) before ->
  test x = true ->
  List.find test (before ++ x :: after)%list = Some x.
Proof.
  intros Hbefore Hx. induction Hbefore as [ | y before Hy _ IH ]; simpl.
  - rewrite Hx. reflexivity.
  - rewrite Hy. exact IH.
Qed.

(** A node without loop policy whose first edge out is an unconditional
    edge to itself: every iteration ends where it started. *)
Lemma self_edge_loop_exhausts registry run_id graph node handler before after :
  handler_of registry graph node = Some handler ->
  (forall state, exists result, handler state = Returns result) ->
  loop_config_at graph node = None ->
  GraphConfig.edges graph = (before ++ EdgeConfig.mk node node None :: after)%list ->
  Forall (fun edge => EdgeConfig.source edge <> node) before ->
  forall fuel vars s run_data,
    run_of s run_id = Some run_data ->
    exists s' vars' state',
      while_loop fuel registry run_id graph (Some node) vars s
      = (s', vars', Exhausted)
      /\ run_of s' run_id = Some (with_state run_data state')
      /\ List.length (execution_log vars')
         = (List.length (execution_log vars) + fuel)%nat.
Proof.
  intros Hhandler Halways Hpolicy Hedges Hbefore.
  assert (Hnext : forall state, next_by_edges graph node state = Some node).
  { intros state. unfold next_by_edges. rewrite Hedges.
    rewrite (find_after_non_matching _ before (EdgeConfig.mk node node None) after).
    - reflexivity.
    - eapply Forall_impl; [ exact Hbefore | ].
      intros edge Hne. unfold edge_matches.
      destruct (String.eqb_spec (EdgeConfig.source edge) node);
        [ contradiction | reflexivity ].
    - unfold edge_matches. simpl. rewrite String.eqb_refl. reflexivity. }
  induction fuel as [ | fuel IH ]; intros vars s run_data Hrun.
  - exists s, vars, (RunData.current_state run_data). simpl.
    rewrite with_state_same. split; [ reflexivity | ]. split; [ exact Hrun | lia ].
  - destruct (Halways (RunData.current_state run_data)) as [result Hret].
    simpl while_loop. rewrite (loop_body_found _ _ _ _ _ _ _ Hrun).
    rewrite (execute_node_returns _ _ _ _ _ _ _ _ Hrun Hhandler Hret).
    cbv zeta. rewrite Hpolicy, Hnext.
    match goal with
    | |- context [while_loop fuel _ _ _ _ ?v ?st] =>
        destruct (IH v st _ (run_of_after_node _ _ result _ Hrun))
          as (s' & vars' & state' & Hwhile & Hrun' & Hlen)
    end.
    exists s', vars', state'. split; [ exact Hwhile | ].
    split; [ exact Hrun' | ].
    rewrite Hlen. simpl. rewrite length_app. simpl. lia.
Qed.

(** X16. An unconditional edge from a node to itself, met before any other
    edge out of the node, with no loop policy on the node and a handler
    that always returns, makes a run that never ends: whatever the number
    of iterations, [execute] has not returned, and the record of the run
    still says [running].  No iteration limit applies. *)
Theorem self_edge_without_policy_never_ends (fuel : nat)
    (registry : ToolRegistry.t) (run_id graph_id : string)
    (initial_state : Dict) (s : InMemoryStorage.t) (graph : GraphConfig.t)
    (handler : Callable) (before after : list EdgeConfig.t) :
  InMemoryStorage._graphs s !! graph_id = Some graph ->
  handler_of registry graph (GraphConfig.entry_node graph) = Some handler ->
  (forall state, exists result, handler state = Returns result) ->
  loop_config_at graph (GraphConfig.entry_node graph) = None ->
  GraphConfig.edges graph
  = (before
     ++ EdgeConfig.mk (GraphConfig.entry_node graph)
          (GraphConfig.entry_node graph) None
     :: after)%list ->
  Forall (fun edge => EdgeConfig.source edge <> GraphConfig.entry_node graph)
    before ->
  exists s' state,
    execute fuel registry run_id graph_id initial_state s = (s', Ok None)
    /\ StateManager.get_run run_id s'
       = (s', Ok (RunData.mk run_id graph_id state "running" [])).
Proof.
  intros Hgraph Hhandler Halways Hpolicy Hedges Hbefore.
  destruct (self_edge_loop_exhausts registry run_id graph _ _ _ _
              Hhandler Halways Hpolicy Hedges Hbefore fuel no_locals
              (started run_id graph_id initial_state s) _
              (run_of_save_run run_id _ s))
    as (s1 & vars & state' & Hwhile & Hrun & _).
  destruct (execute_outcome _ _ _ _ _ _ _ _ _ _ Hgraph Hwhile)
    as (state1 & Hrun1 & Heq).
  exists s1, state1. split; [ exact Heq | ].
  unfold StateManager.get_run, load_run, InMemoryStorage.load_run.
  unfold run_of in Hrun1. rewrite Hrun1. reflexivity.
Qed.

(** X17. When a node has a loop policy and every edge out of the node
    carries the policy's condition, no such edge is ever followed: after
    the node the run stays on it, ends, or fails.  The policy is consulted
    first, and where it lets the run pass the edges' condition is false. *)
Theorem edges_with_policy_condition_never_taken (registry : ToolRegistry.t)
    (run_id : string) (graph : GraphConfig.t) (current_node : string)
    (vars vars' : locals) (s s' : InMemoryStorage.t) (run_data : RunData.t)
    (loop_config : LoopConfig.t) (next : option string) :
  run_of s run_id = Some run_data ->
  loop_config_at graph current_node = Some loop_config ->
  (forall edge, In edge (GraphConfig.edges graph) ->
     EdgeConfig.source edge = current_node ->
     EdgeConfig.condition edge = Some (LoopConfig.condition loop_config)) ->
  loop_body registry run_id graph current_node vars s = (s', vars', Next next) ->
  next = Some current_node \/ next = None.
Proof.
  intros Hrun Hpolicy Hedges. rewrite (loop_body_found _ _ _ _ _ _ _ Hrun).
  destruct (_execute_node _ _ _ _ s) as [s1 [log_entry | e]];
    [ | discriminate ].
  cbv zeta. rewrite Hpolicy.
  destruct (Z.ltb _ _); [ discriminate | ].
  destruct (condition_holds _ _) eqn:Hcond.
  - intros [= _ _ <-]. left. reflexivity.
  - intros [= _ _ <-]. right.
    destruct (next_by_edges graph current_node
                (ExecutionLog.state_after log_entry)) as [ target | ] eqn:Hnext;
      [ | reflexivity ].
    exfalso. unfold next_by_edges in Hnext.
    destruct (List.find _ _) as [ edge | ] eqn:Hfind; [ | discriminate ].
    apply List.find_some in Hfind. destruct Hfind as [Hin Hmatch].
    unfold edge_matches in Hmatch. apply andb_true_iff in Hmatch.
    destruct Hmatch as [Hsource Hmatch]. apply String.eqb_eq in Hsource.
    rewrite (Hedges edge Hin Hsource), Hcond in Hmatch. discriminate.
Qed.

(* ================================================================== *)
(** * Further properties: conditions and model validators *)

(** X18. On a state that lacks the field, a condition with an ordering
    operator is false whatever its value, and a condition with [eq] is true
    exactly when its value is [None] ([ne]: exactly when it is not). *)
Theorem missing_field_compares_as_none (condition : ConditionConfig.t)
    (state : Dict) :
  dict_get (ConditionConfig.field condition) state = None ->
  (In (ConditionConfig.operator condition) ordering_operators ->
   _evaluate_condition condition state = Ok false)
  /\ (ConditionConfig.operator condition = "eq" ->
      _evaluate_condition condition state
      = Ok match ConditionConfig.value condition with
           | PyNone => true
           | _ => false
           end)
  /\ (ConditionConfig.operator condition = "ne" ->
      _evaluate_condition condition state
      = Ok match ConditionConfig.value condition with
           | PyNone => false
           | _ => true
           end).
Proof.
  intros Hmissing. unfold _evaluate_condition. rewrite Hmissing.
  split; [ | split ].
  - intros [ <- | [ <- | [ <- | [ <- | [] ] ] ] ]; reflexivity.
  - intros ->. simpl. destruct (ConditionConfig.value condition); reflexivity.
  - intros ->. simpl. destruct (ConditionConfig.value condition); reflexivity.
Qed.

Lemma py_order_exclusive op1 op2 a :
  exclusive op1 op2 ->
  forall b, py_order op1 a b = Ok true -> py_order op2 a b = Ok true -> False.
Proof.
  intros Hexcl.
  induction a as [ | b0 | z | f | s | xs IH | d _ ] using Any_nested_ind;
    intros b; cbn -[holds]; try discriminate.
  - destruct (to_num b); [ | discriminate ].
    intros [= H1] [= H2]. exact (Hexcl _ H1 H2).
  - destruct (to_num b); [ | discriminate ].
    intros [= H1] [= H2]. exact (Hexcl _ H1 H2).
  - destruct (to_num b); [ | discriminate ].
    intros [= H1] [= H2]. exact (Hexcl _ H1 H2).
  - destruct b as [ | | | | t | | ]; try discriminate.
    intros H1 H2. apply (Hexcl (Some (String.compare s t))); congruence.
  - destruct b as [ | | | | | ys | ]; try discriminate.
    revert ys. induction IH as [ | x xs' Hx _ IHxs ]; intros ys.
    + intros H1 H2.
      apply (Hexcl (Some (Nat.compare (List.length (@nil Any)) (List.length ys))));
        congruence.
    + destruct ys as [ | y ys' ].
      * intros H1 H2.
        apply (Hexcl (Some (Nat.compare (List.length (x :: xs'))
                              (List.length (@nil Any)))));
          congruence.
      * destruct (py_eq x y); [ apply IHxs | apply Hx ].
Qed.

Lemma evaluate_ordering field op value state (order : ordering) :
  operators op = Some (py_order order) ->
  _evaluate_condition (ConditionConfig.mk field op value) state = Ok true ->
  py_order order (default PyNone (dict_get field state)) value = Ok true.
Proof.
  unfold _evaluate_condition. simpl. intros ->.
  change (match dict_get field state with Some v => v | None => PyNone end)
    with (default PyNone (dict_get field state)).
  destruct (py_order order _ value) as [ b | [] ]; congruence.
Qed.

(** X19. On the same field, value and state, the conditions [gt] and
    [lte] are never both true, nor [lt] and [gte], nor [gt] and [lt]; and
    [ne] is true exactly when [eq] is false.  (Two opposite orderings can
    both be false: when the values cannot be ordered.) *)
Theorem opposite_conditions_exclude_each_other (field : string) (value : Any)
    (state : Dict) :
  let holds_for op :=
    _evaluate_condition (ConditionConfig.mk field op value) state = Ok true in
  ~ (holds_for "gt" /\ holds_for "lte")
  /\ ~ (holds_for "lt" /\ holds_for "gte")
  /\ ~ (holds_for "gt" /\ holds_for "lt")
  /\ (holds_for "ne" <-> ~ holds_for "eq").
Proof.
  cbv zeta. repeat split.
  - intros [H1 H2].
    apply (evaluate_ordering field "gt" value state OpGt eq_refl) in H1.
    apply (evaluate_ordering field "lte" value state OpLe eq_refl) in H2.
    refine (py_order_exclusive OpGt OpLe _ _ _ H1 H2).
    intros [ [ | | ] | ]; discriminate.
  - intros [H1 H2].
    apply (evaluate_ordering field "lt" value state OpLt eq_refl) in H1.
    apply (evaluate_ordering field "gte" value state OpGe eq_refl) in H2.
    refine (py_order_exclusive OpLt OpGe _ _ _ H1 H2).
    intros [ [ | | ] | ]; discriminate.
  - intros [H1 H2].
    apply (evaluate_ordering field "gt" value state OpGt eq_refl) in H1.
    apply (evaluate_ordering field "lt" value state OpLt eq_refl) in H2.
    refine (py_order_exclusive OpGt OpLt _ _ _ H1 H2).
    intros [ [ | | ] | ]; discriminate.
  - unfold _evaluate_condition. simpl.
    destruct (py_eq _ value); simpl; congruence.
  - unfold _evaluate_condition. simpl.
    destruct (py_eq _ value); simpl; [ intros H; exfalso; apply H | ]; reflexivity.
Qed.

(** X20. The operator names [validate_operator] accepts are the names the
    evaluator has in its table: a condition that passed validation is never
    answered [false] for want of an operator. *)
Theorem validate_operator_matches_evaluator (v : string) :
  (ConditionConfig.validate_operator v = Valid v
   <-> exists op_func, operators v = Some op_func)
  /\ (ConditionConfig.validate_operator v = ValueError <-> operators v = None).
Proof.
  unfold ConditionConfig.validate_operator, ConditionConfig.valid_ops, operators.
  simpl.
  destruct (String.eqb v "eq"); simpl;
    [ split; split; try discriminate; eauto | ].
  destruct (String.eqb v "ne"); simpl;
    [ split; split; try discriminate; eauto | ].
  destruct (String.eqb v "gt"); simpl;
    [ split; split; try discriminate; eauto | ].
  destruct (String.eqb v "lt"); simpl;
    [ split; split; try discriminate; eauto | ].
  destruct (String.eqb v "gte"); simpl;
    [ split; split; try discriminate; eauto | ].
  destruct (String.eqb v "lte"); simpl;
    [ split; split; try discriminate; eauto | ].
  split; split; try discriminate; try reflexivity.
  intros [op_func H]. discriminate.
Qed.

Lemma size_list_to_set_le (names : list string) :
  (size (list_to_set names : gset string) <= List.length names)%nat.
Proof.
  induction names as [ | a names IH ].
  - rewrite list_to_set_nil, size_empty. simpl. lia.
  - rewrite list_to_set_cons, size_union_alt, size_singleton. simpl.
    assert (Hdiff : (size (list_to_set names ∖ {[a]} : gset string)
                     <= size (list_to_set names : gset string))%nat).
    { apply subseteq_size. apply subseteq_difference_l. reflexivity. }
    lia.
Qed.

Lemma size_list_to_set_NoDup (names : list string) :
  size (list_to_set names : gset string) = List.length names
  <-> List.NoDup names.
Proof.
  split.
  - induction names as [ | a names IH ]; intros Hsize.
    + constructor.
    + rewrite list_to_set_cons, size_union_alt, size_singleton in Hsize.
      simpl in Hsize.
      pose proof (size_list_to_set_le names) as Hle.
      assert (Hdiff : (size (list_to_set names ∖ {[a]} : gset string)
                       <= size (list_to_set names : gset string))%nat).
      { apply subseteq_size. apply subseteq_difference_l. reflexivity. }
      assert (Hnotin : ~ In a names).
      { intros Hin.
        assert (Hlt : (size (list_to_set names ∖ {[a]} : gset string)
                       < size (list_to_set names : gset string))%nat).
        { apply subset_size, subset_difference_elem_of, elem_of_list_to_set,
            list_elem_of_In. exact Hin. }
        lia. }
      constructor; [ exact Hnotin | ].
      apply IH. lia.
  - intros Hnd. apply size_list_to_set. apply NoDup_ListNoDup. exact Hnd.
Qed.

Lemma find_by_unique_name (nodes : list NodeConfig.t) :
  List.NoDup (map NodeConfig.name nodes) ->
  forall node_config, In node_config nodes ->
    List.find (fun n => String.eqb (NodeConfig.name n) (NodeConfig.name node_config))
      nodes
    = Some node_config.
Proof.
  induction nodes as [ | first nodes IH ]; intros Hnd node_config Hin;
    [ destruct Hin | ].
  simpl in Hnd. inversion Hnd as [ | ? ? Hnotin Hrest ]; subst.
  simpl. destruct Hin as [ -> | Hin ].
  - rewrite String.eqb_refl. reflexivity.
  - destruct (String.eqb_spec (NodeConfig.name first) (NodeConfig.name node_config))
      as [ Heq | _ ].
    + exfalso. apply Hnotin. rewrite Heq. apply in_map. exact Hin.
    + apply IH; assumption.
Qed.

(** X21. [validate_unique_node_names] accepts a node list exactly when no
    two nodes have the same name; in an accepted list, the search by name
    that [_execute_node] makes finds each node under its own name. *)
Theorem unique_node_names_iff_NoDup (graph : GraphConfig.t) :
  (GraphConfig.validate_unique_node_names (GraphConfig.nodes graph)
   = Valid (GraphConfig.nodes graph)
   <-> List.NoDup (node_names graph))
  /\ (GraphConfig.validate_unique_node_names (GraphConfig.nodes graph)
      = Valid (GraphConfig.nodes graph) ->
      forall node_config, In node_config (GraphConfig.nodes graph) ->
        find_node graph (NodeConfig.name node_config) = Some node_config).
Proof.
  assert (Hiff : GraphConfig.validate_unique_node_names (GraphConfig.nodes graph)
                 = Valid (GraphConfig.nodes graph)
                 <-> List.NoDup (node_names graph)).
  { unfold GraphConfig.validate_unique_node_names, node_names. cbv zeta.
    rewrite <- size_list_to_set_NoDup.
    destruct (Nat.eqb_spec
                (List.length (map NodeConfig.name (GraphConfig.nodes graph)))
                (size (list_to_set (map NodeConfig.name (GraphConfig.nodes graph))
                       : gset string))) as [ Heq | Hne ]; simpl.
    - split; [ intros _; symmetry; exact Heq | reflexivity ].
    - split; [ discriminate | intros Heq; exfalso; apply Hne; symmetry; exact Heq ]. }
  split; [ exact Hiff | ].
  intros Hvalid. apply Hiff in Hvalid. intros node_config Hin.
  apply find_by_unique_name; assumption.
Qed.

(* ================================================================== *)
(** * Further properties: routes *)

Lemma route_get_state_found run_id s run_data :
  run_of s run_id = Some run_data ->
  routes.get_state run_id s
  = (s, Ok (routes.Response
              (routes.StateResponse.mk (RunData.run_id run_data)
                 (RunData.status run_data) (RunData.current_state run_data)))).
Proof.
  unfold run_of. intros Hrun.
  unfold routes.get_state, StateManager.get_run, load_run,
    InMemoryStorage.load_run.
  rewrite Hrun. reflexivity.
Qed.

(** X22. [POST /graph/run] never lets an exception through, and answers in
    one of three ways.  For an identifier that names no graph: 404, with
    the storage untouched.  For a run that failed: 500 with the identifier
    of the run, never a response body with status [failed]; the record of
    the run is in the storage and [GET /graph/state] returns it with status
    [failed].  For a run that completed: the response body, with status
    [completed], and [GET /graph/state] returns the same status and
    state. *)
Theorem run_graph_answers (fuel : nat) (registry : ToolRegistry.t)
    (run_id graph_id : string) (initial_state : Dict) (s : InMemoryStorage.t) :
  exists s' answer,
    routes.run_graph fuel registry run_id graph_id initial_state s
    = (s', Ok answer)
    /\ match answer with
       | None => InMemoryStorage.has_graph graph_id s = true
       | Some (routes.Response body) =>
           InMemoryStorage.has_graph graph_id s = true
           /\ routes.RunGraphResponse.run_id body = run_id
           /\ routes.RunGraphResponse.status body = "completed"
           /\ routes.get_state run_id s'
              = (s', Ok (routes.Response
                           (routes.StateResponse.mk run_id "completed"
                              (routes.RunGraphResponse.final_state body))))
       | Some (routes.HTTPException status_code detail) =>
           (status_code = 404
            /\ InMemoryStorage.has_graph graph_id s = false
            /\ s' = s
            /\ detail
               = routes.Detail "GraphNotFoundError"
                   ("Graph not found: " ++ graph_id)
                   [("graph_id", PyStr graph_id)])
           \/ (status_code = 500
               /\ InMemoryStorage.has_graph graph_id s = true
               /\ routes.error detail = "ExecutionError"
               /\ routes.details detail = [("run_id", PyStr run_id)]
               /\ exists state,
                    routes.get_state run_id s'
                    = (s', Ok (routes.Response
                                 (routes.StateResponse.mk run_id "failed" state))))
       end.
Proof.
  unfold routes.run_graph, InMemoryStorage.has_graph.
  destruct (InMemoryStorage._graphs s !! graph_id) as [ graph | ] eqn:Hgraph.
  - destruct (while_loop fuel registry run_id graph
                (Some (GraphConfig.entry_node graph)) no_locals
                (started run_id graph_id initial_state s))
      as [[s1 vars] exit] eqn:Hloop.
    destruct (execute_outcome _ _ _ _ _ _ _ _ _ _ Hgraph Hloop)
      as (state1 & Hrun1 & ->).
    destruct exit as [ | e | ]; simpl.
    + do 2 eexists. split; [ reflexivity | ]. simpl.
      repeat split.
      rewrite (route_get_state_found _ _ _ (run_of_save_run _ _ _)). reflexivity.
    + do 2 eexists. split; [ reflexivity | ]. simpl. right.
      repeat split. exists state1.
      rewrite (route_get_state_found _ _ _ (run_of_save_run _ _ _)). reflexivity.
    + do 2 eexists. split; reflexivity.
  - unfold execute, bind at 1, GraphManager.get_graph, InMemoryStorage.load_graph.
    rewrite Hgraph. do 2 eexists. split; [ reflexivity | ]. simpl. left.
    repeat split.
Qed.

(** X23. [POST /graph/create] answers 400 for a definition with a
    violation, with every message of the validator under ["errors"] and the
    storage untouched, and otherwise answers with the identifier under
    which the definition is then stored. *)
Theorem create_graph_route_answers (graph_id : string) (config : GraphConfig.t)
    (s : InMemoryStorage.t) :
  (violation config ->
   routes.create_graph graph_id config s
   = (s, Ok (routes.HTTPException 400
               (routes.Detail "ValidationError" "Graph validation failed"
                  [("errors",
                    PyList (map PyStr (GraphManager.validation_errors config)))]))))
  /\ (~ violation config ->
      routes.create_graph graph_id config s
      = (InMemoryStorage.save_graph graph_id config s,
         Ok (routes.Response (routes.CreateGraphResponse.mk graph_id)))).
Proof.
  unfold routes.create_graph, GraphManager.create_graph, bind, lift, ret.
  destruct (validate_graph_cases config) as [ [Hv Hok] | [Hv Hviol] ];
    rewrite Hv; split; intros H; try contradiction; reflexivity.
Qed.

(* ================================================================== *)
(** * The further statements at sample inputs *)

Lemma sample_graph_without_violation (graph : GraphConfig.t) :
  GraphManager.validation_errors graph = [] -> ~ violation graph.
Proof.
  intros Hnil Hviol. apply validation_errors_violation in Hviol.
  destruct Hviol as [message Hin]. rewrite Hnil in Hin. destruct Hin.
Qed.

Lemma storage_save_load_round_trip_witness :
  InMemoryStorage.load_run "other"
    (InMemoryStorage.save_run "run" (fresh_run "run" "looping" []) Sample.storage)
  = InMemoryStorage.load_run "other" Sample.storage
  /\ InMemoryStorage.load_graph "looping"
       (InMemoryStorage.save_graph "spinning" MoreSamples.spinning_graph
          Sample.storage)
     = InMemoryStorage.load_graph "looping" Sample.storage.
Proof.
  destruct (storage_save_load_round_trip Sample.storage "run" "spinning"
              (fresh_run "run" "looping" []) MoreSamples.spinning_graph)
    as (_ & Hruns & _ & _ & Hgraphs & _).
  split; [ apply Hruns | apply Hgraphs ]; discriminate.
Defined.

Lemma storage_has_agrees_with_load_witness :
  (exists config, InMemoryStorage.load_graph "looping" Sample.storage = Ok config)
  /\ InMemoryStorage.load_run "looping" Sample.storage
     = Raise (RunNotFoundError "looping").
Proof.
  destruct (storage_has_agrees_with_load Sample.storage "looping")
    as (_ & Hrun & Hgraph & _).
  split; [ apply Hgraph | apply Hrun ]; vm_compute; reflexivity.
Defined.

Lemma set_state_then_get_state_witness :
  exists s',
    StateManager.set_state "run" [("y", PyInt 1)] Sample.branching_run
    = (s', Ok tt)
    /\ StateManager.get_state "run" s' = (s', Ok [("y", PyInt 1)]).
Proof.
  destruct (set_state_then_get_state "run" [("y", PyInt 1)] Sample.branching_run
              (fresh_run "run" "branching" [("x", PyInt 3)]))
    as (s' & Hset & Hget & _).
  - vm_compute. reflexivity.
  - exists s'. split; assumption.
Defined.

Lemma state_manager_run_not_found_witness :
  StateManager.update_state "missing" [("y", PyInt 1)] Sample.branching_run
  = (Sample.branching_run, Raise (RunNotFoundError "missing")).
Proof.
  destruct (state_manager_run_not_found "missing" Sample.branching_run
              [] [("y", PyInt 1)] "failed") as (_ & _ & Hupdate & _).
  - vm_compute. reflexivity.
  - exact Hupdate.
Defined.

Lemma update_state_composes_witness :
  exists s1 state1 s2,
    StateManager.update_state "run" [("x", PyInt 4)] Sample.branching_run
    = (s1, Ok state1)
    /\ StateManager.update_state "run" [("y", PyInt 5); ("x", PyInt 6)] s1
       = (s2, Ok [("x", PyInt 6); ("y", PyInt 5)]).
Proof.
  destruct (update_state_composes "run" [("x", PyInt 4)]
              [("y", PyInt 5); ("x", PyInt 6)] Sample.branching_run
              (fresh_run "run" "branching" [("x", PyInt 3)]))
    as (s1 & state1 & s2 & state2 & Hfirst & Hsecond & Hboth & _).
  - vm_compute. reflexivity.
  - exists s1, state1, s2. split; [ exact Hfirst | ].
    rewrite Hsecond. f_equal. f_equal.
    rewrite (update_state_found "run" _ Sample.branching_run
               (fresh_run "run" "branching" [("x", PyInt 3)])) in Hboth
      by (vm_compute; reflexivity).
    injection Hboth as _ <-. reflexivity.
Defined.

Lemma complete_run_overwrites_status_witness :
  exists s1 s2,
    StateManager.complete_run "run" "completed" Sample.branching_run
    = (s1, Ok (with_status (fresh_run "run" "branching" [("x", PyInt 3)])
                 "completed"))
    /\ StateManager.complete_run "run" "failed" s1
       = (s2, Ok (with_status (fresh_run "run" "branching" [("x", PyInt 3)])
                    "failed")).
Proof.
  destruct (complete_run_overwrites_status "run" "completed" "failed"
              Sample.branching_run (fresh_run "run" "branching" [("x", PyInt 3)]))
    as (s1 & s2 & Hfirst & _ & _ & _ & Hsecond & _).
  - vm_compute. reflexivity.
  - exists s1, s2. split; assumption.
Defined.

Lemma registry_register_get_witness :
  ToolRegistry.get "set_a"
    (ToolRegistry.register "new" Sample.failing Sample.registry)
  = ToolRegistry.get "set_a" Sample.registry.
Proof.
  destruct (registry_register_get Sample.registry "new" Sample.failing
              Sample.keep_going) as (_ & _ & _ & Hother & _).
  apply Hother. discriminate.
Defined.

Lemma registry_list_tools_witness :
  "set_a" ∈ ToolRegistry.list_tools Sample.registry.
Proof.
  destruct (registry_list_tools Sample.registry "new" Sample.failing)
    as (Hhas & _).
  apply Hhas. vm_compute. reflexivity.
Defined.

Lemma create_graph_then_get_graph_witness :
  exists s',
    GraphManager.create_graph "id" Sample.looping_graph Sample.storage
    = (s', Ok "id")
    /\ GraphManager.get_graph "id" s' = (s', Ok Sample.looping_graph).
Proof.
  destruct (create_graph_then_get_graph "id" Sample.looping_graph Sample.storage)
    as (s' & Hcreate & Hget & _).
  - apply sample_graph_without_violation. vm_compute. reflexivity.
  - exists s'. split; assumption.
Defined.

Lemma execute_unknown_graph_witness :
  execute 5 Sample.registry "run" "missing" [] Sample.storage
  = (Sample.storage, Raise (GraphNotFoundError "missing")).
Proof.
  apply (execute_unknown_graph 5 Sample.registry "run" "missing" []
           Sample.storage).
  vm_compute. reflexivity.
Defined.

Lemma failing_run_result :
  execute 5 Sample.registry "run" "failing" [("c", PyInt 0)] Sample.storage
  = (fst (execute 5 Sample.registry "run" "failing" [("c", PyInt 0)]
            Sample.storage),
     Ok (Some Sample.failing_result)).
Proof. vm_compute. reflexivity. Qed.

Lemma looping_run_result :
  execute 5 Sample.registry "run" "looping" [] Sample.storage
  = (fst (execute 5 Sample.registry "run" "looping" [] Sample.storage),
     Ok (Some MoreSamples.looping_result)).
Proof. vm_compute. reflexivity. Qed.

Lemma result_agrees_with_stored_run_witness :
  StateManager.get_run "run"
    (fst (execute 5 Sample.registry "run" "failing" [("c", PyInt 0)]
            Sample.storage))
  = (fst (execute 5 Sample.registry "run" "failing" [("c", PyInt 0)]
            Sample.storage),
     Ok (RunData.mk "run" "failing"
           [("c", PyInt 0); ("a", PyInt 2); ("b", PyInt 3)] "failed" [])).
Proof.
  destruct (result_agrees_with_stored_run 5 Sample.registry "run" "failing"
              [("c", PyInt 0)] Sample.storage
              (fst (execute 5 Sample.registry "run" "failing" [("c", PyInt 0)]
                      Sample.storage))
              Sample.failing_result failing_run_result)
    as (Hstored & _).
  exact Hstored.
Defined.

Lemma trace_is_a_chain_witness :
  chained [("c", PyInt 0)] (ExecutionResult.execution_log Sample.failing_result)
    (ExecutionResult.final_state Sample.failing_result).
Proof.
  exact (trace_is_a_chain 5 Sample.registry "run" "failing" [("c", PyInt 0)]
           Sample.storage
           (fst (execute 5 Sample.registry "run" "failing" [("c", PyInt 0)]
                   Sample.storage))
           Sample.failing_result failing_run_result).
Defined.

Lemma loop_policy_bounds_executions_witness :
  Z.of_nat (count_node "A"
              (ExecutionResult.execution_log MoreSamples.looping_result))
  <= 3 + 1.
Proof.
  destruct (loop_policy_bounds_executions 5 Sample.registry "run" "looping" []
              Sample.storage
              (fst (execute 5 Sample.registry "run" "looping" [] Sample.storage))
              MoreSamples.looping_result Sample.looping_graph
              "A" Sample.looping_policy) as [Hbound _].
  - vm_compute. reflexivity.
  - reflexivity.
  - vm_compute. discriminate.
  - exact looping_run_result.
  - exact Hbound.
Defined.

Lemma failing_run_result_limit :
  snd (RecursionLimit.execute DeepSamples.default_limit 5 Sample.registry "run"
         "failing" [("c", PyInt 0)] Sample.storage)
  = Ok (Some Sample.failing_result).
Proof. vm_compute. reflexivity. Qed.

Lemma validated_graph_failures_witness :
  exists e,
    ExecutionResult.error Sample.failing_result = Some (str_exn e)
    /\ (engine_failure e
        \/ (e = RecursionError
            /\ deep DeepSamples.default_limit Sample.failing_graph)).
Proof.
  apply (validated_graph_failures DeepSamples.default_limit 5 Sample.registry
           "run" "failing" [("c", PyInt 0)] Sample.storage
           (fst (RecursionLimit.execute DeepSamples.default_limit 5
                   Sample.registry "run" "failing" [("c", PyInt 0)]
                   Sample.storage))
           Sample.failing_result Sample.failing_graph).
  - vm_compute. reflexivity.
  - vm_compute. reflexivity.
  - rewrite <- failing_run_result_limit. apply surjective_pairing.
  - reflexivity.
Defined.

Lemma self_edge_without_policy_never_ends_witness :
  exists s' state,
    execute 7 Sample.registry "run" "spinning" [] MoreSamples.spinning_storage
    = (s', Ok None)
    /\ StateManager.get_run "run" s'
       = (s', Ok (RunData.mk "run" "spinning" state "running" [])).
Proof.
  apply (self_edge_without_policy_never_ends 7 Sample.registry "run" "spinning"
           [] MoreSamples.spinning_storage MoreSamples.spinning_graph
           Sample.keep_going [] []).
  - vm_compute. reflexivity.
  - vm_compute. reflexivity.
  - intros state. eexists. reflexivity.
  - reflexivity.
  - reflexivity.
  - constructor.
Defined.

Lemma edges_with_policy_condition_never_taken_witness :
  @None string = Some "improve" \/ @None string = None.
Proof.
  apply (edges_with_policy_condition_never_taken MoreSamples.review_registry
           "run" MoreSamples.review_graph "improve" no_locals
           (snd (fst (loop_body MoreSamples.review_registry "run"
                        MoreSamples.review_graph "improve" no_locals
                        MoreSamples.review_run)))
           MoreSamples.review_run
           (fst (fst (loop_body MoreSamples.review_registry "run"
                        MoreSamples.review_graph "improve" no_locals
                        MoreSamples.review_run)))
           (fresh_run "run" "review" [("code", PyStr "pass")])
           MoreSamples.review_policy None).
  - vm_compute. reflexivity.
  - reflexivity.
  - intros edge Hin Hsource. simpl in Hin.
    destruct Hin as [ <- | [ <- | [ <- | [ <- | [] ] ] ] ];
      try discriminate Hsource.
    reflexivity.
  - vm_compute. reflexivity.
Defined.

Lemma missing_field_compares_as_none_witness :
  _evaluate_condition (ConditionConfig.mk "score" "gte" (PyInt 5))
    [("other", PyInt 9)]
  = Ok false.
Proof.
  destruct (missing_field_compares_as_none
              (ConditionConfig.mk "score" "gte" (PyInt 5)) [("other", PyInt 9)])
    as (Hordering & _).
  - reflexivity.
  - apply Hordering. simpl. auto.
Defined.

Lemma opposite_conditions_exclude_each_other_witness :
  ~ (_evaluate_condition (ConditionConfig.mk "x" "gt" (PyInt 5))
       [("x", PyInt 7)] = Ok true
     /\ _evaluate_condition (ConditionConfig.mk "x" "lte" (PyInt 5))
          [("x", PyInt 7)] = Ok true).
Proof.
  destruct (opposite_conditions_exclude_each_other "x" (PyInt 5) [("x", PyInt 7)])
    as (Hgt_lte & _).
  exact Hgt_lte.
Defined.

Lemma validate_operator_matches_evaluator_witness :
  exists op_func, operators "gte" = Some op_func.
Proof.
  destruct (validate_operator_matches_evaluator "gte") as (Hvalid & _).
  apply Hvalid. reflexivity.
Defined.

Lemma unique_node_names_iff_NoDup_witness :
  find_node Sample.looping_graph "B" = Some (NodeConfig.mk "B" "set_a" None).
Proof.
  destruct (unique_node_names_iff_NoDup Sample.looping_graph) as (_ & Hfind).
  apply (Hfind eq_refl (NodeConfig.mk "B" "set_a" None)).
  right. left. reflexivity.
Defined.

Lemma create_graph_route_answers_witness :
  routes.create_graph "id" Sample.looping_graph Sample.storage
  = (InMemoryStorage.save_graph "id" Sample.looping_graph Sample.storage,
     Ok (routes.Response (routes.CreateGraphResponse.mk "id")))
  /\ exists detail,
       routes.create_graph "id" Sample.broken_graph Sample.storage
       = (Sample.storage, Ok (routes.HTTPException 400 detail)).
Proof.
  split.
  - destruct (create_graph_route_answers "id" Sample.looping_graph Sample.storage)
      as (_ & Haccept).
    apply Haccept. apply sample_graph_without_violation. vm_compute. reflexivity.
  - destruct (create_graph_route_answers "id" Sample.broken_graph Sample.storage)
      as (Hreject & _).
    eexists. apply Hreject.
    apply validation_errors_violation. eexists. vm_compute. left. reflexivity.
Defined.

(* ================================================================== *)
(** * Further properties: completion and run creation *)

(** X24. Take a run that has gone through [n] iterations and is about to
    execute a node without loop policy whose handler returns.  If no edge
    out of the node matches the state the node leaves, the run completes
    there: [execute] returns status [completed], that state, the log with
    the record of this node as its last, and no error, and the stored
    record has status [completed]. *)
Theorem run_completes_without_matching_edge (fuel : nat)
    (registry : ToolRegistry.t) (run_id graph_id : string)
    (initial_state : Dict) (s : InMemoryStorage.t) (graph : GraphConfig.t)
    (n : nat) (current_node : string) (vars : locals)
    (s1 : InMemoryStorage.t) (run_data : RunData.t)
    (handler : Callable) (result : Any) :
  InMemoryStorage._graphs s !! graph_id = Some graph ->
  iterations n registry run_id graph (GraphConfig.entry_node graph) no_locals
    (started run_id graph_id initial_state s) = Some (current_node, vars, s1) ->
  (n < fuel)%nat ->
  run_of s1 run_id = Some run_data ->
  handler_of registry graph current_node = Some handler ->
  handler (RunData.current_state run_data) = Returns result ->
  loop_config_at graph current_node = None ->
  next_by_edges graph current_node
    (merged (RunData.current_state run_data) result) = None ->
  let final_state := merged (RunData.current_state run_data) result in
  let log_entry :=
    ExecutionLog.mk current_node (RunData.current_state run_data) final_state
      "success" in
  exists s',
    execute fuel registry run_id graph_id initial_state s
    = (s',
       Ok (Some (ExecutionResult.mk run_id graph_id "completed" final_state
                   (execution_log vars ++ [log_entry]) None)))
    /\ run_of s' run_id
       = Some (with_status (with_state run_data final_state) "completed").
Proof.
  intros Hgraph Hiter Hfuel Hrun Hhandler Hret Hpolicy Hnext final_state log_entry.
  assert (Hloop :
    while_loop fuel registry run_id graph (Some (GraphConfig.entry_node graph))
      no_locals (started run_id graph_id initial_state s)
    = (after_node run_id run_data result s1,
       Locals (execution_log vars ++ [log_entry]) (loop_counts vars),
       Finished)).
  { replace fuel with (n + S (fuel - S n))%nat by lia.
    rewrite (while_loop_iterations _ _ _ _ _ _ _ _ _ _ _ Hiter).
    simpl while_loop. rewrite (loop_body_found _ _ _ _ _ _ _ Hrun).
    rewrite (execute_node_returns _ _ _ _ _ _ _ _ Hrun Hhandler Hret).
    cbv zeta. rewrite Hpolicy. simpl ExecutionLog.state_after. rewrite Hnext.
    destruct (fuel - S n)%nat; reflexivity. }
  destruct (execute_outcome _ _ _ _ _ _ _ _ _ _ Hgraph Hloop)
    as (state1 & Hrun1 & Heq).
  cbv zeta in Hrun1.
  rewrite (run_of_after_node _ _ result _ Hrun) in Hrun1.
  injection Hrun1 as Hid Hgid Hstate Hstatus Hlog.
  eexists. split.
  - rewrite Heq, <- Hstate. reflexivity.
  - rewrite run_of_save_run. subst final_state.
    destruct run_data. simpl in *. subst. reflexivity.
Qed.

(** X25. [initialize] stores a record with the initial state, status
    [running] and an empty log under the run identifier, whatever was
    stored there, and touches nothing else; [update_run] stores the record
    it is given under that record's own identifier. *)
Theorem initialize_then_get_run (run_id graph_id : string)
    (initial_state : Dict) (s : InMemoryStorage.t) (run_data : RunData.t) :
  (exists s',
      StateManager.initialize run_id graph_id initial_state s
      = (s', Ok (RunData.mk run_id graph_id initial_state "running" []))
      /\ StateManager.get_run run_id s'
         = (s', Ok (RunData.mk run_id graph_id initial_state "running" []))
      /\ StateManager.get_state run_id s' = (s', Ok initial_state)
      /\ same_elsewhere run_id s s')
  /\ (exists s',
        StateManager.update_run run_data s = (s', Ok tt)
        /\ StateManager.get_run (RunData.run_id run_data) s' = (s', Ok run_data)
        /\ same_elsewhere (RunData.run_id run_data) s s').
Proof.
  split.
  - rewrite initialize_spec. eexists. split; [ reflexivity | ].
    pose proof (run_of_save_run run_id
                  (RunData.mk run_id graph_id initial_state "running" []) s)
      as Hrun.
    split; [ | split ].
    + unfold StateManager.get_run, load_run, InMemoryStorage.load_run.
      unfold run_of in Hrun. rewrite Hrun. reflexivity.
    + rewrite (get_state_found _ _ _ Hrun). reflexivity.
    + apply same_elsewhere_save_run.
  - unfold StateManager.update_run, save_run. eexists.
    split; [ reflexivity | ].
    pose proof (run_of_save_run (RunData.run_id run_data) run_data s) as Hrun.
    split; [ | apply same_elsewhere_save_run ].
    unfold StateManager.get_run, load_run, InMemoryStorage.load_run.
    unfold run_of in Hrun. rewrite Hrun. reflexivity.
Qed.

(** Two nodes with an edge from the first to the second and none out of
    the second: two records, status [completed]. *)
Lemma run_completes_without_matching_edge_witness :
  exists s',
    execute 5 Sample.registry "run" "branching" [("x", PyInt 3)] Sample.storage
    = (s',
       Ok (Some (ExecutionResult.mk "run" "branching" "completed"
                   [("x", PyInt 3); ("a", PyInt 2); ("b", PyInt 3)]
                   [ExecutionLog.mk "A" [("x", PyInt 3)]
                      [("x", PyInt 3); ("a", PyInt 2); ("b", PyInt 3)] "success";
                    ExecutionLog.mk "B"
                      [("x", PyInt 3); ("a", PyInt 2); ("b", PyInt 3)]
                      [("x", PyInt 3); ("a", PyInt 2); ("b", PyInt 3)] "success"]
                   None))).
Proof.
  destruct (run_completes_without_matching_edge 5 Sample.registry "run"
              "branching" [("x", PyInt 3)] Sample.storage Sample.branching_graph
              1 "B"
              (Locals [ExecutionLog.mk "A" [("x", PyInt 3)]
                         [("x", PyInt 3); ("a", PyInt 2); ("b", PyInt 3)]
                         "success"] ∅)
              (InMemoryStorage.save_run "run"
                 (fresh_run "run" "branching"
                    [("x", PyInt 3); ("a", PyInt 2); ("b", PyInt 3)])
                 Sample.branching_run)
              (fresh_run "run" "branching"
                 [("x", PyInt 3); ("a", PyInt 2); ("b", PyInt 3)])
              Sample.set_a (PyDict [("a", PyInt 2); ("b", PyInt 3)]))
    as (s' & Hexec & _).
  - vm_compute. reflexivity.
  - vm_compute. reflexivity.
  - lia.
  - vm_compute. reflexivity.
  - vm_compute. reflexivity.
  - reflexivity.
  - reflexivity.
  - reflexivity.
  - exists s'. exact Hexec.
Defined.
